(** * Behaviour model and plan generation: a verified embedding

    Shallow embedding of [backend/behavior_model.py] and
    [backend/ai_engine.py], and the properties of the scores, the
    classifier, the hysteresis step and plan generation.

    - Python [float] is IEEE-754 binary64, which is Rocq's primitive
      [float]: the arithmetic of the source ([+], [-], [*], [/] and the
      comparisons) is embedded as the primitive operations.  The three
      places where Python leaves binary arithmetic, [int / int],
      [round(x, 2)] and [statistics.mean], compute an exact rational and
      round it once; they go through one correctly rounded conversion,
      [float_of_Q].
    - Exceptions are explicit: a computation returns a value or raises, and
      [try ... except] names the classes it catches.
    - The collections are lists of documents in stored order; a query is a
      filter, a sort and a cut.  The clock is an argument, and one
      evaluation reads one instant and one snapshot of the database.
    - A [date] is a day ordinal and a [datetime] a number of milliseconds;
      subtracting a [timedelta] raises [OverflowError] when the result
      leaves the calendar of the years 1 to 9999.
    - [float(s)], [int(s)] on text and [date.isoformat()] belong to Python
      and are parameters of the embedding ([Runtime]). *)

From Stdlib Require Import ZArith QArith Qround Qabs Qpower Bool List String Ascii.
From Stdlib Require Import Floats Lia Lqa.
From Stdlib Require Import Sorted.
Import ListNotations.

Set Warnings "-inexact-float,-register-all".
Local Open Scope string_scope.
Local Open Scope Z_scope.

(** ** Python values, exceptions and built-in coercions *)

Module Py.

(** The exception classes the two source files can meet; all of them are
    subclasses of Python's [Exception]. *)
Inductive exn : Type :=
| ValueError
| TypeError
| KeyError
| OverflowError
| ZeroDivisionError
| StatisticsError
| OtherError (name : string).

Inductive outcome (A : Type) : Type :=
| Returned (a : A)
| Raised (e : exn).
Arguments Returned {A} a.
Arguments Raised {A} e.

Definition bind {A B : Type} (c : outcome A) (k : A -> outcome B) : outcome B :=
  match c with
  | Returned a => k a
  | Raised e => Raised e
  end.

Definition exn_eqb (a b : exn) : bool :=
  match a, b with
  | ValueError, ValueError | TypeError, TypeError | KeyError, KeyError
  | OverflowError, OverflowError | ZeroDivisionError, ZeroDivisionError
  | StatisticsError, StatisticsError => true
  | OtherError x, OtherError y => String.eqb x y
  | _, _ => false
  end.

(** [try: c except (e1, ..., en): h] *)
Definition try_except {A : Type} (c : outcome A) (classes : list exn)
           (h : outcome A) : outcome A :=
  match c with
  | Returned a => Returned a
  | Raised e => if existsb (exn_eqb e) classes then h else Raised e
  end.

(** Values that a document field or a method result may hold; an embedded
    document is a [dict] with string keys. *)
Inductive value : Type :=
| VNone
| VBool (b : bool)
| VInt (z : Z)
| VFloat (f : float)
| VStr (s : string)
| VList (l : list value)
| VDict (d : list (string * value)).

(** Truth value of an object, as tested by [if x], [x or y], [not x]. *)
Definition truthy (v : value) : bool :=
  match v with
  | VNone => false
  | VBool b => b
  | VInt z => negb (z =? 0)
  | VFloat f => negb (f =? 0)%float
  | VStr s => negb (String.eqb s "")
  | VList l => match l with [] => false | _ => true end
  | VDict d => match d with [] => false | _ => true end
  end.

(** [x or y] *)
Definition py_or (x y : value) : value := if truthy x then x else y.

(** Lists and dictionaries are the unhashable values; using one as a
    dictionary key raises [TypeError]. *)
Definition hashable (v : value) : bool :=
  match v with
  | VList _ | VDict _ => false
  | _ => true
  end.

(** [d.get(key, default)] for a dictionary literal whose keys are all
    strings: a key of another hashable type compares unequal to every
    string. *)
Fixpoint assoc {A : Type} (d : list (string * A)) (k : string) : option A :=
  match d with
  | [] => None
  | (k', a) :: rest => if String.eqb k k' then Some a else assoc rest k
  end.

Definition dict_get {A : Type} (d : list (string * A)) (key : value)
           (default : A) : outcome A :=
  match key with
  | VList _ | VDict _ => Raised TypeError
  | VStr s => Returned (match assoc d s with Some a => a | None => default end)
  | _ => Returned default
  end.

(** [a == "literal"] *)
Definition eq_str (a : value) (lit : string) : bool :=
  match a with
  | VStr s => String.eqb s lit
  | _ => false
  end.

(** Built-ins whose behaviour on text is fixed by the Python language and
    not by this repository: [float(s)] and [int(s)] on a string ([None]
    when they raise [ValueError]), and [date.isoformat()] on a day
    ordinal. *)
Class Runtime : Type := {
  float_of_str : string -> option float;
  int_of_str : string -> option Z;
  isoformat : Z -> string
}.

End Py.

Import Py.

Declare Scope py_scope.
Delimit Scope py_scope with py.
Notation "x <- c ;; k" := (Py.bind c (fun x => k))
  (at level 61, c at next level, right associativity) : py_scope.
Notation "' p <- c ;; k" := (Py.bind c (fun x => match x with p => k end))
  (at level 61, p pattern, c at next level, right associativity) : py_scope.

(** ** Python floats *)

Module PyFloat.

(** [m * 2 ^ e] as a rational. *)
Definition Qval (m e : Z) : Q := (inject_Z m * 2 ^ e)%Q.

(** Exact value of a finite float, as a rational. *)
Definition Q_of_SF (x : spec_float) : option Q :=
  match x with
  | S754_zero _ => Some 0%Q
  | S754_finite s m e => Some (Qval (cond_Zopp s (Zpos m)) e)
  | _ => None
  end.

Definition exact (x : float) : option Q := Q_of_SF (Prim2SF x).

(** The binary64 nearest to the rational [q], ties to even.  The quotient
    is computed on integers with at least [prec + 2] significant bits and
    a sticky last bit, then rounded once by the library's
    [binary_normalize]. *)
Definition SF_of_Q (q : Q) : spec_float :=
  let n := Qnum q in
  let d := Zpos (Qden q) in
  let a := Z.abs n in
  let k := Z.max 0 (56 + Zdigits2 d - Zdigits2 a) in
  let '(quo, r) := Z.div_eucl (a * 2 ^ k) d in
  let m := 2 * quo + (if r =? 0 then 0 else 1) in
  binary_normalize prec emax (if n <? 0 then - m else m) (- k - 1) false.

Definition float_of_Q (q : Q) : float := SF2Prim (SF_of_Q q).

(** Rationals of magnitude [2^1024 - 2^970] or more round to an infinity;
    Python raises [OverflowError] for them instead. *)
Definition overflow_bound : Q := inject_Z (2 ^ 1024 - 2 ^ 970).

(** The largest finite binary64. *)
Definition max_float_Z : Z := (2 ^ 53 - 1) * 2 ^ 971.

(** Conversion of an exact rational to [float], as done by
    [float(Fraction)] and by [int / int]. *)
Definition py_float_of_Q (q : Q) : outcome float :=
  if Qle_bool overflow_bound (Qabs q) then Raised OverflowError
  else Returned (float_of_Q q).

(** [float(n)] for an [int]. *)
Definition py_float_of_Z (z : Z) : outcome float := py_float_of_Q (inject_Z z).

(** [a / b] on two [int]s. *)
Definition py_truediv (a b : Z) : outcome float :=
  match b with
  | Z0 => Raised ZeroDivisionError
  | Zpos d => py_float_of_Q (Qmake a d)
  | Zneg d => py_float_of_Q (Qmake (- a) d)
  end.

(** [int(x)] for a [float]: truncation towards zero. *)
Definition py_int_of_float (x : float) : outcome Z :=
  match Prim2SF x with
  | S754_nan => Raised ValueError
  | S754_infinity _ => Raised OverflowError
  | sf => match Q_of_SF sf with
          | Some q => Returned (if Qle_bool 0 q then Qfloor q else Qceiling q)
          | None => Raised ValueError
          end
  end.

(** The integer nearest to [q], ties to the even one. *)
Definition round_half_even (q : Q) : Z :=
  let f := Qfloor q in
  match Qcompare (q - inject_Z f) (1 # 2) with
  | Lt => f
  | Gt => f + 1
  | Eq => if Z.even f then f else f + 1
  end.

(** [round(x, 2)] on a float: the exact binary value is rounded
    half-to-even to a whole number of hundredths, and that decimal is
    converted back to the nearest float.  Zeros, infinities and NaN are
    returned unchanged; the sign is kept (so [round(-0.001, 2)] is
    [-0.0]). *)
Definition round2 (x : float) : float :=
  match Prim2SF x with
  | S754_finite s m e =>
      let q := Qval (Zpos m) e in
      let r := float_of_Q (Qmake (round_half_even (q * 100)) 100) in
      if s then (- r)%float else r
  | _ => x
  end.

(** Built-in [min(a, b)] and [max(a, b)]: the first argument is kept
    unless the second compares strictly smaller (resp. greater). *)
Definition py_min (a b : float) : float := if (b <? a)%float then b else a.
Definition py_max (a b : float) : float := if (a <? b)%float then b else a.

(** Neither an infinity nor a NaN. *)
Definition is_finite_float (x : float) : bool :=
  match exact x with Some _ => true | None => false end.

(** The exact sum of the finite items, as a reduced fraction. *)
Fixpoint exact_sum (data : list float) : Q :=
  match data with
  | [] => 0%Q
  | x :: rest =>
      Qred (match exact x with Some q => q | None => 0%Q end + exact_sum rest)
  end.

(** [statistics.mean] on a list of floats.  Finite data are summed
    exactly as fractions and the quotient is rounded once; when an
    infinity or a NaN is present, only the non-finite items are added, in
    float arithmetic, and the total is divided by the count. *)
Definition mean (data : list float) : outcome float :=
  match data with
  | [] => Raised StatisticsError
  | _ =>
      let n := Z.of_nat (List.length data) in
      if forallb is_finite_float data
      then py_float_of_Q (exact_sum data / inject_Z n)
      else
        let special := filter (fun x => negb (is_finite_float x)) data in
        Returned (fold_left PrimFloat.add special 0%float / float_of_Q (inject_Z n))%float
  end.

(** [statistics.mean] on a list of ints, followed by [int(...)]: the
    exact mean is returned as an [int] when it is whole, and otherwise
    converted to [float], which [int] then truncates. *)
Definition int_of_mean_of_ints (data : list Z) : outcome Z :=
  match data with
  | [] => Raised StatisticsError
  | _ =>
      let q := Qred (inject_Z (fold_left Z.add data 0) / inject_Z (Z.of_nat (List.length data))) in
      if (Qden q =? 1)%positive then Returned (Qnum q)
      else (f <- py_float_of_Q q ;; py_int_of_float f)%py
  end.

End PyFloat.

Import PyFloat.

(** ** Python dates *)

Module PyDate.

(** [date.min.toordinal()] and [date.max.toordinal()]: 0001-01-01 and
    9999-12-31. *)
Definition date_min : Z := 1.
Definition date_max : Z := 3652059.

(** [datetime.min] and [datetime.max] in milliseconds from 1970-01-01, the
    unit of a BSON date. *)
Definition datetime_min : Z := -62135596800000.
Definition datetime_max : Z := 253402300799999.

Definition is_date (d : Z) : bool := (date_min <=? d) && (d <=? date_max).

Definition is_datetime (t : Z) : bool :=
  (datetime_min <=? t) && (t <=? datetime_max).

(** [d - timedelta(days=n)] on a [date]: [OverflowError] when the result
    is not a date of the calendar, which includes every [n] too large for
    a [timedelta]. *)
Definition date_minus_days (d n : Z) : outcome Z :=
  if is_date (d - n) then Returned (d - n) else Raised OverflowError.

(** [t - timedelta(hours=n)] on a [datetime], likewise. *)
Definition datetime_minus_hours (t n : Z) : outcome Z :=
  if is_datetime (t - n * 3600000) then Returned (t - n * 3600000)
  else Raised OverflowError.

End PyDate.

Import PyDate.

(** ** The built-ins [float] and [int] on values *)

Module PyBuiltins.

Section WithRuntime.
Context {RT : Runtime}.

(** [float(v)] *)
Definition py_float (v : value) : outcome float :=
  match v with
  | VNone => Raised TypeError
  | VBool b => Returned (if b then 1 else 0)%float
  | VInt z => py_float_of_Z z
  | VFloat f => Returned f
  | VStr s => match float_of_str s with
              | Some f => Returned f
              | None => Raised ValueError
              end
  | VList _ | VDict _ => Raised TypeError
  end.

(** [int(v)] *)
Definition py_int (v : value) : outcome Z :=
  match v with
  | VNone => Raised TypeError
  | VBool b => Returned (if b then 1 else 0)
  | VInt z => Returned z
  | VFloat f => py_int_of_float f
  | VStr s => match int_of_str s with
              | Some z => Returned z
              | None => Raised ValueError
              end
  | VList _ | VDict _ => Raised TypeError
  end.

End WithRuntime.

End PyBuiltins.

Import PyBuiltins.

(** ** Documents and collections *)

Module Mongo.

(** A [sensordata] document.  [ts] is the BSON date, in milliseconds;
    [value] is [None] when the document has no such field. *)
Record sample : Type := {
  s_userId : string;
  s_metricType : string;
  s_ts : Z;
  s_value : option value
}.

(** An element of a plan's [items], a document as [plan_item] builds it; a
    field the document lacks reads as [VNone], which is what
    [it.get(...)] returns for it. *)
Record item : Type := {
  it_type : value;
  it_intensity : value;
  it_duration : Z;
  it_description : string
}.

(** A [plans] document in the schema of [plan_doc], [items] being a list
    of item documents; a plan without [items] has the empty list, and a
    missing [status] reads as [VNone]. *)
Record plan : Type := {
  p_userId : string;
  p_date : string;
  p_status : value;
  p_items : list item
}.

Record recommendation : Type := {
  r_userId : string;
  r_message : string;
  r_context : string
}.

Record database : Type := {
  plans : list plan;
  sensordata : list sample;
  recommendations : list recommendation
}.

(** [cursor.sort(key, -1)]: descending.  MongoDB leaves the order of
    documents with equal keys open; here they keep their stored order. *)
Section Sort.
Context {A : Type} (geb : A -> A -> bool).

Fixpoint insert_desc (x : A) (l : list A) : list A :=
  match l with
  | [] => [x]
  | y :: rest => if geb x y then x :: l else y :: insert_desc x rest
  end.

Definition sort_desc (l : list A) : list A := fold_right insert_desc [] l.
End Sort.

(** [cursor.limit(n)] for a natural number [n]: the first [n] documents,
    and every document when [n] is 0, which MongoDB reads as no limit. *)
Definition cursor_limit {A : Type} (n : nat) (l : list A) : list A :=
  match n with
  | O => l
  | S _ => firstn n l
  end.

Definition by_ts_desc : list sample -> list sample :=
  sort_desc (fun a b => s_ts b <=? s_ts a).

Definition by_date_desc : list plan -> list plan :=
  sort_desc (fun a b => String.leb (p_date b) (p_date a)).

(** [find_one({"userId": u}, sort=[("date", -1)])] *)
Definition find_one_latest (ps : list plan) (u : string) : option plan :=
  hd_error (by_date_desc (filter (fun p => String.eqb (p_userId p) u) ps)).

(** [update_one({"userId": u, "date": d}, {"$set": doc}, upsert=True)],
    where [doc] carries every field of a plan: the first matching document
    takes the new fields, and the document is inserted when none
    matches. *)
Fixpoint upsert_plan (doc : plan) (ps : list plan) : list plan :=
  match ps with
  | [] => [doc]
  | p :: rest =>
      if String.eqb (p_userId p) (p_userId doc) && String.eqb (p_date p) (p_date doc)
      then doc :: rest
      else p :: upsert_plan doc rest
  end.

End Mongo.

Import Mongo.

(** A reading of the wall clock: [datetime.utcnow()] is a datetime and
    [date.today()] a date of the calendar, and neither falls in the first
    fortnight of the year 1 (a system clock counts from 1970), so that the
    windows the code asks for by default, 7 days and up to 336 hours,
    start within the calendar. *)
Definition clock_reading (utcnow today : Z) : bool :=
  is_datetime (utcnow - 336 * 3600000) && is_datetime utcnow
  && is_date (today - 7) && is_date today.

(** The wall clock read by the code: [datetime.utcnow()] in milliseconds and
    [date.today()] as a day ordinal.  One evaluation reads one instant. *)
Record clock : Type := {
  utcnow : Z;
  today : Z;
  clock_is_reading : clock_reading utcnow today = true
}.

(** ** [backend/behavior_model.py] *)

Module BehaviorModel.

Local Open Scope py_scope.

Definition _clamp (x : float) (lo hi : float) : float :=
  py_max lo (py_min hi x).

(** Default arguments [lo=0.1, hi=1.0]. *)
Definition _clamp_default (x : float) : float := _clamp x 0.1 1.0.

Section WithRuntime.
Context {RT : Runtime}.

(** [d["value"]] *)
Definition getitem_value (d : sample) : outcome value :=
  match s_value d with
  | Some v => Returned v
  | None => Raised KeyError
  end.

(** Lines 22-25: the query on [plans]. *)
Definition find_plans (db : database) (user_id since_str : string) : list plan :=
  filter (fun p => String.eqb (p_userId p) user_id
                   && String.leb since_str (p_date p))
         (plans db).

Definition _recent_plans (db : database) (clk : clock) (user_id : string)
           (days : Z) : outcome (list plan) :=
  since <- date_minus_days (today clk) days ;;
  let since_str := isoformat since in
  Returned (find_plans db user_id since_str).

(** The loop of [_values]: one sample at a time, appended when
    [float(d["value"])] succeeds, skipped on the three caught classes. *)
Fixpoint collect_values (cur : list sample) (vals : list float)
  : outcome (list float) :=
  match cur with
  | [] => Returned vals
  | d :: rest =>
      vals' <- try_except
                 (v <- getitem_value d ;; f <- py_float v ;; Returned (vals ++ [f])%list)
                 [ValueError; TypeError; KeyError]
                 (Returned vals) ;;
      collect_values rest vals'
  end.

(** Lines 31-34: the query on [sensordata], from the start [since] of the
    window. *)
Definition find_since (db : database) (user_id metric : string) (since : Z)
           (limit : nat) : list sample :=
  cursor_limit limit
    (by_ts_desc
       (filter (fun d => String.eqb (s_userId d) user_id
                         && String.eqb (s_metricType d) metric
                         && (since <=? s_ts d))
               (sensordata db))).

(** The cursor of [_values] for a window of [hours] hours. *)
Definition find_samples (db : database) (clk : clock) (user_id metric : string)
           (hours : Z) (limit : nat) : list sample :=
  find_since db user_id metric (utcnow clk - hours * 3600000) limit.

Definition _values (db : database) (clk : clock) (user_id metric : string)
           (hours : Z) (limit : nat) : outcome (list float) :=
  since <- datetime_minus_hours (utcnow clk) hours ;;
  collect_values (find_since db user_id metric since limit) [].

Definition count_completed (ps : list plan) : Z :=
  Z.of_nat (List.length (filter (fun p => eq_str (p_status p) "Completed") ps)).

Definition adherence_score (db : database) (clk : clock) (user_id : string)
           (days : Z) : outcome float :=
  plans <- _recent_plans db clk user_id days ;;
  match plans with
  | [] => Returned 0.5%float
  | _ =>
      let completed := count_completed plans in
      q <- py_truediv completed (Z.of_nat (List.length plans)) ;;
      Returned (round2 q)
  end.

(** [mean(xs) if xs else default] *)
Definition mean_or (xs : list float) (default : float) : outcome float :=
  match xs with
  | [] => Returned default
  | _ => mean xs
  end.

(** Lines 53-56: the two baselines. *)
Definition baselines (db : database) (clk : clock) (user_id : string)
  : outcome (float * float) :=
  hr_base_vals <- _values db clk user_id "HR" (24 * 14) 500 ;;
  sleep_base_vals <- _values db clk user_id "SleepScore" (24 * 14) 500 ;;
  hr_baseline <- mean_or hr_base_vals 75.0%float ;;
  sleep_baseline <- mean_or sleep_base_vals 70.0%float ;;
  Returned (hr_baseline, sleep_baseline).

(** Lines 59-63: the recent averages. *)
Definition recent_averages (db : database) (clk : clock) (user_id : string)
           (hr_baseline sleep_baseline : float) : outcome (float * float) :=
  hr_recent <- _values db clk user_id "HR" 24 500 ;;
  sleep_week <- _values db clk user_id "SleepScore" (24 * 7) 500 ;;
  let sleep_recent := firstn 3 sleep_week in
  hr_avg <- mean_or hr_recent hr_baseline ;;
  sleep_avg <- mean_or sleep_recent sleep_baseline ;;
  Returned (hr_avg, sleep_avg).

(** Lines 66-68: the two sub-scores. *)
Definition hr_score_of (hr_baseline hr_avg : float) : float :=
  let hr_delta := (hr_baseline - hr_avg)%float in
  _clamp_default (0.5 + hr_delta / 20.0)%float.

Definition sleep_score_of (sleep_avg : float) : float :=
  _clamp_default (sleep_avg / 100.0)%float.

Definition readiness_score (db : database) (clk : clock) (user_id : string)
  : outcome float :=
  '(hr_baseline, sleep_baseline) <- baselines db clk user_id ;;
  '(hr_avg, sleep_avg) <- recent_averages db clk user_id hr_baseline sleep_baseline ;;
  let hr_score := hr_score_of hr_baseline hr_avg in
  let sleep_score := sleep_score_of sleep_avg in
  let readiness := round2 (0.4 * hr_score + 0.6 * sleep_score)%float in
  Returned readiness.

(** Lines 78-84: the base thresholds. *)
Definition base_thresholds (r a : float) : string :=
  if ((0.8 <? r) && (0.6 <=? a))%float then "High"
  else if (0.6 <=? r)%float then "Moderate"
  else "Low".

(** Lines 92-97: the intensity of the first [Workout] item of the last
    plan, [VNone] when there is none. *)
Fixpoint first_workout_intensity (items : list item) : value :=
  match items with
  | [] => VNone
  | it :: rest =>
      if eq_str (it_type it) "Workout" then it_intensity it
      else first_workout_intensity rest
  end.

Definition last_workout_intensity (last : option plan) : value :=
  match last with
  | Some p => first_workout_intensity (p_items p)
  | None => VNone
  end.

Definition order : list (string * Z) := [("Low", 0); ("Moderate", 1); ("High", 2)].

(** Lines 99-108: the hysteresis step. *)
Definition hysteresis (target : string) (last_intensity : value)
  : outcome string :=
  if truthy last_intensity then
    li <- dict_get order last_intensity 1 ;;
    ti <- dict_get order (VStr target) 1 ;;
    if ti - li >? 1 then Returned "Moderate"
    else if li - ti >? 1 then Returned "Moderate"
    else Returned target
  else Returned target.

Definition next_best_intensity (db : database) (clk : clock) (user_id : string)
  : outcome string :=
  r <- readiness_score db clk user_id ;;
  a <- adherence_score db clk user_id 7 ;;
  let target := base_thresholds r a in
  let last := find_one_latest (plans db) user_id in
  hysteresis target (last_workout_intensity last).

End WithRuntime.

End BehaviorModel.

(** ** [backend/ai_engine.py] *)

Module AiEngine.

Local Open Scope py_scope.

(** Modelled from the spec: [plan_item] of the absent [models] module,
    which builds a PlanItem {type, intensity, durationMinutes,
    description} from its four arguments. *)
Definition plan_item (type intensity : string) (duration : Z)
           (description : string) : item :=
  {| it_type := VStr type; it_intensity := VStr intensity;
     it_duration := duration; it_description := description |}.

(** Modelled from the spec: [plan_doc] of the absent [models] module,
    which builds a PlanRecord {userId, date, status, items}. *)
Definition plan_doc (user_id : string) (items : list item) (date status : string)
  : plan :=
  {| p_userId := user_id; p_date := date; p_status := VStr status;
     p_items := items |}.

(** Modelled from the spec: [recommendation_doc] of the absent [models]
    module, a document of the user, the message text and its context. *)
Definition recommendation_doc (user_id msg context : string) : recommendation :=
  {| r_userId := user_id; r_message := msg; r_context := context |}.

Record user : Type := { userId : string }.

(** The [behavior_model] argument: any object with a
    [next_best_intensity(user_id)] method, which reads the database and
    returns a value or raises. *)
Record BehaviorModelLike : Type := {
  bm_next_best_intensity : database -> clock -> string -> outcome value
}.

(** Calls made to the collaborators, in order. *)
Inductive call : Type :=
| CallNextBestIntensity (user_id : string)
| CallUpdateOne (user_id date : string)
| CallInsertOne (user_id : string).

Record world : Type := {
  w_db : database;
  w_calls : list call
}.

Definition log (c : call) (w : world) : world :=
  {| w_db := w_db w; w_calls := (w_calls w ++ [c])%list |}.

Definition set_plans (ps : list plan) (w : world) : world :=
  {| w_db := {| plans := ps; sensordata := sensordata (w_db w);
                recommendations := recommendations (w_db w) |};
     w_calls := w_calls w |}.

Definition add_recommendation (r : recommendation) (w : world) : world :=
  {| w_db := {| plans := plans (w_db w); sensordata := sensordata (w_db w);
                recommendations := (recommendations (w_db w) ++ [r])%list |};
     w_calls := w_calls w |}.

Definition base : list (string * list item) :=
  [ ("Low",
     [ plan_item "Workout" "Low" 20 "Light mobility + walk";
       plan_item "Habit" "Low" 5 "Hydrate: +1L";
       plan_item "Recovery" "Low" 10 "Stretch + sleep target 8h" ]);
    ("Moderate",
     [ plan_item "Workout" "Moderate" 35 "Bodyweight circuit + brisk walk";
       plan_item "Habit" "Low" 5 "2L water + protein target";
       plan_item "Recovery" "Low" 10 "Cooldown + mindfulness 5m" ]);
    ("High",
     [ plan_item "Workout" "High" 45 "Intervals + strength";
       plan_item "Habit" "Low" 5 "Macros check + 2.5L water";
       plan_item "Recovery" "Low" 15 "Mobility + sleep hygiene" ]) ].

(** [base["Moderate"]] *)
Definition base_Moderate : list item :=
  match assoc base "Moderate" with Some l => l | None => [] end.

Section WithRuntime.
Context {RT : Runtime}.

(** Lines 8-12: the call, [or "Moderate"], and the handler of
    [except Exception]. *)
Definition safe_intensity (bm : BehaviorModelLike) (clk : clock)
           (user_id : string) (w : world) : value * world :=
  let w1 := log (CallNextBestIntensity user_id) w in
  match bm_next_best_intensity bm (w_db w) clk user_id with
  | Returned v => (py_or v (VStr "Moderate"), w1)
  | Raised _ => (VStr "Moderate", w1)
  end.

Definition generate_plan (u : user) (bm : BehaviorModelLike) (clk : clock)
           (w : world) : outcome plan * world :=
  let user_id := userId u in
  let '(intensity, w1) := safe_intensity bm clk user_id w in
  match dict_get base intensity base_Moderate with
  | Raised e => (Raised e, w1)
  | Returned items =>
      let plan := plan_doc user_id items (isoformat (today clk)) "Proposed" in
      let w2 := log (CallUpdateOne user_id (p_date plan)) w1 in
      let w3 := set_plans (upsert_plan plan (plans (w_db w2))) w2 in
      (Returned plan, w3)
  end.

(** Line 58: [[int(m["value"]) for m in cursor if "value" in m]] *)
Fixpoint step_values (cursor : list sample) : outcome (list Z) :=
  match cursor with
  | [] => Returned []
  | m :: rest =>
      match s_value m with
      | Some v =>
          z <- py_int v ;;
          zs <- step_values rest ;;
          Returned (z :: zs)
      | None => step_values rest
      end
  end.

Definition find_steps (db : database) (user_id : string) : list sample :=
  cursor_limit 6
    (by_ts_desc
       (filter (fun d => String.eqb (s_userId d) user_id
                         && String.eqb (s_metricType d) "Steps")
               (sensordata db))).

Definition nudge_message (avg : Z) : string :=
  if avg <? 300 then "Quick win: 10-minute brisk walk to boost your step count."
  else if avg <? 2000 then "Great start! Add another short walk to hit your daily goal."
  else "Nice pace! Add a 5-minute stretch break to stay loose.".

Definition generate_nudges (user_id : string) (bm : BehaviorModelLike)
           (w : world) : outcome recommendation * world :=
  let cursor := find_steps (w_db w) user_id in
  match (recent_steps <- step_values cursor ;;
         match recent_steps with
         | [] => Returned 0
         | _ => int_of_mean_of_ints recent_steps
         end) with
  | Raised e => (Raised e, w)
  | Returned avg =>
      let rec := recommendation_doc user_id (nudge_message avg) "nudge" in
      let w1 := log (CallInsertOne user_id) w in
      (Returned rec, add_recommendation rec w1)
  end.

End WithRuntime.

(** The class [BehaviorModel] of [behavior_model.py] as the
    [behavior_model] argument. *)
Definition the_behavior_model {RT : Runtime} : BehaviorModelLike :=
  {| bm_next_best_intensity := fun db clk user_id =>
       t <- BehaviorModel.next_best_intensity db clk user_id ;; Returned (VStr t) |}.

End AiEngine.


Import BehaviorModel AiEngine.

(** ** A runtime and data for closed examples *)

Module Example.

(** Decimal digits of a string, most significant first; [None] when a
    character is not a digit. *)
Definition digit_of (c : ascii) : option Z :=
  let n := Z.of_nat (nat_of_ascii c) in
  if (48 <=? n) && (n <=? 57) then Some (n - 48) else None.

Fixpoint digits_value (str : string) (acc : Z) : option Z :=
  match str with
  | EmptyString => Some acc
  | String c rest =>
      match digit_of c with
      | Some d => digits_value rest (10 * acc + d)
      | None => None
      end
  end.

Definition unsigned_of (str : string) : option Z :=
  match str with
  | EmptyString => None
  | _ => digits_value str 0
  end.

(** [int(s)] on an optional sign followed by digits. *)
Definition parse_int (str : string) : option Z :=
  match str with
  | String "-" rest => option_map Z.opp (unsigned_of rest)
  | String "+" rest => unsigned_of rest
  | _ => unsigned_of str
  end.

Fixpoint split_point (str : string) : string * option string :=
  match str with
  | EmptyString => (EmptyString, None)
  | String "." rest => (EmptyString, Some rest)
  | String c rest => let '(a, b) := split_point rest in (String c a, b)
  end.

Definition unsigned_decimal (str : string) : option Q :=
  match split_point str with
  | (whole, None) => option_map inject_Z (unsigned_of whole)
  | (whole, Some frac) =>
      match digits_value whole 0, digits_value frac 0 with
      | Some w, Some f =>
          if String.eqb whole "" && String.eqb frac "" then None
          else Some (inject_Z w + Qmake f (Pos.pow 10 (Pos.of_nat (String.length frac))))%Q
      | _, _ => None
      end
  end.

(** [float(s)] on an optional sign, digits and at most one decimal point,
    and on ["inf"] and ["nan"]; exponents, underscores and surrounding
    blanks are not read. *)
Definition parse_float (str : string) : option float :=
  if String.eqb str "inf" then Some infinity
  else if String.eqb str "nan" then Some nan
  else match str with
       | String "-" rest => option_map (fun q => (- float_of_Q q)%float) (unsigned_decimal rest)
       | String "+" rest => option_map float_of_Q (unsigned_decimal rest)
       | _ => option_map float_of_Q (unsigned_decimal str)
       end.

(** [date.fromordinal(n).isoformat()] in the proleptic Gregorian calendar,
    for years 1 to 9999. *)
Definition digit_char (d : Z) : ascii := ascii_of_nat (Z.to_nat (48 + d mod 10)).

Definition two_digits (n : Z) : string :=
  String (digit_char (n / 10)) (String (digit_char n) EmptyString).

Definition four_digits (n : Z) : string :=
  String (digit_char (n / 1000)) (String (digit_char (n / 100)) (two_digits n)).

Definition iso_of_ordinal (n : Z) : string :=
  let z := n + 305 in
  let era := z / 146097 in
  let doe := z - era * 146097 in
  let yoe := (doe - doe / 1460 + doe / 36524 - doe / 146096) / 365 in
  let doy := doe - (365 * yoe + yoe / 4 - yoe / 100) in
  let mp := (5 * doy + 2) / 153 in
  let d := doy - (153 * mp + 2) / 5 + 1 in
  let m := if mp <? 10 then mp + 3 else mp - 9 in
  let y := yoe + era * 400 + (if m <=? 2 then 1 else 0) in
  (four_digits y ++ "-" ++ two_digits m ++ "-" ++ two_digits d)%string.

Definition runtime : Runtime :=
  {| float_of_str := parse_float; int_of_str := parse_int; isoformat := iso_of_ordinal |}.

Definition hour : Z := 3600000.

(** 2024-04-10 12:00 UTC. *)
Definition clk : clock :=
  {| utcnow := 1712750400000; today := 738986; clock_is_reading := eq_refl |}.

Definition a_sample (metric : string) (hours_ago : Z) (v : value) : sample :=
  {| s_userId := "u1"; s_metricType := metric;
     s_ts := utcnow clk - hours_ago * hour; s_value := Some v |}.

Definition a_plan (date : string) (status : string) (items : list item) : plan :=
  {| p_userId := "u1"; p_date := date; p_status := VStr status; p_items := items |}.

(** Five plans of the past week, three of them completed, the latest with
    a Low workout. *)
Definition db_plans : database :=
  {| plans := [ a_plan "2024-04-05" "Completed" [];
                a_plan "2024-04-06" "Completed" [];
                a_plan "2024-04-07" "Skipped" [];
                a_plan "2024-04-08" "Completed" [];
                a_plan "2024-04-09" "Proposed" [plan_item "Workout" "Low" 20 "walk"] ];
     sensordata := [ a_sample "SleepScore" 10 (VInt 90);
                     a_sample "SleepScore" 200 (VInt 50);
                     a_sample "SleepScore" 220 (VStr "n/a");
                     a_sample "HR" 100 (VStr "61.5") ];
     recommendations := [] |}.

(** No plan at all; sleep of 90 last night against a baseline of 70. *)
Definition db_fresh : database :=
  {| plans := [];
     sensordata := [ a_sample "SleepScore" 10 (VInt 90);
                     a_sample "SleepScore" 200 (VInt 50);
                     a_sample "HR" 100 (VFloat 61.5) ];
     recommendations := [] |}.

(** Step counts, one of them unreadable and one without a value. *)
Definition db_steps : database :=
  {| plans := [];
     sensordata := [ a_sample "Steps" 1 (VInt 1200);
                     a_sample "Steps" 2 (VStr "n/a");
                     {| s_userId := "u1"; s_metricType := "Steps";
                        s_ts := utcnow clk - 3 * hour; s_value := None |};
                     a_sample "HR" 2 (VStr "n/a");
                     a_sample "HR" 3 (VInt 64) ];
     recommendations := [] |}.

(** Heart rate of 60 every minute for the last 500 minutes, and one older
    reading of 561 twelve days ago. *)
Definition db_many : database :=
  {| plans := [];
     sensordata :=
       (map (fun k => {| s_userId := "u1"; s_metricType := "HR";
                         s_ts := utcnow clk - Z.of_nat k * 60000;
                         s_value := Some (VInt 60) |})
            (seq 1 500)
        ++ [ a_sample "HR" 288 (VInt 561) ])%list;
     recommendations := [] |}.

(** 500 unreadable heart-rate samples in the last 500 minutes, and one
    reading of 61 twelve days ago. *)
Definition db_hidden : database :=
  {| plans := [];
     sensordata :=
       (map (fun k => {| s_userId := "u1"; s_metricType := "HR";
                         s_ts := utcnow clk - Z.of_nat k * 60000;
                         s_value := Some (VStr "n/a") |})
            (seq 1 500)
        ++ [ a_sample "HR" 288 (VInt 61) ])%list;
     recommendations := [] |}.

(** One infinite heart-rate reading four days ago and none since. *)
Definition db_inf : database :=
  {| plans := [];
     sensordata := [ a_sample "HR" 96 (VFloat infinity);
                     a_sample "SleepScore" 10 (VInt 80) ];
     recommendations := [] |}.

(** High readiness and three plans out of five completed, after a Low
    workout: heart rate of 55 against a baseline of 65, sleep of 95. *)
Definition db_jump : database :=
  {| plans := plans db_plans;
     sensordata := [ a_sample "SleepScore" 10 (VInt 95);
                     a_sample "HR" 100 (VInt 75);
                     a_sample "HR" 2 (VInt 55) ];
     recommendations := [] |}.

(** Behaviour models for the examples: one whose data source is
    unreachable, and one that returns a given value. *)
Definition unreachable_model : BehaviorModelLike :=
  {| bm_next_best_intensity := fun _ _ _ => Raised (OtherError "ServerSelectionTimeoutError") |}.

Definition model_returning (v : value) : BehaviorModelLike :=
  {| bm_next_best_intensity := fun _ _ _ => Returned v |}.

Definition a_user : user := {| userId := "u1" |}.

Definition a_world (db : database) : world := {| w_db := db; w_calls := [] |}.

End Example.

(** ** Vocabulary of the statements *)

(** The ordered enumeration of intensity tiers, with the name each tier has
    in the documents. *)
Inductive tier : Type := Low | Moderate | High.

Definition tier_name (t : tier) : string :=
  match t with
  | Low => "Low"
  | Moderate => "Moderate"
  | High => "High"
  end.

Definition ordinal (t : tier) : Z :=
  match t with
  | Low => 0
  | Moderate => 1
  | High => 2
  end.

(** A last intensity that is absent or one of the three tiers. *)
Definition last_value (last : option tier) : value :=
  match last with
  | Some t => VStr (tier_name t)
  | None => VNone
  end.

(** The hysteresis filter in the words of the specification: with no last
    intensity the raw tier; else, with [li] and [ti] the ordinals of the
    last and the raw tier, Moderate if [ti - li > 1], else Moderate if
    [li - ti > 1], else the raw tier. *)
Definition hysteresis_filter (raw : tier) (last : option tier) : tier :=
  match last with
  | None => raw
  | Some l =>
      let li := ordinal l in
      let ti := ordinal raw in
      if 1 <? ti - li then Moderate
      else if 1 <? li - ti then Moderate
      else raw
  end.

(** The guard of the [High] branch of the classifier. *)
Definition high_guard (r a : float) : Prop :=
  (0.8 <? r)%float = true /\ (0.6 <=? a)%float = true.

(** The items of a plan are one of the three templates of [base]. *)
Definition template_of (t : tier) : list item :=
  match assoc base (tier_name t) with Some l => l | None => [] end.

Definition is_template (items : list item) : Prop :=
  exists t : tier, items = template_of t.

(** What [generate_plan] leaves behind once the intensity is known: the
    plan built from [items], upserted, after one call to each
    collaborator. *)
Definition planned {RT : Runtime} (u : user) (clk : clock) (w : world) (items : list item)
  : outcome plan * world :=
  let doc := plan_doc (userId u) items (isoformat (today clk)) "Proposed" in
  (Returned doc,
   {| w_db := {| plans := upsert_plan doc (plans (w_db w));
                 sensordata := sensordata (w_db w);
                 recommendations := recommendations (w_db w) |};
      w_calls := (w_calls w ++ [CallNextBestIntensity (userId u);
                                CallUpdateOne (userId u) (isoformat (today clk))])%list |}).

(** A sample as MongoDB can hold it: its integers are BSON integers, of
    at most 64 bits. *)
Definition bson_sample (d : sample) : bool :=
  match s_value d with
  | Some (VInt z) => (- 2 ^ 63 <=? z) && (z <? 2 ^ 63)
  | _ => true
  end.

Definition bson_db (db : database) : bool := forallb bson_sample (sensordata db).

(** The number a sample carries, when [float] accepts its value. *)
Definition numeric {RT : Runtime} (d : sample) : option float :=
  match s_value d with
  | Some v => match py_float v with
              | Returned f => Some f
              | Raised _ => None
              end
  | None => None
  end.

Fixpoint numeric_values {RT : Runtime} (l : list sample) : list float :=
  match l with
  | [] => []
  | d :: rest => match numeric d with
                 | Some f => f :: numeric_values rest
                 | None => numeric_values rest
                 end
  end.

(** Every sample of a signal in the trailing window, most recent first,
    with no cap on their number. *)
Definition samples_in_window (db : database) (clk : clock)
           (user_id metric : string) (hours : Z) : list sample :=
  find_samples db clk user_id metric hours (List.length (sensordata db)).

(** The window of [adherence_score] starts on a day of the calendar. *)
Definition window_in_calendar (clk : clock) (days : Z) : Prop :=
  date_min <= today clk - days <= date_max.

(** The window of [adherence_score] in the words of the specification
    (4.1): all the PlanRecords of the user with date at least
    [today - windowDays], the bound included, the dates being compared as
    strings. *)
Fixpoint records_since (user_id since : string) (records : list plan) : list plan :=
  match records with
  | [] => []
  | r :: rest =>
      if String.eqb (p_userId r) user_id
      then if String.ltb (p_date r) since
           then records_since user_id since rest
           else r :: records_since user_id since rest
      else records_since user_id since rest
  end.

Definition records_in_window {RT : Runtime} (db : database) (clk : clock)
           (user_id : string) (days : Z) : list plan :=
  records_since user_id (isoformat (today clk - days)) (plans db).

(** [count(status == s)] over a sequence of PlanRecords, in the words of
    the specification. *)
Fixpoint count_status (s : string) (records : list plan) : Z :=
  match records with
  | [] => 0
  | r :: rest =>
      match p_status r with
      | VStr s' => if String.eqb s' s then 1 + count_status s rest
                   else count_status s rest
      | _ => count_status s rest
      end
  end.

(** The relative error of one rounding to nearest is at most one part in
    [2 ^ 52]. *)
Definition eps : Q := 1 # 4503599627370496.

(** [x] is a positive finite float of exact value [q]. *)
Definition pos_val (x : float) (q : Q) : Prop :=
  exists (m : positive) (e : Z),
    Prim2SF x = S754_finite false m e /\ (Qval (Zpos m) e == q)%Q.

(** The float of [k] hundredths lies between the floats 0.1 and 1.0. *)
Definition hundredth_in_range (k : nat) : bool :=
  let r := float_of_Q (Z.of_nat k # 100) in
  ((0.1 <=? r) && (r <=? 1.0))%float.

(** [float(a) / float(b)] on two small integers, by the primitive
    division. *)
Definition prim_ratio (a b : Z) : float :=
  (of_uint63 (Uint63.of_Z a) / of_uint63 (Uint63.of_Z b))%float.

(** [float_of_Q] and the primitive division agree on [a / b]. *)
Definition ratio_agrees (a b : nat) : bool :=
  PrimFloat.Leibniz.eqb (float_of_Q (Z.of_nat a # Pos.of_nat b))
                        (prim_ratio (Z.of_nat a) (Z.of_nat b)).

(** The documents of one user, in stored order. *)
Definition documents_of (u : string) (db : database) : list plan * list sample :=
  (filter (fun p => String.eqb (p_userId p) u) (plans db),
   filter (fun d => String.eqb (s_userId d) u) (sensordata db)).

(** The key of the upsert of [generate_plan]: the user and the day. *)
Definition plan_key (p : plan) : string * string := (p_userId p, p_date p).

(** [p] is a plan of the user and the day of [doc]. *)
Definition same_key (doc p : plan) : bool :=
  String.eqb (p_userId p) (p_userId doc) && String.eqb (p_date p) (p_date doc).

(** At most one plan per user and day. *)
Definition one_plan_per_day (ps : list plan) : Prop := NoDup (map plan_key ps).

(** The float of [k] hundredths lies between the floats 0.0 and 1.0. *)
Definition hundredth_in_unit (k : nat) : bool :=
  let r := float_of_Q (Z.of_nat k # 100) in
  ((0 <=? r) && (r <=? 1.0))%float.

(** The float of [k] hundredths is at least the float 0.64. *)
Definition hundredth_ready (k : nat) : bool :=
  (0.64 <=? float_of_Q (Z.of_nat k # 100))%float.

(** The step counts of a cursor whose values are integers. *)
Fixpoint int_readings (cur : list sample) : list Z :=
  match cur with
  | [] => []
  | d :: rest =>
      match s_value d with
      | Some (VInt z) => z :: int_readings rest
      | _ => int_readings rest
      end
  end.

(** The sample holds an integer, or no value at all. *)
Definition int_or_absent (d : sample) : bool :=
  match s_value d with
  | None | Some (VInt _) => true
  | _ => false
  end.

(** The sample has no [value] field. *)
Definition without_value (d : sample) : bool :=
  match s_value d with
  | None => true
  | Some _ => false
  end.

(** ** More data for closed examples *)

Module Scenario.

Import Example.

(** The documents of [db_plans] beside a plan and a sample of a second
    user. *)
Definition db_shared : database :=
  {| plans := {| p_userId := "u2"; p_date := "2024-04-09"; p_status := VStr "Completed";
                 p_items := [plan_item "Workout" "High" 45 "run"] |} :: plans db_plans;
     sensordata := {| s_userId := "u2"; s_metricType := "HR";
                      s_ts := utcnow clk - hour; s_value := Some (VInt 50) |}
                   :: sensordata db_plans;
     recommendations := [] |}.

(** The Workout of the last plan carries a list where a tier is
    expected. *)
Definition db_broken : database :=
  {| plans := [ a_plan "2024-04-09" "Proposed"
                  [ {| it_type := VStr "Workout"; it_intensity := VList [VStr "High"];
                       it_duration := 30; it_description := "run" |} ] ];
     sensordata := sensordata db_fresh;
     recommendations := [] |}.

(** High readiness, both plans of the week completed, the last one with a
    Moderate workout. *)
Definition db_ready : database :=
  {| plans := [ a_plan "2024-04-08" "Completed" [];
                a_plan "2024-04-09" "Completed" [plan_item "Workout" "Moderate" 35 "circuit"] ];
     sensordata := sensordata db_jump;
     recommendations := [] |}.

(** Three step counts and one sample without a value. *)
Definition db_walker : database :=
  {| plans := [];
     sensordata := [ a_sample "Steps" 1 (VInt 1200);
                     a_sample "Steps" 5 (VInt 1800);
                     {| s_userId := "u1"; s_metricType := "Steps";
                        s_ts := utcnow clk - 7 * hour; s_value := None |};
                     a_sample "Steps" 9 (VInt 901) ];
     recommendations := [] |}.

(** A sleep score of 20 two days ago, and a reading that is not a number
    last night. *)
Definition db_nan : database :=
  {| plans := [];
     sensordata := [ a_sample "SleepScore" 10 (VStr "nan");
                     a_sample "SleepScore" 50 (VInt 20);
                     a_sample "HR" 3 (VInt 90);
                     a_sample "HR" 100 (VInt 60) ];
     recommendations := [] |}.

End Scenario.

(** * Properties *)

(** ** The float layer on known values *)

(** On every fraction [a / b] with [a] up to 60 and [b] from 1 to 60 the
    conversion [float_of_Q] returns what the division of the processor
    returns, which IEEE-754 rounds correctly. *)
Example float_of_Q_is_division :
  forallb (fun a => forallb (ratio_agrees a) (seq 1 60)) (seq 0 61) = true.
Proof. vm_compute. reflexivity. Qed.

(** Values of [round(x, 2)] as CPython prints them: ties of the binary
    value go to the even hundredth, and a decimal tie that is not a binary
    tie goes to the nearer side. *)
Example round2_known_values :
  round2 0.125 = 0.12%float /\ round2 2.675 = 2.67%float
  /\ round2 0.005 = 0.01%float /\ round2 0.015 = 0.01%float
  /\ round2 0.735 = 0.73%float /\ round2 0.745 = 0.74%float
  /\ round2 (-0.001) = (-0)%float /\ round2 1e308 = 1e308%float
  /\ round2 infinity = infinity /\ round2 nan = nan.
Proof. repeat split; vm_compute; reflexivity. Qed.

(** Values of [statistics.mean]: the sum is exact, so nothing is lost
    between the items, and large items do not overflow. *)
Example mean_known_values :
  mean [0.1; 0.2; 0.3]%float = Returned 0.2%float
  /\ mean [1.5; 2.5; 4.25]%float = Returned 2.75%float
  /\ mean [1e308; 1e308; 1e308]%float = Returned 1e308%float
  /\ mean [infinity; 1.0]%float = Returned infinity
  /\ mean [infinity; 1.0; neg_infinity]%float = Returned nan
  /\ mean [] = Raised StatisticsError.
Proof. repeat split; vm_compute; reflexivity. Qed.

(** [_clamp] on the special values: NaN is not smaller than [hi], so
    [min(hi, NaN)] is [hi]. *)
Example _clamp_special_values :
  _clamp_default nan = 1.0%float /\ _clamp_default infinity = 1.0%float
  /\ _clamp_default neg_infinity = 0.1%float /\ _clamp_default 0.5 = 0.5%float
  /\ _clamp_default (-0.3) = 0.1%float /\ _clamp_default 1.7 = 1.0%float.
Proof. repeat split; vm_compute; reflexivity. Qed.

(** ** The classifier *)

Section Classifier.

Local Open Scope float_scope.

(** C1. For every readiness [r] and adherence [a] the classifier returns
    High exactly when [r > 0.8] and [a >= 0.6]; otherwise Moderate
    exactly when [r >= 0.6]; otherwise Low.  The three sample points of
    the specification are included. *)
Theorem base_thresholds_spec :
  (forall r a : float,
      (base_thresholds r a = "High"%string <-> high_guard r a)
      /\ (base_thresholds r a = "Moderate"%string
          <-> ~ high_guard r a /\ (0.6 <=? r) = true)
      /\ (base_thresholds r a = "Low"%string
          <-> ~ high_guard r a /\ (0.6 <=? r) = false))
  /\ base_thresholds 0.85 0.7 = "High"%string
  /\ base_thresholds 0.85 0.3 = "Moderate"%string
  /\ base_thresholds 0.5 0.9 = "Low"%string.
Proof.
  split; [| repeat split; reflexivity].
  intros r a. unfold base_thresholds, high_guard.
  destruct (0.8 <? r) eqn:Hr; destruct (0.6 <=? a) eqn:Ha;
    destruct (0.6 <=? r) eqn:Hm; cbn;
    repeat split; intros; try discriminate; try reflexivity;
    try tauto; try (exfalso; intuition congruence);
    try (intros [? ?]; discriminate).
Qed.

End Classifier.

(** ** The hysteresis step *)

Section Hysteresis.

Lemma truthy_tier (t : tier) : truthy (VStr (tier_name t)) = true.
Proof. destruct t; reflexivity. Qed.

Lemma order_tier (t : tier) :
  dict_get order (VStr (tier_name t)) 1 = Returned (ordinal t).
Proof. destruct t; reflexivity. Qed.

(** The step on well-formed tiers, as one equation. *)
Lemma hysteresis_tiers (raw last : tier) :
  hysteresis (tier_name raw) (VStr (tier_name last)) =
  Returned (if (ordinal raw - ordinal last >? 1) || (ordinal last - ordinal raw >? 1)
            then "Moderate" else tier_name raw).
Proof. destruct raw, last; reflexivity. Qed.

(** C2. On every raw tier, and every last intensity that is absent or one
    of the three tiers, the hysteresis step of the code returns what the
    filter of the specification returns: the raw tier when there is no last
    intensity, Moderate when the two ordinals differ by more than one in
    either direction, and the raw tier otherwise.  The four sample points
    of the specification are included. *)
Theorem hysteresis_spec :
  (forall (raw : tier) (last : option tier),
      hysteresis (tier_name raw) (last_value last)
      = Returned (tier_name (hysteresis_filter raw last)))
  /\ (forall raw : tier, hysteresis (tier_name raw) VNone = Returned (tier_name raw))
  /\ (forall raw last : tier,
         hysteresis (tier_name raw) (VStr (tier_name last)) =
         Returned (if (1 <? ordinal raw - ordinal last) || (1 <? ordinal last - ordinal raw)
                   then "Moderate" else tier_name raw))
  /\ hysteresis "High" (VStr "Low") = Returned "Moderate"
  /\ hysteresis "Moderate" (VStr "Low") = Returned "Moderate"
  /\ hysteresis "Low" (VStr "High") = Returned "Moderate"
  /\ hysteresis "High" VNone = Returned "High".
Proof.
  split; [intros raw [last |]; [destruct raw, last |]; reflexivity |].
  split; [intros raw; reflexivity |].
  split; [intros raw last; rewrite hysteresis_tiers; destruct raw, last; reflexivity |].
  repeat split; reflexivity.
Qed.

(** The result of the step is a tier within one step of the last one. *)
Lemma hysteresis_one_step (raw last : tier) :
  exists t : tier,
    hysteresis (tier_name raw) (VStr (tier_name last)) = Returned (tier_name t)
    /\ Z.abs (ordinal t - ordinal last) <= 1.
Proof.
  destruct raw, last;
    first [ exists Low; split; [reflexivity | cbn; lia]
          | exists Moderate; split; [reflexivity | cbn; lia]
          | exists High; split; [reflexivity | cbn; lia] ].
Qed.

End Hysteresis.

(** ** Plan generation *)

Section GeneratePlan.

Context {RT : Runtime}.

Lemma generate_plan_items (u : user) (bm : BehaviorModelLike) (clk : clock)
      (w : world) (v : value) (items : list item) :
  fst (safe_intensity bm clk (userId u) w) = v ->
  dict_get base v base_Moderate = Returned items ->
  generate_plan u bm clk w = planned u clk w items.
Proof.
  intros Hv Hitems. unfold generate_plan, planned.
  destruct (safe_intensity bm clk (userId u) w) as [v' w1] eqn:Hs.
  cbn in Hv. subst v'. rewrite Hitems.
  assert (Hw : w1 = log (CallNextBestIntensity (userId u)) w).
  { unfold safe_intensity in Hs.
    destruct (bm_next_best_intensity bm (w_db w) clk (userId u)); congruence. }
  subst w1. unfold set_plans, log. cbn. rewrite <- app_assoc. reflexivity.
Qed.

(** C9. Whatever exception the behaviour model raises, [generate_plan]
    returns the plan built from the Moderate template and upserts it; the
    behaviour model has been called exactly once. *)
Theorem generate_plan_catches (u : user) (bm : BehaviorModelLike) (clk : clock)
        (w : world) (e : exn) :
  bm_next_best_intensity bm (w_db w) clk (userId u) = Raised e ->
  generate_plan u bm clk w = planned u clk w (template_of Moderate).
Proof.
  intros Hraise. apply generate_plan_items with (v := VStr "Moderate").
  - unfold safe_intensity. rewrite Hraise. reflexivity.
  - reflexivity.
Qed.

Lemma dict_get_base_hashable (v : value) :
  hashable v = true ->
  exists items, dict_get base v base_Moderate = Returned items
                /\ is_template items
                /\ ((forall t, v <> VStr (tier_name t)) -> items = template_of Moderate)
                /\ (forall t, v = VStr (tier_name t) -> items = template_of t).
Proof.
  intros Hh.
  destruct v as [| b | z | f | str | l | kv]; try discriminate Hh;
    try (exists (template_of Moderate); repeat split;
         [exists Moderate; reflexivity | intros t Ht; destruct t; discriminate Ht]).
  destruct (String.eqb_spec str "Low") as [-> | HL].
  { exists (template_of Low). repeat split; [exists Low; reflexivity | | ].
    - intros Hno. exfalso. apply (Hno Low). reflexivity.
    - intros t Ht. destruct t; try discriminate Ht; reflexivity. }
  destruct (String.eqb_spec str "Moderate") as [-> | HM].
  { exists (template_of Moderate). repeat split; [exists Moderate; reflexivity | ].
    intros t Ht. destruct t; try discriminate Ht; reflexivity. }
  destruct (String.eqb_spec str "High") as [-> | HH].
  { exists (template_of High). repeat split; [exists High; reflexivity | | ].
    - intros Hno. exfalso. apply (Hno High). reflexivity.
    - intros t Ht. destruct t; try discriminate Ht; reflexivity. }
  exists (template_of Moderate). repeat split; [ | exists Moderate; reflexivity | ].
  - unfold dict_get. cbn [assoc base].
    apply String.eqb_neq in HL, HM, HH. rewrite HL, HM, HH. reflexivity.
  - intros t Ht. injection Ht as ->. destruct t; cbn in *; congruence.
Qed.

(** C10 (as amended). For every value the behaviour model returns that
    is falsy or hashable, [generate_plan] returns a plan whose items are
    one of the three templates: a falsy value, hashable or not, is replaced
    by the string Moderate, a truthy hashable value that names no tier
    selects the Moderate template, and a tier name selects its own
    template. *)
Theorem generate_plan_template (u : user) (bm : BehaviorModelLike) (clk : clock)
        (w : world) (v : value) :
  bm_next_best_intensity bm (w_db w) clk (userId u) = Returned v ->
  (truthy v = true -> hashable v = true) ->
  exists items,
    generate_plan u bm clk w = planned u clk w items
    /\ is_template items
    /\ (truthy v = false ->
        fst (safe_intensity bm clk (userId u) w) = VStr "Moderate"
        /\ items = template_of Moderate)
    /\ (truthy v = true -> (forall t, v <> VStr (tier_name t)) ->
        items = template_of Moderate)
    /\ (forall t, v = VStr (tier_name t) -> items = template_of t).
Proof.
  intros Hret Hh.
  assert (Hs : fst (safe_intensity bm clk (userId u) w) = py_or v (VStr "Moderate")).
  { unfold safe_intensity. rewrite Hret. reflexivity. }
  unfold py_or in Hs. destruct (truthy v) eqn:Ht.
  - destruct (dict_get_base_hashable v (Hh eq_refl))
      as (items & Hget & Htpl & Hother & Hname).
    exists items. split; [apply generate_plan_items with (v := v); assumption |].
    split; [assumption |]. split; [discriminate |]. split; [intros _; exact Hother | exact Hname].
  - exists (template_of Moderate).
    split; [apply generate_plan_items with (v := VStr "Moderate"); [assumption | reflexivity] |].
    split; [exists Moderate; reflexivity |].
    split; [intros _; split; [assumption | reflexivity] |].
    split; [discriminate |].
    intros t ->. rewrite truthy_tier in Ht. discriminate Ht.
Qed.

(** With the behaviour model of this repository the plan of the day is
    always built from one of the three templates, whatever the database
    holds: a failure gives the Moderate one, and a result is the name of a
    tier. *)
Corollary generate_plan_always_template (u : user) (clk : clock) (w : world) :
  exists items,
    generate_plan u the_behavior_model clk w = planned u clk w items
    /\ is_template items.
Proof.
  destruct (bm_next_best_intensity the_behavior_model (w_db w) clk (userId u))
    as [v | e] eqn:Hbm.
  - assert (Hstr : exists t, v = VStr t).
    { cbn in Hbm. destruct (next_best_intensity (w_db w) clk (userId u)) as [t | e'];
        cbn in Hbm; [injection Hbm as <-; eexists; reflexivity | discriminate Hbm]. }
    destruct Hstr as [t ->].
    assert (Hs : fst (safe_intensity the_behavior_model clk (userId u) w)
                 = py_or (VStr t) (VStr "Moderate")).
    { unfold safe_intensity. rewrite Hbm. reflexivity. }
    unfold py_or in Hs. destruct (truthy (VStr t)).
    + destruct (dict_get_base_hashable (VStr t) eq_refl) as (items & Hget & Htpl & _).
      exists items. split; [apply generate_plan_items with (v := VStr t); assumption |].
      exact Htpl.
    + exists (template_of Moderate).
      split; [apply generate_plan_items with (v := VStr "Moderate"); [assumption | reflexivity] |].
      exists Moderate. reflexivity.
  - exists (template_of Moderate). split; [| exists Moderate; reflexivity].
    apply generate_plan_items with (v := VStr "Moderate"); [| reflexivity].
    unfold safe_intensity. rewrite Hbm. reflexivity.
Qed.

End GeneratePlan.

(** ** Conversions that cannot overflow *)

Section NoOverflow.

Lemma py_float_of_Q_returns (q : Q) :
  (Qabs q < overflow_bound)%Q ->
  py_float_of_Q q = Returned (float_of_Q q).
Proof.
  intros Hlt. unfold py_float_of_Q.
  destruct (Qle_bool overflow_bound (Qabs q)) eqn:Hle; [| reflexivity].
  apply Qle_bool_iff in Hle. exfalso. apply (Qlt_not_le _ _ Hlt Hle).
Qed.

Lemma one_below_overflow : (1 < overflow_bound)%Q.
Proof. reflexivity. Qed.

Lemma py_truediv_ratio (c : Z) (n : positive) :
  0 <= c <= Zpos n ->
  py_truediv c (Zpos n) = Returned (float_of_Q (c # n)).
Proof.
  intros Hc. unfold py_truediv. apply py_float_of_Q_returns.
  apply Qle_lt_trans with (y := 1%Q); [| exact one_below_overflow].
  rewrite Qabs_pos.
  - unfold Qle. cbn. lia.
  - unfold Qle. cbn. lia.
Qed.

Lemma py_float_of_Z_int64 (z : Z) :
  - 2 ^ 63 <= z < 2 ^ 63 ->
  py_float_of_Z z = Returned (float_of_Q (inject_Z z)).
Proof.
  intros Hz. unfold py_float_of_Z. apply py_float_of_Q_returns.
  apply Qle_lt_trans with (y := inject_Z (2 ^ 63)).
  - apply Qabs_Qle_condition. split.
    + rewrite <- inject_Z_opp, <- Zle_Qle. lia.
    + rewrite <- Zle_Qle. lia.
  - reflexivity.
Qed.

End NoOverflow.

(** ** Reading the samples *)

Section Values.

Context {RT : Runtime}.

Lemma collect_values_numeric (cur : list sample) :
  forallb bson_sample cur = true ->
  forall vals, collect_values cur vals = Returned (vals ++ numeric_values cur)%list.
Proof.
  induction cur as [| d cur IH]; intros Hb vals; cbn [collect_values numeric_values].
  - rewrite app_nil_r. reflexivity.
  - cbn [forallb] in Hb. apply andb_prop in Hb. destruct Hb as [Hd Hcur].
    unfold numeric, getitem_value, bson_sample in *.
    destruct (s_value d) as [v |]; cbn.
    + destruct v as [| b | z | f | str | l | kv]; cbn.
      * apply IH; assumption.
      * rewrite IH by assumption. rewrite <- app_assoc. reflexivity.
      * apply andb_prop in Hd. destruct Hd as [Hlo Hhi].
        apply Z.leb_le in Hlo. apply Z.ltb_lt in Hhi.
        rewrite py_float_of_Z_int64 by lia. cbn.
        rewrite IH by assumption. rewrite <- app_assoc. reflexivity.
      * rewrite IH by assumption. rewrite <- app_assoc. reflexivity.
      * destruct (float_of_str str); cbn.
        -- rewrite IH by assumption. rewrite <- app_assoc. reflexivity.
        -- apply IH; assumption.
      * apply IH; assumption.
      * apply IH; assumption.
    + apply IH; assumption.
Qed.

End Values.

(** ** Queries keep the samples well formed *)

Section Queries.

Context {A : Type} (p : A -> bool).

Lemma forallb_filter_keeps (f : A -> bool) (l : list A) :
  forallb p l = true -> forallb p (filter f l) = true.
Proof.
  induction l as [| x l IH]; cbn; [reflexivity |].
  intros H. apply andb_prop in H. destruct H as [Hx Hl].
  destruct (f x); cbn; [rewrite Hx |]; auto.
Qed.

Lemma forallb_insert_desc (geb : A -> A -> bool) (x : A) (l : list A) :
  p x = true -> forallb p l = true -> forallb p (insert_desc geb x l) = true.
Proof.
  intros Hx. induction l as [| y l IH]; cbn; intros Hl.
  - rewrite Hx. reflexivity.
  - apply andb_prop in Hl. destruct Hl as [Hy Hl].
    destruct (geb x y); cbn; rewrite ?Hx, ?Hy, ?Hl; cbn; auto.
Qed.

Lemma forallb_sort_desc (geb : A -> A -> bool) (l : list A) :
  forallb p l = true -> forallb p (sort_desc geb l) = true.
Proof.
  induction l as [| x l IH]; cbn; [reflexivity |].
  intros H. apply andb_prop in H. destruct H as [Hx Hl].
  apply forallb_insert_desc; auto.
Qed.

Lemma forallb_firstn_keeps (n : nat) (l : list A) :
  forallb p l = true -> forallb p (firstn n l) = true.
Proof.
  revert l. induction n as [| n IH]; intros [| x l]; cbn; auto.
  intros H. apply andb_prop in H. destruct H as [Hx Hl].
  rewrite Hx. cbn. auto.
Qed.

Lemma forallb_cursor_limit_keeps (n : nat) (l : list A) :
  forallb p l = true -> forallb p (cursor_limit n l) = true.
Proof.
  destruct n; [auto | apply forallb_firstn_keeps].
Qed.

End Queries.

(** ** The default windows start within the calendar *)

Section Windows.

Lemma clock_is_reading_range (clk : clock) :
  datetime_min + 336 * 3600000 <= utcnow clk <= datetime_max
  /\ date_min + 7 <= today clk <= date_max.
Proof.
  pose proof (clock_is_reading clk) as H. unfold clock_reading, is_datetime, is_date in H.
  repeat (apply andb_prop in H; destruct H as [H ?]).
  repeat match goal with
         | H : (_ <=? _) = true |- _ => apply Z.leb_le in H
         end.
  lia.
Qed.

Lemma date_minus_days_eq (d n : Z) :
  date_min <= d - n <= date_max -> date_minus_days d n = Returned (d - n).
Proof.
  intros H. unfold date_minus_days, is_date.
  replace (date_min <=? d - n) with true by (symmetry; apply Z.leb_le; lia).
  replace (d - n <=? date_max) with true by (symmetry; apply Z.leb_le; lia).
  reflexivity.
Qed.

Lemma date_minus_days_raises (d n : Z) :
  ~ date_min <= d - n <= date_max -> date_minus_days d n = Raised OverflowError.
Proof.
  intros H. unfold date_minus_days, is_date.
  destruct (Z.leb_spec date_min (d - n)); [| reflexivity].
  destruct (Z.leb_spec (d - n) date_max); [| reflexivity].
  exfalso. apply H. lia.
Qed.

Lemma datetime_minus_hours_eq (t n : Z) :
  datetime_min <= t - n * 3600000 <= datetime_max ->
  datetime_minus_hours t n = Returned (t - n * 3600000).
Proof.
  intros H. unfold datetime_minus_hours, is_datetime.
  replace (datetime_min <=? t - n * 3600000) with true by (symmetry; apply Z.leb_le; lia).
  replace (t - n * 3600000 <=? datetime_max) with true by (symmetry; apply Z.leb_le; lia).
  reflexivity.
Qed.

Lemma datetime_minus_hours_raises (t n : Z) :
  ~ datetime_min <= t - n * 3600000 <= datetime_max ->
  datetime_minus_hours t n = Raised OverflowError.
Proof.
  intros H. unfold datetime_minus_hours, is_datetime.
  destruct (Z.leb_spec datetime_min (t - n * 3600000)); [| reflexivity].
  destruct (Z.leb_spec (t - n * 3600000) datetime_max); [| reflexivity].
  exfalso. apply H. lia.
Qed.

(** The week of [adherence_score] as [next_best_intensity] calls it. *)
Lemma date_minus_days_week (clk : clock) :
  date_minus_days (today clk) 7 = Returned (today clk - 7).
Proof.
  apply date_minus_days_eq. pose proof (clock_is_reading_range clk). lia.
Qed.

(** The windows of [readiness_score]: 24, 168 and 336 hours. *)
Lemma datetime_minus_hours_default (clk : clock) (hours : Z) :
  0 <= hours <= 336 ->
  datetime_minus_hours (utcnow clk) hours = Returned (utcnow clk - hours * 3600000).
Proof.
  intros H. apply datetime_minus_hours_eq. pose proof (clock_is_reading_range clk). lia.
Qed.

End Windows.

Section ValuesOfDatabase.

Context {RT : Runtime}.

Lemma find_samples_bson db clk user_id metric hours limit :
  bson_db db = true ->
  forallb bson_sample (find_samples db clk user_id metric hours limit) = true.
Proof.
  intros Hdb. unfold find_samples, find_since, by_ts_desc.
  apply forallb_cursor_limit_keeps, forallb_sort_desc, forallb_filter_keeps. exact Hdb.
Qed.

(** On a well-formed database the loop of [_values] never raises: once the
    start of the window is computed, [_values] returns the numbers of the
    samples the query yields, in the order of the cursor. *)
Lemma _values_window db clk user_id metric hours limit :
  bson_db db = true ->
  _values db clk user_id metric hours limit =
  (_ <- datetime_minus_hours (utcnow clk) hours ;;
   Returned (numeric_values (find_samples db clk user_id metric hours limit)))%py.
Proof.
  intros Hdb. unfold _values, datetime_minus_hours.
  destruct (is_datetime (utcnow clk - hours * 3600000)); [| reflexivity].
  cbn [bind]. fold (find_samples db clk user_id metric hours limit).
  rewrite collect_values_numeric by (apply find_samples_bson; exact Hdb).
  reflexivity.
Qed.

(** The windows of [readiness_score], at most 336 hours long, start within
    the calendar. *)
Lemma _values_numeric db clk user_id metric hours limit :
  bson_db db = true ->
  0 <= hours <= 336 ->
  _values db clk user_id metric hours limit =
  Returned (numeric_values (find_samples db clk user_id metric hours limit)).
Proof.
  intros Hdb Hh. rewrite _values_window by exact Hdb.
  rewrite datetime_minus_hours_default by exact Hh. reflexivity.
Qed.

End ValuesOfDatabase.

(** ** Finite floats are bounded *)

Section FloatBounds.

Lemma digits2_size (p : positive) : digits2_pos p = Pos.size p.
Proof. induction p; cbn; congruence. Qed.

Lemma digits2_upper (m : positive) : Zpos m < 2 ^ Zpos (digits2_pos m).
Proof.
  rewrite digits2_size. pose proof (Pos.size_gt m) as H.
  rewrite <- Pos2Z.inj_pow. lia.
Qed.

Lemma digits2_lower (m : positive) : 2 ^ Zpos (digits2_pos m) <= 2 * Zpos m.
Proof.
  rewrite digits2_size. pose proof (Pos.size_le m) as H.
  rewrite <- Pos2Z.inj_pow. lia.
Qed.

(** The mantissa and exponent of a valid binary64. *)
Lemma valid_finite (s : bool) (m : positive) (e : Z) :
  valid_binary (S754_finite s m e) = true ->
  Zpos m < 2 ^ 53 /\ - 1074 <= e <= 971 /\ (- 1074 < e -> 2 ^ 52 <= Zpos m).
Proof.
  cbn [SpecFloat.valid_binary]. unfold bounded, canonical_mantissa, fexp, SpecFloat.emin.
  intros H. apply andb_prop in H. destruct H as [Hc He].
  apply Z.eqb_eq in Hc. apply Z.leb_le in He.
  change emax with 1024 in *. change prec with 53 in *.
  pose proof (digits2_upper m) as Hu. pose proof (digits2_lower m) as Hl.
  set (d := Zpos (digits2_pos m)) in *.
  assert (Hd : 0 < d) by (unfold d; lia).
  split; [| split; [lia |]].
  - assert (d <= 53) by lia.
    apply Z.lt_le_trans with (m := 2 ^ d); [assumption |].
    apply Z.pow_le_mono_r; lia.
  - intros Hn. assert (d = 53) by lia.
    replace d with 53 in Hl by lia. change (2 ^ 53) with (2 * 2 ^ 52) in Hl. lia.
Qed.

Lemma Qpow2_pos (e : Z) : (0 < 2 ^ e)%Q.
Proof. apply Qpower_0_lt. reflexivity. Qed.

Lemma Qval_bound (m e : Z) :
  Z.abs m < 2 ^ 53 -> e <= 971 ->
  (Qabs (Qval m e) <= inject_Z max_float_Z)%Q.
Proof.
  intros Hm He. unfold Qval. rewrite Qabs_Qmult.
  rewrite (Qabs_pos (2 ^ e)) by (apply Qlt_le_weak, Qpow2_pos).
  assert (Hp : (2 ^ e <= 2 ^ 971)%Q) by (apply Qpower_le_compat_l; [exact He | discriminate]).
  assert (Ha : Qabs (inject_Z m) == inject_Z (Z.abs m)).
  { unfold inject_Z. symmetry. apply Zabs_Qabs. }
  rewrite Ha.
  apply Qle_trans with (y := (inject_Z (2 ^ 53 - 1) * 2 ^ 971)%Q).
  - apply Qmult_le_compat_nonneg.
    + split; [change 0%Q with (inject_Z 0) |]; rewrite <- Zle_Qle; lia.
    + split; [apply Qlt_le_weak, Qpow2_pos | exact Hp].
  - unfold max_float_Z. rewrite inject_Z_mult.
    rewrite (Zpower_Qpower 2 971) by lia. apply Qle_refl.
Qed.

Lemma Q_of_SF_bound (x : spec_float) (q : Q) :
  valid_binary x = true -> Q_of_SF x = Some q ->
  (Qabs q <= inject_Z max_float_Z)%Q.
Proof.
  intros Hv Hq. destruct x as [s | s | | s m e]; try discriminate Hq.
  - injection Hq as <-. discriminate.
  - apply valid_finite in Hv. destruct Hv as (Hm & He & _).
    cbn [Q_of_SF] in Hq. injection Hq as <-.
    apply Qval_bound; [destruct s; cbn; lia | lia].
Qed.

Lemma exact_bound (x : float) (q : Q) :
  exact x = Some q -> (Qabs q <= inject_Z max_float_Z)%Q.
Proof. apply Q_of_SF_bound, Prim2SF_valid. Qed.

Lemma exact_sum_bound (data : list float) :
  (Qabs (exact_sum data) <= inject_Z (Z.of_nat (List.length data)) * inject_Z max_float_Z)%Q.
Proof.
  induction data as [| x data IH].
  - cbn. unfold Qle. cbn. lia.
  - cbn [exact_sum List.length]. rewrite Qred_correct.
    rewrite Nat2Z.inj_succ. unfold Z.succ. rewrite inject_Z_plus.
    eapply Qle_trans; [apply Qabs_triangle |].
    rewrite Qmult_plus_distr_l, Qmult_1_l, Qplus_comm.
    apply Qplus_le_compat; [exact IH |].
    destruct (exact x) as [q |] eqn:Hx.
    + apply exact_bound with (x := x). exact Hx.
    + cbn. unfold Qle. cbn. lia.
Qed.

(** [statistics.mean] returns on every non-empty list of floats. *)
Lemma mean_returns (data : list float) :
  data <> [] -> exists f, mean data = Returned f.
Proof.
  intros Hne. destruct data as [| x rest]; [congruence |].
  unfold mean. set (data := x :: rest).
  destruct (forallb is_finite_float data); [| eexists; reflexivity].
  eexists. apply py_float_of_Q_returns.
  set (n := Z.of_nat (List.length data)).
  assert (Hn : 0 < n) by (unfold n, data; cbn [List.length]; lia).
  apply Qle_lt_trans with (y := inject_Z max_float_Z); [| reflexivity].
  unfold Qdiv. rewrite Qabs_Qmult.
  assert (HnQ : (inject_Z 0 < inject_Z n)%Q) by (rewrite <- Zlt_Qlt; exact Hn).
  change (inject_Z 0) with 0%Q in HnQ.
  rewrite (Qabs_pos (/ inject_Z n)) by (apply Qlt_le_weak, Qinv_lt_0_compat; exact HnQ).
  apply Qle_shift_div_r; [exact HnQ |].
  rewrite Qmult_comm. apply exact_sum_bound.
Qed.

End FloatBounds.

(** ** The scores are total *)

Section Totality.

Context {RT : Runtime}.

Lemma count_completed_range (ps : list plan) :
  0 <= count_completed ps <= Z.of_nat (List.length ps).
Proof.
  unfold count_completed. pose proof (filter_length_le (fun p => eq_str (p_status p) "Completed") ps).
  lia.
Qed.

(** [_recent_plans] returns the plans of the query when the window starts
    on a day of the calendar, and raises [OverflowError] when it does
    not. *)
Lemma _recent_plans_eq db clk user_id days :
  window_in_calendar clk days ->
  _recent_plans db clk user_id days =
  Returned (find_plans db user_id (isoformat (today clk - days))).
Proof.
  intros Hw. unfold _recent_plans. rewrite date_minus_days_eq by exact Hw. reflexivity.
Qed.

Lemma _recent_plans_raises db clk user_id days :
  ~ window_in_calendar clk days ->
  _recent_plans db clk user_id days = Raised OverflowError.
Proof.
  intros Hw. unfold _recent_plans. rewrite date_minus_days_raises by exact Hw. reflexivity.
Qed.

Lemma window_in_calendar_week (clk : clock) : window_in_calendar clk 7.
Proof. unfold window_in_calendar. pose proof (clock_is_reading_range clk). lia. Qed.

Lemma window_in_calendar_dec (clk : clock) (days : Z) :
  window_in_calendar clk days \/ ~ window_in_calendar clk days.
Proof. unfold window_in_calendar. lia. Qed.

(** The value of [adherence_score], in closed form: the division never
    raises. *)
Lemma adherence_score_eq db clk user_id days :
  adherence_score db clk user_id days =
  (ps <- _recent_plans db clk user_id days ;;
   Returned (match ps with
             | [] => 0.5%float
             | p :: ps' =>
                 round2 (float_of_Q (count_completed (p :: ps')
                                     # Pos.of_succ_nat (List.length ps')))
             end))%py.
Proof.
  unfold adherence_score.
  destruct (_recent_plans db clk user_id days) as [[| p ps] | e]; [reflexivity | | reflexivity].
  cbn [bind].
  pose proof (count_completed_range (p :: ps)) as Hc.
  replace (Z.of_nat (List.length (p :: ps))) with (Zpos (Pos.of_succ_nat (List.length ps))) in *
    by (cbn [List.length]; lia).
  rewrite py_truediv_ratio by exact Hc. reflexivity.
Qed.

(** Over the week [next_best_intensity] asks for, [adherence_score]
    returns. *)
Lemma adherence_score_week db clk user_id :
  exists a, adherence_score db clk user_id 7 = Returned a.
Proof.
  rewrite adherence_score_eq, _recent_plans_eq by apply window_in_calendar_week.
  eexists. reflexivity.
Qed.

(** The window of the query is the window of the specification, and the
    count of the code is the count of the specification. *)
Lemma find_plans_records db user_id since :
  find_plans db user_id since = records_since user_id since (plans db).
Proof.
  unfold find_plans. induction (plans db) as [| r rest IH]; [reflexivity |].
  cbn [filter records_since]. rewrite IH.
  destruct (String.eqb (p_userId r) user_id); cbn [andb]; [| reflexivity].
  unfold String.leb, String.ltb. rewrite (String.compare_antisym (p_date r) since).
  destruct (String.compare since (p_date r)); reflexivity.
Qed.

Lemma count_completed_status (ps : list plan) :
  count_completed ps = count_status "Completed" ps.
Proof.
  unfold count_completed. induction ps as [| r rest IH]; [reflexivity |].
  cbn [filter count_status]. unfold eq_str at 1.
  destruct (p_status r) as [| b | z | f | str | l | kv]; try exact IH.
  destruct (String.eqb str "Completed"); [| exact IH].
  cbn [List.length]. rewrite <- IH. lia.
Qed.

Lemma mean_or_returns (xs : list float) (default : float) :
  exists f, mean_or xs default = Returned f.
Proof.
  destruct xs as [| x xs]; [eexists; reflexivity |].
  apply mean_returns. discriminate.
Qed.

Lemma baselines_returns db clk user_id :
  bson_db db = true -> exists b, baselines db clk user_id = Returned b.
Proof.
  intros Hdb. unfold baselines. rewrite !_values_numeric by first [exact Hdb | lia]. cbn [bind].
  destruct (mean_or_returns (numeric_values (find_samples db clk user_id "HR" (24 * 14) 500)) 75%float) as [h ->].
  destruct (mean_or_returns (numeric_values (find_samples db clk user_id "SleepScore" (24 * 14) 500)) 70%float) as [sl ->].
  eexists; reflexivity.
Qed.

Lemma recent_averages_returns db clk user_id hb sb :
  bson_db db = true -> exists r, recent_averages db clk user_id hb sb = Returned r.
Proof.
  intros Hdb. unfold recent_averages. rewrite !_values_numeric by first [exact Hdb | lia]. cbn [bind].
  destruct (mean_or_returns (numeric_values (find_samples db clk user_id "HR" 24 500)) hb) as [h ->].
  destruct (mean_or_returns (firstn 3 (numeric_values (find_samples db clk user_id "SleepScore" (24 * 7) 500))) sb) as [sl ->].
  eexists; reflexivity.
Qed.

(** On a well-formed database [readiness_score] returns, and its value is
    the rounded weighted sum of the two sub-scores. *)
Lemma readiness_score_returns db clk user_id :
  bson_db db = true ->
  exists hb sb ha sa,
    baselines db clk user_id = Returned (hb, sb)
    /\ recent_averages db clk user_id hb sb = Returned (ha, sa)
    /\ readiness_score db clk user_id =
       Returned (round2 (0.4 * hr_score_of hb ha + 0.6 * sleep_score_of sa)%float).
Proof.
  intros Hdb. unfold readiness_score.
  destruct (baselines_returns db clk user_id Hdb) as [[hb sb] Hb].
  destruct (recent_averages_returns db clk user_id hb sb Hdb) as [[ha sa] Hr].
  exists hb, sb, ha, sa. rewrite Hb. cbn [bind]. rewrite Hr. cbn [bind]. auto.
Qed.

End Totality.

(** ** The policy *)

Section Policy.

Context {RT : Runtime}.

Lemma base_thresholds_tier (r a : float) :
  exists t : tier, base_thresholds r a = tier_name t.
Proof.
  unfold base_thresholds.
  destruct ((0.8 <? r)%float && (0.6 <=? a)%float); [exists High; reflexivity |].
  destruct (0.6 <=? r)%float; [exists Moderate | exists Low]; reflexivity.
Qed.

(** C3. On a database whose integers fit 64 bits: when the last plan's
    Workout intensity is one of the three tiers, [next_best_intensity]
    returns a tier at most one ordinal step away from it; when there is no
    last Workout intensity, it returns the tier of the classifier.  The
    step itself keeps every raw tier within one step of every last tier. *)
Theorem next_best_intensity_one_step db clk user_id :
  bson_db db = true ->
  exists r a raw,
    readiness_score db clk user_id = Returned r
    /\ adherence_score db clk user_id 7 = Returned a
    /\ base_thresholds r a = tier_name raw
    /\ (forall last : tier,
           last_workout_intensity (find_one_latest (plans db) user_id)
           = VStr (tier_name last) ->
           exists t : tier,
             next_best_intensity db clk user_id = Returned (tier_name t)
             /\ Z.abs (ordinal t - ordinal last) <= 1)
    /\ (last_workout_intensity (find_one_latest (plans db) user_id) = VNone ->
        next_best_intensity db clk user_id = Returned (tier_name raw))
    /\ (forall raw' last : tier,
           exists t : tier,
             hysteresis (tier_name raw') (VStr (tier_name last)) = Returned (tier_name t)
             /\ Z.abs (ordinal t - ordinal last) <= 1).
Proof.
  intros Hdb.
  destruct (readiness_score_returns db clk user_id Hdb) as (hb & sb & ha & sa & _ & _ & Hr).
  destruct (adherence_score_week db clk user_id) as [a Ha].
  destruct (base_thresholds_tier
              (round2 (0.4 * hr_score_of hb ha + 0.6 * sleep_score_of sa)%float) a)
    as [raw Hraw].
  eexists _, _, raw.
  split; [exact Hr |]. split; [exact Ha |]. split; [exact Hraw |].
  unfold next_best_intensity. rewrite Hr, Ha. cbn [bind]. rewrite Hraw.
  split; [| split].
  - intros last Hlast. rewrite Hlast. apply hysteresis_one_step.
  - intros Hnone. rewrite Hnone. reflexivity.
  - apply hysteresis_one_step.
Qed.

(** C4 (as amended). For a window that starts on a day of the calendar,
    [adherence_score] is 0.5 when no plan record of the user falls in the
    window, and otherwise the number of records with status Completed over
    the number of records of the window, rounded to two decimals; the
    division never raises, and the score returns.  Three out of five is
    0.6.  The window and the count are those of the specification. *)
Theorem adherence_score_spec db clk user_id days :
  window_in_calendar clk days ->
  let records := records_in_window db clk user_id days in
  let completed := count_status "Completed" records in
  let total := Z.of_nat (List.length records) in
  (records = [] -> adherence_score db clk user_id days = Returned 0.5%float)
  /\ (records <> [] ->
      adherence_score db clk user_id days =
      Returned (round2 (float_of_Q (completed # Z.to_pos total)))
      /\ py_truediv completed total = Returned (float_of_Q (completed # Z.to_pos total)))
  /\ (completed = 3 -> total = 5 ->
      adherence_score db clk user_id days = Returned 0.6%float)
  /\ (exists a, adherence_score db clk user_id days = Returned a).
Proof.
  intros Hw records completed total.
  rewrite adherence_score_eq, _recent_plans_eq by exact Hw. cbn [bind].
  rewrite find_plans_records. fold (records_in_window db clk user_id days). fold records.
  subst completed total. rewrite <- count_completed_status.
  rewrite <- and_assoc. rewrite <- and_assoc. split; [| eexists; reflexivity].
  rewrite and_assoc.
  destruct records as [| p ps'] eqn:Hps.
  - split; [reflexivity |]. split; [congruence |]. cbn. discriminate.
  - assert (Hpos : Z.to_pos (Z.of_nat (List.length (p :: ps'))) = Pos.of_succ_nat (List.length ps'))
      by (cbn [List.length]; lia).
    rewrite Hpos.
    split; [discriminate |]. split.
    + intros _. split; [reflexivity |].
      replace (Z.of_nat (List.length (p :: ps'))) with (Zpos (Pos.of_succ_nat (List.length ps')))
        by (cbn [List.length]; lia).
      apply py_truediv_ratio.
      pose proof (count_completed_range (p :: ps')) as Hc. cbn [List.length] in Hc. lia.
    + intros Hc Ht. rewrite Hc.
      replace (Pos.of_succ_nat (List.length ps')) with 5%positive by (cbn [List.length] in Ht; lia).
      reflexivity.
Qed.

End Policy.

(** Three Completed plans among the five of the past week. *)
Lemma adherence_score_spec_witness :
  window_in_calendar Example.clk 7
  /\ List.length (records_in_window (RT := Example.runtime)
                    Example.db_plans Example.clk "u1" 7) = 5%nat
  /\ count_status "Completed"
       (records_in_window (RT := Example.runtime) Example.db_plans Example.clk "u1" 7) = 3
  /\ adherence_score (RT := Example.runtime) Example.db_plans Example.clk "u1" 7
     = Returned 0.6%float.
Proof.
  assert (Hw : window_in_calendar Example.clk 7) by (split; discriminate).
  split; [exact Hw |]. split; [reflexivity |]. split; [reflexivity |].
  destruct (adherence_score_spec (RT := Example.runtime) Example.db_plans Example.clk
              "u1" 7 Hw) as (_ & _ & H & _).
  apply H; reflexivity.
Defined.

(** A window of as many days as the calendar has had: it would start on
    the day before 0001-01-01, the subtraction raises [OverflowError], and
    so does [adherence_score]. *)
Lemma adherence_score_window_before_calendar :
  today Example.clk - 738986 = 0
  /\ date_minus_days (today Example.clk) 738986 = Raised OverflowError
  /\ adherence_score (RT := Example.runtime) Example.db_plans Example.clk "u1" 738986
     = Raised OverflowError.
Proof. repeat split. Qed.

(** Three Completed plans among the five of the past week. *)
Example adherence_three_of_five :
  (plans <- @_recent_plans Example.runtime Example.db_plans Example.clk "u1" 7 ;;
   Returned (List.length plans, count_completed plans))%py = Returned (5%nat, 3)
  /\ @adherence_score Example.runtime Example.db_plans Example.clk "u1" 7 = Returned 0.6%float.
Proof. repeat split; vm_compute; reflexivity. Qed.

(** The end-to-end scenario of the specification: no plan history, no recent
    heart rate, sleep of 90 against a baseline of 70. *)
Example readiness_scenario :
  @readiness_score Example.runtime Example.db_fresh Example.clk "u1" = Returned 0.74%float
  /\ @adherence_score Example.runtime Example.db_fresh Example.clk "u1" 7 = Returned 0.5%float
  /\ @next_best_intensity Example.runtime Example.db_fresh Example.clk "u1" = Returned "Moderate".
Proof. repeat split; vm_compute; reflexivity. Qed.

(** A two-step jump is held back: the classifier says High, the last
    workout was Low, and the policy returns Moderate. *)
Example next_best_intensity_held_back :
  @readiness_score Example.runtime Example.db_jump Example.clk "u1" = Returned 0.97%float
  /\ @adherence_score Example.runtime Example.db_jump Example.clk "u1" 7 = Returned 0.6%float
  /\ base_thresholds 0.97 0.6 = "High"
  /\ last_workout_intensity (find_one_latest (plans Example.db_jump) "u1") = VStr "Low"
  /\ @next_best_intensity Example.runtime Example.db_jump Example.clk "u1" = Returned "Moderate".
Proof. repeat split; vm_compute; reflexivity. Qed.

(** The policy on the example database with five plans. *)
Lemma next_best_intensity_one_step_witness :
  exists r a raw,
    @readiness_score Example.runtime Example.db_plans Example.clk "u1" = Returned r
    /\ @adherence_score Example.runtime Example.db_plans Example.clk "u1" 7 = Returned a
    /\ base_thresholds r a = tier_name raw
    /\ (forall last : tier,
           last_workout_intensity (find_one_latest (plans Example.db_plans) "u1")
           = VStr (tier_name last) ->
           exists t : tier,
             @next_best_intensity Example.runtime Example.db_plans Example.clk "u1"
             = Returned (tier_name t)
             /\ Z.abs (ordinal t - ordinal last) <= 1)
    /\ (last_workout_intensity (find_one_latest (plans Example.db_plans) "u1") = VNone ->
        @next_best_intensity Example.runtime Example.db_plans Example.clk "u1"
        = Returned (tier_name raw))
    /\ (forall raw' last : tier,
           exists t : tier,
             hysteresis (tier_name raw') (VStr (tier_name last)) = Returned (tier_name t)
             /\ Z.abs (ordinal t - ordinal last) <= 1).
Proof.
  apply (@next_best_intensity_one_step Example.runtime Example.db_plans Example.clk "u1").
  reflexivity.
Defined.

(** ** Baselines *)

Section Baselines.

Context {RT : Runtime}.

Lemma insert_desc_length {A : Type} (geb : A -> A -> bool) (x : A) (l : list A) :
  List.length (insert_desc geb x l) = S (List.length l).
Proof.
  induction l as [| y l IH]; cbn; [reflexivity |].
  destruct (geb x y); cbn; congruence.
Qed.

Lemma sort_desc_length {A : Type} (geb : A -> A -> bool) (l : list A) :
  List.length (sort_desc geb l) = List.length l.
Proof.
  induction l as [| x l IH]; [reflexivity |].
  change (sort_desc geb (x :: l)) with (insert_desc geb x (sort_desc geb l)).
  rewrite insert_desc_length, IH. reflexivity.
Qed.

(** The uncapped window is the whole sorted selection, and a query capped
    at a positive [limit] is its first [limit] samples. *)
Lemma samples_in_window_eq db clk user_id metric hours :
  samples_in_window db clk user_id metric hours =
  by_ts_desc (filter (fun d => String.eqb (s_userId d) user_id
                               && String.eqb (s_metricType d) metric
                               && (utcnow clk - hours * 3600000 <=? s_ts d))
                     (sensordata db)).
Proof.
  unfold samples_in_window, find_samples, find_since, cursor_limit.
  destruct (List.length (sensordata db)) eqn:Hn; [reflexivity |].
  rewrite <- Hn. apply firstn_all2.
  unfold by_ts_desc. rewrite sort_desc_length. apply filter_length_le.
Qed.

Lemma find_samples_firstn db clk user_id metric hours limit :
  limit <> 0%nat ->
  find_samples db clk user_id metric hours limit =
  firstn limit (samples_in_window db clk user_id metric hours).
Proof.
  intros Hl. rewrite samples_in_window_eq. unfold find_samples, find_since, cursor_limit.
  destruct limit; [congruence | reflexivity].
Qed.

Lemma find_samples_all db clk user_id metric hours limit :
  (List.length (samples_in_window db clk user_id metric hours) <= limit)%nat ->
  find_samples db clk user_id metric hours limit =
  samples_in_window db clk user_id metric hours.
Proof.
  intros Hlen. destruct limit as [| n].
  - rewrite samples_in_window_eq. reflexivity.
  - rewrite find_samples_firstn by discriminate. apply firstn_all2. exact Hlen.
Qed.

Lemma mean_or_cases (xs : list float) (default f : float) :
  mean_or xs default = Returned f ->
  (xs = [] -> f = default) /\ (xs <> [] -> mean xs = Returned f).
Proof.
  destruct xs as [| x xs]; unfold mean_or; intros H.
  - split; [intros _; injection H; auto | intros Hne; exfalso; apply Hne; reflexivity].
  - split; [discriminate | intros _; exact H].
Qed.

(** C8 (as amended). Each baseline of [readiness_score] is the mean of the
    numeric samples among the 500 most recent samples of its signal in the
    trailing 336 hours, which are all the samples of the window when it
    holds at most 500; it is the fallback, 75.0 for HR and 70.0 for
    SleepScore, when none of them is numeric. *)
Theorem baselines_spec db clk user_id :
  bson_db db = true ->
  let hr := numeric_values (find_samples db clk user_id "HR" 336 500) in
  let sl := numeric_values (find_samples db clk user_id "SleepScore" 336 500) in
  exists hb sb,
    baselines db clk user_id = Returned (hb, sb)
    /\ (hr = [] -> hb = 75.0%float) /\ (hr <> [] -> mean hr = Returned hb)
    /\ (sl = [] -> sb = 70.0%float) /\ (sl <> [] -> mean sl = Returned sb)
    /\ (forall metric,
           find_samples db clk user_id metric 336 500 =
           firstn 500 (samples_in_window db clk user_id metric 336))
    /\ (forall metric,
           (List.length (samples_in_window db clk user_id metric 336) <= 500)%nat ->
           find_samples db clk user_id metric 336 500 =
           samples_in_window db clk user_id metric 336).
Proof.
  intros Hdb hr sl. unfold baselines.
  change (24 * 14) with 336. rewrite !_values_numeric by first [exact Hdb | lia]. cbn [bind].
  fold hr sl.
  destruct (mean_or_returns hr 75%float) as [hb Hhb].
  destruct (mean_or_returns sl 70%float) as [sb Hsb].
  exists hb, sb. rewrite Hhb, Hsb. cbn [bind].
  destruct (mean_or_cases _ _ _ Hhb) as [Hh1 Hh2].
  destruct (mean_or_cases _ _ _ Hsb) as [Hs1 Hs2].
  repeat split; auto.
  - intros metric. apply find_samples_firstn. discriminate.
  - intros metric. apply find_samples_all.
Qed.

End Baselines.

(** The baselines of the example database with five plans. *)
Lemma baselines_spec_witness :
  let hr := numeric_values (RT := Example.runtime)
              (find_samples Example.db_plans Example.clk "u1" "HR" 336 500) in
  let sl := numeric_values (RT := Example.runtime)
              (find_samples Example.db_plans Example.clk "u1" "SleepScore" 336 500) in
  exists hb sb,
    baselines (RT := Example.runtime) Example.db_plans Example.clk "u1" = Returned (hb, sb)
    /\ (hr = [] -> hb = 75.0%float) /\ (hr <> [] -> mean hr = Returned hb)
    /\ (sl = [] -> sb = 70.0%float) /\ (sl <> [] -> mean sl = Returned sb)
    /\ (forall metric,
           find_samples Example.db_plans Example.clk "u1" metric 336 500 =
           firstn 500 (samples_in_window Example.db_plans Example.clk "u1" metric 336))
    /\ (forall metric,
           (List.length (samples_in_window Example.db_plans Example.clk "u1" metric 336) <= 500)%nat ->
           find_samples Example.db_plans Example.clk "u1" metric 336 500 =
           samples_in_window Example.db_plans Example.clk "u1" metric 336).
Proof.
  apply (@baselines_spec Example.runtime Example.db_plans Example.clk "u1").
  reflexivity.
Defined.

(** With 501 heart-rate samples in the fortnight the oldest one is left out
    of the baseline: the code's baseline is 60 where the mean of all the
    numeric samples of the window is 61; and with 500 unreadable recent
    samples the fallback 75 is used although the window holds a numeric
    sample. *)
Lemma baseline_leaves_out_older_samples :
  List.length (samples_in_window Example.db_many Example.clk "u1" "HR" 336) = 501%nat
  /\ baselines (RT := Example.runtime) Example.db_many Example.clk "u1" = Returned (60%float, 70%float)
  /\ mean (numeric_values (RT := Example.runtime)
             (samples_in_window Example.db_many Example.clk "u1" "HR" 336))
     = Returned 61%float
  /\ baselines (RT := Example.runtime) Example.db_hidden Example.clk "u1" = Returned (75%float, 70%float)
  /\ numeric_values (RT := Example.runtime)
       (samples_in_window Example.db_hidden Example.clk "u1" "HR" 336)
     = [61%float].
Proof. repeat split; vm_compute; reflexivity. Qed.

(** ** Readiness *)

Section Readiness.

Context {RT : Runtime}.

(** A finite float minus itself is [+0.0]. *)
Lemma sub_self_finite (b : float) :
  is_finite_float b = true -> (b - b)%float = 0%float.
Proof.
  unfold is_finite_float, exact. intros Hfin.
  apply Prim2SF_inj. rewrite sub_spec.
  destruct (Prim2SF b) as [s | s | | s m e]; try discriminate Hfin.
  - destruct s; reflexivity.
  - unfold SF64sub, SFsub. rewrite Z.sub_diag. reflexivity.
Qed.

Lemma hr_score_neutral (b : float) :
  is_finite_float b = true -> hr_score_of b b = 0.5%float.
Proof.
  intros Hfin. unfold hr_score_of. rewrite (sub_self_finite b Hfin). reflexivity.
Qed.

Lemma recent_averages_cases db clk user_id hb sb ha sa :
  bson_db db = true ->
  recent_averages db clk user_id hb sb = Returned (ha, sa) ->
  mean_or (numeric_values (find_samples db clk user_id "HR" 24 500)) hb = Returned ha
  /\ mean_or (firstn 3 (numeric_values (find_samples db clk user_id "SleepScore" 168 500))) sb
     = Returned sa.
Proof.
  intros Hdb. unfold recent_averages. change (24 * 7) with 168.
  rewrite !_values_numeric by first [exact Hdb | lia]. cbn [bind].
  destruct (mean_or _ hb) as [ha' |]; cbn [bind]; [| discriminate].
  destruct (mean_or _ sb) as [sa' |]; cbn [bind]; [| discriminate].
  intros H. injection H as -> ->. auto.
Qed.

(** C5 (as amended). On the fetched samples [readiness_score] is
    [round(0.4 * hrScore + 0.6 * sleepScore, 2)] with
    [hrScore = clamp(0.5 + (baselineHR - recentHR) / 20.0, 0.1, 1.0)] and
    [sleepScore = clamp(recentSleepAvg / 100.0, 0.1, 1.0)].  When a
    signal has no recent sample its recent value is its baseline; the sleep
    sub-score is then [clamp(baseline / 100, 0.1, 1.0)], and the HR
    sub-score is 0.5 provided the HR baseline is finite. *)
Theorem readiness_score_formula db clk user_id :
  bson_db db = true ->
  let hr_recent := numeric_values (find_samples db clk user_id "HR" 24 500) in
  let sleep_recent :=
    firstn 3 (numeric_values (find_samples db clk user_id "SleepScore" 168 500)) in
  exists baselineHR baselineSleep recentHR recentSleepAvg,
    baselines db clk user_id = Returned (baselineHR, baselineSleep)
    /\ recent_averages db clk user_id baselineHR baselineSleep
       = Returned (recentHR, recentSleepAvg)
    /\ let hrScore := _clamp (0.5 + (baselineHR - recentHR) / 20.0)%float 0.1 1.0 in
       let sleepScore := _clamp (recentSleepAvg / 100.0)%float 0.1 1.0 in
       readiness_score db clk user_id
       = Returned (round2 (0.4 * hrScore + 0.6 * sleepScore)%float)
       /\ (hr_recent = [] ->
           recentHR = baselineHR
           /\ (is_finite_float baselineHR = true -> hrScore = 0.5%float))
       /\ (hr_recent <> [] -> mean hr_recent = Returned recentHR)
       /\ (sleep_recent = [] ->
           recentSleepAvg = baselineSleep
           /\ sleepScore = _clamp (baselineSleep / 100.0)%float 0.1 1.0)
       /\ (sleep_recent <> [] -> mean sleep_recent = Returned recentSleepAvg).
Proof.
  intros Hdb hr_recent sleep_recent.
  destruct (readiness_score_returns db clk user_id Hdb) as (hb & sb & ha & sa & Hb & Hr & Hscore).
  exists hb, sb, ha, sa. split; [exact Hb |]. split; [exact Hr |].
  destruct (recent_averages_cases _ _ _ _ _ _ _ Hdb Hr) as [Hha Hsa].
  fold hr_recent in Hha. fold sleep_recent in Hsa.
  destruct (mean_or_cases _ _ _ Hha) as [Hh1 Hh2].
  destruct (mean_or_cases _ _ _ Hsa) as [Hs1 Hs2].
  cbv zeta. split; [exact Hscore |].
  split.
  - intros Hnil. specialize (Hh1 Hnil). subst ha. split; [reflexivity |].
    intros Hfin. apply (hr_score_neutral hb Hfin).
  - split; [exact Hh2 |]. split; [| exact Hs2].
    intros Hnil. specialize (Hs1 Hnil). subst sa. split; reflexivity.
Qed.

End Readiness.

(** The formula on the example database without plans. *)
Lemma readiness_score_formula_witness :
  let hr_recent :=
    numeric_values (RT := Example.runtime)
      (find_samples Example.db_fresh Example.clk "u1" "HR" 24 500) in
  let sleep_recent :=
    firstn 3 (numeric_values (RT := Example.runtime)
                (find_samples Example.db_fresh Example.clk "u1" "SleepScore" 168 500)) in
  exists baselineHR baselineSleep recentHR recentSleepAvg,
    baselines (RT := Example.runtime) Example.db_fresh Example.clk "u1"
    = Returned (baselineHR, baselineSleep)
    /\ recent_averages (RT := Example.runtime) Example.db_fresh Example.clk "u1"
         baselineHR baselineSleep
       = Returned (recentHR, recentSleepAvg)
    /\ let hrScore := _clamp (0.5 + (baselineHR - recentHR) / 20.0)%float 0.1 1.0 in
       let sleepScore := _clamp (recentSleepAvg / 100.0)%float 0.1 1.0 in
       readiness_score (RT := Example.runtime) Example.db_fresh Example.clk "u1"
       = Returned (round2 (0.4 * hrScore + 0.6 * sleepScore)%float)
       /\ (hr_recent = [] ->
           recentHR = baselineHR
           /\ (is_finite_float baselineHR = true -> hrScore = 0.5%float))
       /\ (hr_recent <> [] -> mean hr_recent = Returned recentHR)
       /\ (sleep_recent = [] ->
           recentSleepAvg = baselineSleep
           /\ sleepScore = _clamp (baselineSleep / 100.0)%float 0.1 1.0)
       /\ (sleep_recent <> [] -> mean sleep_recent = Returned recentSleepAvg).
Proof.
  apply (@readiness_score_formula Example.runtime Example.db_fresh Example.clk "u1").
  reflexivity.
Defined.

(** An infinite heart-rate reading in the fortnight and none in the last
    day: the recent value is the baseline, infinity, their difference is
    NaN, and the HR sub-score is 1.0, not 0.5. *)
Lemma infinite_baseline_saturates :
  numeric_values (RT := Example.runtime)
    (find_samples Example.db_inf Example.clk "u1" "HR" 24 500) = []
  /\ baselines (RT := Example.runtime) Example.db_inf Example.clk "u1"
     = Returned (infinity, 80%float)
  /\ recent_averages (RT := Example.runtime) Example.db_inf Example.clk "u1" infinity 80%float
     = Returned (infinity, 80%float)
  /\ _clamp (0.5 + (infinity - infinity) / 20.0)%float 0.1 1.0 = 1.0%float
  /\ (1.0 =? 0.5)%float = false
  /\ readiness_score (RT := Example.runtime) Example.db_inf Example.clk "u1"
     = Returned 0.88%float.
Proof. repeat split; vm_compute; reflexivity. Qed.

(** ** Nudges *)

Section Nudges.

Context {RT : Runtime}.

(** A sample whose value [int] rejects makes the comprehension of
    [generate_nudges] raise. *)
Lemma step_values_raises (cursor : list sample) (d : sample) (v : value) (e : exn) :
  In d cursor -> s_value d = Some v -> py_int v = Raised e ->
  exists e', step_values cursor = Raised e'.
Proof.
  induction cursor as [| m rest IH]; intros Hin Hv He; [contradiction |].
  cbn [step_values]. destruct Hin as [-> | Hin].
  - rewrite Hv, He. eexists; reflexivity.
  - destruct (s_value m) as [vm |]; [| apply IH; assumption].
    destruct (py_int vm) as [z |]; cbn [bind]; [| eexists; reflexivity].
    destruct (IH Hin Hv He) as [e' ->]. eexists; reflexivity.
Qed.

End Nudges.

(** C7, at a failing input. Among the step samples of a user one has the
    value ["n/a"]: [_values] skips it, and skips the sample with no value,
    while [generate_nudges] raises [ValueError] and records nothing. *)
Theorem generate_nudges_unreadable_sample (bm : BehaviorModelLike) :
  _values (RT := Example.runtime) Example.db_steps Example.clk "u1" "Steps" 24 500
  = Returned [1200%float]
  /\ generate_nudges (RT := Example.runtime) "u1" bm
       {| w_db := Example.db_steps; w_calls := [] |}
     = (Raised ValueError, {| w_db := Example.db_steps; w_calls := [] |}).
Proof. split; vm_compute; reflexivity. Qed.

(** ** Plan generation on concrete behaviour models *)

(** The data source of the behaviour model is unreachable. *)
Lemma generate_plan_catches_witness :
  generate_plan (RT := Example.runtime) Example.a_user Example.unreachable_model
                Example.clk (Example.a_world Example.db_plans)
  = planned (RT := Example.runtime) Example.a_user Example.clk
            (Example.a_world Example.db_plans) (template_of Moderate).
Proof.
  apply (@generate_plan_catches Example.runtime Example.a_user Example.unreachable_model
           Example.clk (Example.a_world Example.db_plans)
           (OtherError "ServerSelectionTimeoutError")).
  reflexivity.
Defined.

(** The behaviour model returns a string that names no tier. *)
Lemma generate_plan_template_witness :
  exists items,
    generate_plan (RT := Example.runtime) Example.a_user
                  (Example.model_returning (VStr "Extreme")) Example.clk
                  (Example.a_world Example.db_plans)
    = planned (RT := Example.runtime) Example.a_user Example.clk
              (Example.a_world Example.db_plans) items
    /\ is_template items
    /\ (truthy (VStr "Extreme") = false ->
        fst (safe_intensity (Example.model_returning (VStr "Extreme")) Example.clk
               (userId Example.a_user) (Example.a_world Example.db_plans))
        = VStr "Moderate"
        /\ items = template_of Moderate)
    /\ (truthy (VStr "Extreme") = true ->
        (forall t, VStr "Extreme" <> VStr (tier_name t)) ->
        items = template_of Moderate)
    /\ (forall t, VStr "Extreme" = VStr (tier_name t) -> items = template_of t).
Proof.
  apply (@generate_plan_template Example.runtime Example.a_user
           (Example.model_returning (VStr "Extreme")) Example.clk
           (Example.a_world Example.db_plans) (VStr "Extreme")).
  - reflexivity.
  - intros _. reflexivity.
Defined.

(** A behaviour model that returns a non-empty list: the value is truthy,
    it is kept by [or], and looking it up in [base] raises [TypeError]; no
    plan is built or stored. *)
Lemma generate_plan_unhashable_intensity :
  truthy (VList [VInt 1]) = true
  /\ generate_plan (RT := Example.runtime) Example.a_user
                   (Example.model_returning (VList [VInt 1])) Example.clk
                   (Example.a_world Example.db_plans)
     = (Raised TypeError,
        {| w_db := Example.db_plans; w_calls := [CallNextBestIntensity "u1"] |}).
Proof. split; reflexivity. Qed.

(** An empty list and an empty dictionary are falsy: [or] replaces them by
    the string Moderate before the lookup, and the Moderate plan is
    stored. *)
Example generate_plan_empty_collection :
  generate_plan (RT := Example.runtime) Example.a_user
                (Example.model_returning (VList [])) Example.clk
                (Example.a_world Example.db_plans)
  = planned (RT := Example.runtime) Example.a_user Example.clk
            (Example.a_world Example.db_plans) (template_of Moderate)
  /\ generate_plan (RT := Example.runtime) Example.a_user
                   (Example.model_returning (VDict [])) Example.clk
                   (Example.a_world Example.db_plans)
     = planned (RT := Example.runtime) Example.a_user Example.clk
               (Example.a_world Example.db_plans) (template_of Moderate).
Proof. split; reflexivity. Qed.

(** With the behaviour model of [behavior_model.py] the plan of the day is
    built from the tier it computes. *)
Example generate_plan_end_to_end :
  generate_plan (RT := Example.runtime) Example.a_user
                (the_behavior_model (RT := Example.runtime)) Example.clk
                (Example.a_world Example.db_fresh)
  = planned (RT := Example.runtime) Example.a_user Example.clk
            (Example.a_world Example.db_fresh) (template_of Moderate).
Proof. vm_compute. reflexivity. Qed.

(** ** Rounding to nearest in binary64 *)

Section RoundAux.

Lemma iter_pos_nat {A : Type} (f : A -> A) (p : positive) (x : A) :
  iter_pos f p x = Nat.iter (Pos.to_nat p) f x.
Proof.
  revert x. induction p as [p IH | p IH |]; intros x; cbn [iter_pos].
  - rewrite !IH, Pos2Nat.inj_xI.
    replace (S (2 * Pos.to_nat p)) with (Pos.to_nat p + S (Pos.to_nat p))%nat by lia.
    rewrite Nat.iter_add, Nat.iter_succ_r. reflexivity.
  - rewrite !IH, Pos2Nat.inj_xO.
    replace (2 * Pos.to_nat p)%nat with (Pos.to_nat p + Pos.to_nat p)%nat by lia.
    rewrite Nat.iter_add. reflexivity.
  - reflexivity.
Qed.

Lemma shr_1_m (mrs : shr_record) :
  0 <= shr_m mrs -> shr_m (shr_1 mrs) = shr_m mrs / 2.
Proof.
  destruct mrs as [m r s]. cbn [shr_m]. intros Hm.
  rewrite <- Z.div2_div.
  destruct m as [| p | p]; [reflexivity | destruct p; reflexivity | lia].
Qed.

Lemma iter_shr_1_m (n : nat) (mrs : shr_record) :
  0 <= shr_m mrs ->
  shr_m (Nat.iter n shr_1 mrs) = shr_m mrs / 2 ^ Z.of_nat n.
Proof.
  intros Hm. induction n as [| n IH].
  - cbn. rewrite Z.div_1_r. reflexivity.
  - rewrite Nat.iter_succ. rewrite shr_1_m.
    + rewrite IH, Nat2Z.inj_succ, Z.pow_succ_r by lia.
      rewrite Z.div_div by lia. f_equal. lia.
    + rewrite IH. apply Z.div_pos; [exact Hm | apply Z.pow_pos_nonneg; lia].
Qed.

(** Shifting right by [n] bits divides the mantissa by [2 ^ n]. *)
Lemma shr_value (mrs : shr_record) (e n : Z) :
  0 <= shr_m mrs -> 0 <= n ->
  shr_m (fst (shr mrs e n)) = shr_m mrs / 2 ^ n /\ snd (shr mrs e n) = e + n.
Proof.
  intros Hm Hn. destruct n as [| p | p]; [| | lia]; cbn [shr fst snd].
  - rewrite Z.div_1_r. split; [reflexivity | lia].
  - rewrite iter_pos_nat, iter_shr_1_m by exact Hm.
    rewrite positive_nat_Z. split; reflexivity.
Qed.

Lemma round_nearest_even_range (m : Z) (l : location) :
  m <= round_nearest_even m l <= m + 1.
Proof.
  destruct l as [| []]; cbn [round_nearest_even]; try destruct (Z.even m); lia.
Qed.

Lemma digits2_of_range (M : positive) (lo hi : Z) :
  0 <= lo -> 2 ^ lo <= Zpos M < 2 ^ hi ->
  lo < Zpos (digits2_pos M) <= hi.
Proof.
  intros Hlo [H1 H2].
  pose proof (digits2_upper M) as Hu. pose proof (digits2_lower M) as Hl.
  set (d := Zpos (digits2_pos M)) in *.
  assert (Hd : 0 < d) by (unfold d; lia).
  assert (Hhi : 0 <= hi).
  { destruct (Z.le_gt_cases 0 hi) as [| Hneg]; [assumption |].
    rewrite (Z.pow_neg_r 2 hi) in H2 by lia. lia. }
  split.
  - apply (Z.pow_lt_mono_r_iff 2); lia.
  - assert (Hlt : 2 ^ d < 2 ^ (hi + 1)).
    { rewrite Z.pow_add_r by lia. change (2 ^ 1) with 2. lia. }
    assert (d < hi + 1) by (apply (Z.pow_lt_mono_r_iff 2); [lia | lia | exact Hlt]).
    lia.
Qed.

(** Rounding of [M * 2 ^ E] in the normal range: the mantissa is cut to 53
    bits and the result is the quotient or its successor, at the exponent
    of the cut. *)
Lemma binary_round_aux_normal (M : positive) (E : Z) :
  let d := Zpos (digits2_pos M) in
  53 <= d -> - 1074 <= d + E - 53 -> d + E <= 1023 ->
  exists (R : Z) (m' : positive) (e' : Z),
    Zpos M / 2 ^ (d - 53) <= R <= Zpos M / 2 ^ (d - 53) + 1
    /\ binary_round_aux prec emax false (Zpos M) E loc_Exact = S754_finite false m' e'
    /\ E + (d - 53) <= e'
    /\ Zpos m' * 2 ^ (e' - (E + (d - 53))) = R.
Proof.
  intros d Hd Hlo Hhi.
  assert (Hfexp : forall k, - 1074 <= k - 53 -> fexp prec emax k = k - 53).
  { intros k Hk. unfold fexp, SpecFloat.emin. change prec with 53. change emax with 1024. lia. }
  unfold binary_round_aux, shr_fexp. cbn [Zdigits2]. fold d.
  rewrite (Hfexp (d + E)) by lia. replace (d + E - 53 - E) with (d - 53) by lia.
  destruct (shr_value (shr_record_of_loc (Zpos M) loc_Exact) E (d - 53)) as [Hm1 He1];
    [cbn; lia | lia |].
  destruct (shr (shr_record_of_loc (Zpos M) loc_Exact) E (d - 53)) as [mrs1 e1].
  cbn [fst snd shr_record_of_loc shr_m] in Hm1, He1.
  set (q0 := Zpos M / 2 ^ (d - 53)) in *.
  pose proof (digits2_upper M) as Hu. pose proof (digits2_lower M) as Hl. fold d in Hu, Hl.
  assert (Hpow : 2 ^ d = 2 ^ (d - 53) * 2 ^ 53)
    by (rewrite <- Z.pow_add_r by lia; f_equal; lia).
  assert (Hp : 0 < 2 ^ (d - 53)) by (apply Z.pow_pos_nonneg; lia).
  assert (Hq0 : 2 ^ 52 <= q0 < 2 ^ 53).
  { unfold q0. split.
    - apply Z.div_le_lower_bound; [exact Hp |].
      change (2 ^ 53) with (2 * 2 ^ 52) in Hpow. nia.
    - apply Z.div_lt_upper_bound; [exact Hp |]. rewrite <- Hpow. exact Hu. }
  pose proof (round_nearest_even_range (shr_m mrs1) (loc_of_shr_record mrs1)) as HR.
  remember (round_nearest_even (shr_m mrs1) (loc_of_shr_record mrs1)) as R eqn:HRr.
  rewrite Hm1 in HR. clearbody q0. clear HRr Hu Hl Hpow Hp. clearbody d.
  destruct R as [| r | r]; [lia | | lia].
  destruct (Z.eq_dec (Zpos r) (2 ^ 53)) as [Heq | Hne].
  - (* the successor carried into a 54th bit *)
    assert (Hr : r = (2 ^ 53)%positive) by lia. subst r.
    cbn [Zdigits2]. change (Zpos (digits2_pos (2 ^ 53))) with 54.
    rewrite (Hfexp (54 + e1)) by lia. replace (54 + e1 - 53 - e1) with 1 by lia.
    cbn [shr shr_record_of_loc iter_pos shr_1 shr_m].
    replace (e1 + 1 <=? emax - prec) with true
      by (symmetry; apply Z.leb_le; change emax with 1024; change prec with 53; lia).
    exists (2 ^ 53), (2 ^ 52)%positive, (e1 + 1).
    split; [lia |]. split; [reflexivity |]. split; [lia |].
    replace (e1 + 1 - (E + (d - 53))) with 1 by lia. reflexivity.
  - assert (Hdr : 52 < Zpos (digits2_pos r) <= 53)
      by (apply digits2_of_range; lia).
    cbn [Zdigits2]. replace (Zpos (digits2_pos r)) with 53 by lia.
    rewrite (Hfexp (53 + e1)) by lia. replace (53 + e1 - 53 - e1) with 0 by lia.
    cbn [shr shr_record_of_loc shr_m].
    replace (e1 <=? emax - prec) with true
      by (symmetry; apply Z.leb_le; change emax with 1024; change prec with 53; lia).
    exists (Zpos r), r, e1.
    split; [lia |]. split; [reflexivity |]. split; [lia |].
    replace (e1 - (E + (d - 53))) with 0 by lia. lia.
Qed.


Lemma Qval_mul (m1 m2 e1 e2 : Z) :
  Qval (m1 * m2) (e1 + e2) == Qval m1 e1 * Qval m2 e2.
Proof.
  unfold Qval. rewrite inject_Z_mult, Qpower_plus by discriminate. ring.
Qed.

Lemma Qval_shift (m e k : Z) :
  0 <= k -> Qval (m * 2 ^ k) e == Qval m (e + k).
Proof.
  intros Hk. unfold Qval.
  rewrite inject_Z_mult, (Zpower_Qpower 2 k) by exact Hk.
  rewrite Qpower_plus by discriminate. change (inject_Z 2) with 2%Q. ring.
Qed.

Lemma Qval_digits (M : positive) (E : Z) :
  (2 ^ (Zpos (digits2_pos M) - 1 + E) <= Qval (Zpos M) E)%Q
  /\ (Qval (Zpos M) E < 2 ^ (Zpos (digits2_pos M) + E))%Q.
Proof.
  pose proof (digits2_upper M) as Hu. pose proof (digits2_lower M) as Hl.
  set (d := Zpos (digits2_pos M)) in *.
  assert (Hd : 0 < d) by (unfold d; lia).
  assert (Hpow : 2 ^ d = 2 * 2 ^ (d - 1)).
  { rewrite <- Z.pow_succ_r by lia. f_equal. lia. }
  unfold Qval. rewrite !Qpower_plus by discriminate.
  rewrite <- (Zpower_Qpower 2 (d - 1)) by lia.
  rewrite <- (Zpower_Qpower 2 d) by lia.
  split.
  - apply Qmult_le_compat_r; [| apply Qlt_le_weak, Qpow2_pos].
    rewrite <- Zle_Qle. lia.
  - apply Qmult_lt_compat_r; [apply Qpow2_pos |].
    rewrite <- Zlt_Qlt. lia.
Qed.

Lemma round_aux_rel (M : positive) (E : Z) :
  2 ^ 52 <= Zpos M ->
  (1 # 1024 <= Qval (Zpos M) E)%Q -> (Qval (Zpos M) E <= 1024)%Q ->
  exists (m' : positive) (e' : Z),
    binary_round_aux prec emax false (Zpos M) E loc_Exact = S754_finite false m' e'
    /\ (Qval (Zpos M) E * (1 - eps) <= Qval (Zpos m') e')%Q
    /\ (Qval (Zpos m') e' <= Qval (Zpos M) E * (1 + eps))%Q.
Proof.
  intros HM Hlo Hhi.
  destruct (Qval_digits M E) as [Hd1 Hd2].
  pose proof (digits2_upper M) as Hu. pose proof (digits2_lower M) as Hl.
  pose proof (binary_round_aux_normal M E) as HG. cbv zeta in HG.
  remember (Zpos (digits2_pos M)) as d eqn:Hdef. clear Hdef.
  assert (Hd : 53 <= d).
  { assert (52 < d); [| lia].
    destruct (Z.le_gt_cases 0 d) as [Hnn | Hneg].
    - apply (Z.pow_lt_mono_r_iff 2); lia.
    - rewrite (Z.pow_neg_r 2 d) in Hu by lia. lia. }
  assert (Hexp : - 10 < d + E <= 11).
  { split.
    - apply (Qpower_lt_compat_l_inv 2); [| reflexivity].
      apply Qle_lt_trans with (y := Qval (Zpos M) E); [exact Hlo | exact Hd2].
    - assert (d - 1 + E <= 10); [| lia].
      apply (Qpower_le_compat_l_inv 2); [| reflexivity].
      apply Qle_trans with (y := Qval (Zpos M) E); [exact Hd1 | exact Hhi]. }
  destruct HG as (R & m' & e' & HR & Hround & He' & Hval); try lia.
  exists m', e'. split; [exact Hround |].
  remember (d - 53) as n eqn:Hndef.
  assert (Hn : 0 <= n) by lia.
  assert (HP : 0 < 2 ^ n) by (apply Z.pow_pos_nonneg; lia).
  pose proof (Z.div_mod (Zpos M) (2 ^ n) ltac:(lia)) as Hdm.
  pose proof (Z.mod_pos_bound (Zpos M) (2 ^ n) HP) as Hrem.
  assert (Hpow : 2 ^ d = 2 ^ n * (2 * 2 ^ 52)).
  { change (2 * 2 ^ 52) with (2 ^ 53). rewrite <- Z.pow_add_r by lia. f_equal. lia. }
  assert (Hq0 : 2 ^ 52 <= Zpos M / 2 ^ n).
  { apply Z.div_le_lower_bound; [exact HP |]. nia. }
  assert (HZ : (2 ^ 52 - 1) * Zpos M <= 2 ^ 52 * (R * 2 ^ n)
               /\ 2 ^ 52 * (R * 2 ^ n) <= (2 ^ 52 + 1) * Zpos M).
  { remember (Zpos M / 2 ^ n) as q0. remember (2 ^ n) as P.
    remember (Zpos M mod P) as rem. nia. }
  assert (HQ : Qval (Zpos m') e' == inject_Z (R * 2 ^ n) * 2 ^ E).
  { rewrite <- Hval.
    replace e' with (E + n + (e' - (E + n))) at 1 by lia.
    rewrite <- Qval_shift by lia. rewrite <- (Qval_shift _ E n) by lia.
    unfold Qval. reflexivity. }
  rewrite HQ. unfold Qval.
  destruct HZ as [HZ1 HZ2].
  assert (HQ1 : ((4503599627370495 # 1) * inject_Z (Zpos M)
                 <= (4503599627370496 # 1) * inject_Z (R * 2 ^ n))%Q).
  { change (4503599627370495 # 1) with (inject_Z (2 ^ 52 - 1)).
    change (4503599627370496 # 1) with (inject_Z (2 ^ 52)).
    rewrite <- !inject_Z_mult, <- Zle_Qle. exact HZ1. }
  assert (HQ2 : ((4503599627370496 # 1) * inject_Z (R * 2 ^ n)
                 <= (4503599627370497 # 1) * inject_Z (Zpos M))%Q).
  { change (4503599627370497 # 1) with (inject_Z (2 ^ 52 + 1)).
    change (4503599627370496 # 1) with (inject_Z (2 ^ 52)).
    rewrite <- !inject_Z_mult, <- Zle_Qle. exact HZ2. }
  remember (inject_Z (Zpos M)) as a. remember (inject_Z (R * 2 ^ n)) as b.
  pose proof (Qpow2_pos E) as Ht. remember (2 ^ E)%Q as t.
  unfold eps. split.
  - setoid_replace (a * t * (1 - (1 # 4503599627370496)))%Q
      with ((a * (1 - (1 # 4503599627370496))) * t)%Q by ring.
    apply Qmult_le_compat_r; [lra | lra].
  - setoid_replace (a * t * (1 + (1 # 4503599627370496)))%Q
      with ((a * (1 + (1 # 4503599627370496))) * t)%Q by ring.
    apply Qmult_le_compat_r; [lra | lra].
Qed.

End RoundAux.

(** ** Products and sums of positive floats *)

Section PositiveFloats.

Local Open Scope Q_scope.


Lemma pos_val_normal (x : float) (m : positive) (e : Z) :
  Prim2SF x = S754_finite false m e -> 1 # 1024 <= Qval (Zpos m) e ->
  (2 ^ 52 <= Zpos m)%Z.
Proof.
  intros Hx Hq. pose proof (Prim2SF_valid x) as Hv. rewrite Hx in Hv.
  apply valid_finite in Hv. destruct Hv as (Hm & He & Hn). apply Hn.
  assert (Hlt : 2 ^ (-10) < 2 ^ (53 + e)).
  { apply Qle_lt_trans with (y := Qval (Zpos m) e); [exact Hq |].
    unfold Qval. rewrite Qpower_plus by discriminate.
    apply Qmult_lt_compat_r; [apply Qpow2_pos |].
    rewrite <- (Zpower_Qpower 2 53) by lia. rewrite <- Zlt_Qlt. exact Hm. }
  apply Qpower_lt_compat_l_inv in Hlt; [lia | reflexivity].
Qed.

Lemma mul_pos_val (a b : float) (qa qb : Q) :
  pos_val a qa -> pos_val b qb ->
  1 # 1024 <= qa -> 1 # 1024 <= qa * qb -> qa * qb <= 1024 ->
  exists q, pos_val (a * b)%float q
            /\ qa * qb * (1 - eps) <= q /\ q <= qa * qb * (1 + eps).
Proof.
  intros (ma & ea & Ha & Hqa) (mb & eb & Hb & Hqb) Hlo Hplo Hphi.
  assert (Hma : (2 ^ 52 <= Zpos ma)%Z).
  { apply (pos_val_normal a ma ea Ha). rewrite Hqa. exact Hlo. }
  assert (HX : Qval (Zpos (ma * mb)) (ea + eb) == qa * qb).
  { rewrite Pos2Z.inj_mul, Qval_mul, Hqa, Hqb. reflexivity. }
  destruct (round_aux_rel (ma * mb) (ea + eb)) as (m' & e' & Hr & H1 & H2).
  - rewrite Pos2Z.inj_mul. nia.
  - rewrite HX. exact Hplo.
  - rewrite HX. exact Hphi.
  - exists (Qval (Zpos m') e'). rewrite HX in H1, H2. split; [| split; assumption].
    exists m', e'. split; [| reflexivity].
    rewrite mul_spec, Ha, Hb. exact Hr.
Qed.

Lemma iter_xO_value (m d : positive) :
  Zpos (Pos.iter xO m d) = (Zpos m * 2 ^ Zpos d)%Z.
Proof.
  induction d as [| d IH] using Pos.peano_ind.
  - cbn [Pos.iter]. lia.
  - rewrite Pos.iter_succ, Pos2Z.inj_xO, IH, Pos2Z.inj_succ, Z.pow_succ_r by lia. lia.
Qed.

Lemma shl_align_fst (m : positive) (e ez : Z) :
  (ez <= e)%Z ->
  Zpos (fst (shl_align m e ez)) = (Zpos m * 2 ^ (e - ez))%Z.
Proof.
  intros Hle. unfold shl_align.
  destruct (ez - e)%Z as [| d | d] eqn:Hd; cbn [fst]; try lia.
  - replace (e - ez)%Z with 0%Z by lia. lia.
  - rewrite iter_xO_value. f_equal. f_equal. lia.
Qed.

Lemma Qval_add (x y e : Z) : Qval (x + y) e == Qval x e + Qval y e.
Proof. unfold Qval. rewrite inject_Z_plus. ring. Qed.

Lemma add_pos_val (a b : float) (qa qb : Q) :
  pos_val a qa -> pos_val b qb ->
  1 # 1024 <= qa -> 1 # 1024 <= qb -> qa + qb <= 1024 ->
  exists q, pos_val (a + b)%float q
            /\ (qa + qb) * (1 - eps) <= q /\ q <= (qa + qb) * (1 + eps).
Proof.
  intros (ma & ea & Ha & Hqa) (mb & eb & Hb & Hqb) Hloa Hlob Hhi.
  assert (Hma : (2 ^ 52 <= Zpos ma)%Z).
  { apply (pos_val_normal a ma ea Ha). rewrite Hqa. exact Hloa. }
  set (ez := Z.min ea eb).
  assert (Hza : (ez <= ea)%Z) by (unfold ez; lia).
  assert (Hzb : (ez <= eb)%Z) by (unfold ez; lia).
  pose proof (shl_align_fst ma ea ez Hza) as Hsa.
  pose proof (shl_align_fst mb eb ez Hzb) as Hsb.
  assert (Hpa : (1 <= 2 ^ (ea - ez))%Z) by (apply Z.lt_pred_le, Z.pow_pos_nonneg; lia).
  assert (Hpb : (0 < 2 ^ (eb - ez))%Z) by (apply Z.pow_pos_nonneg; lia).
  assert (Hsum : exists S : positive,
             (Zpos (fst (shl_align ma ea ez)) + Zpos (fst (shl_align mb eb ez)))%Z = Zpos S
             /\ (2 ^ 52 <= Zpos S)%Z
             /\ Qval (Zpos S) ez == qa + qb).
  { exists (fst (shl_align ma ea ez) + fst (shl_align mb eb ez))%positive.
    split; [reflexivity |]. rewrite Pos2Z.inj_add, Hsa, Hsb. split; [nia |].
    rewrite Qval_add, !Qval_shift by lia.
    replace (ez + (ea - ez))%Z with ea by lia. replace (ez + (eb - ez))%Z with eb by lia.
    rewrite Hqa, Hqb. reflexivity. }
  destruct Hsum as (S & HS & HS52 & HSq).
  destruct (round_aux_rel S ez) as (m' & e' & Hr & H1 & H2).
  - exact HS52.
  - rewrite HSq. lra.
  - rewrite HSq. exact Hhi.
  - exists (Qval (Zpos m') e'). rewrite HSq in H1, H2. split; [| split; assumption].
    exists m', e'. split; [| reflexivity].
    rewrite add_spec, Ha, Hb. unfold SF64add, SFadd. fold ez.
    cbn [cond_Zopp]. rewrite HS. cbn [binary_normalize]. unfold binary_round.
    assert (Hd : (52 < Zpos (digits2_pos S))%Z).
    { pose proof (digits2_upper S) as Hu.
      apply (Z.pow_lt_mono_r_iff 2); lia. }
    assert (Hal : shl_align S ez (fexp prec emax (Zpos (digits2_pos S) + ez)) = (S, ez)).
    { unfold shl_align, fexp.
      destruct (Z.max (Zpos (digits2_pos S) + ez - prec) (SpecFloat.emin prec emax) - ez)%Z
        as [| p | p] eqn:Hp; try reflexivity.
      change prec with 53%Z in Hp. lia. }
    rewrite Hal. exact Hr.
Qed.

End PositiveFloats.

(** ** The clamp and the unit range *)

Section Clamp.

Local Open Scope float_scope.

Lemma ltb_leb (a b : float) : (a <? b) = true -> (a <=? b) = true.
Proof.
  rewrite ltb_spec, leb_spec. unfold SFltb, SFleb.
  destruct (SFcompare (Prim2SF a) (Prim2SF b)) as [[| |] |]; congruence.
Qed.

(** Whatever its argument, NaN and the infinities included, [_clamp] with
    the default bounds returns a float between 0.1 and 1.0. *)
Lemma _clamp_default_range (x : float) :
  (0.1 <=? _clamp_default x) = true /\ (_clamp_default x <=? 1.0) = true.
Proof.
  unfold _clamp_default, _clamp, py_max, py_min.
  destruct (x <? 1.0) eqn:Hhi.
  - destruct (0.1 <? x) eqn:Hlo.
    + split; apply ltb_leb; assumption.
    + split; reflexivity.
  - split; reflexivity.
Qed.

Lemma Prim2SF_tenth : Prim2SF 0.1 = S754_finite false 7205759403792794 (-56).
Proof. vm_compute. reflexivity. Qed.

Lemma Prim2SF_one : Prim2SF 1.0 = S754_finite false 4503599627370496 (-52).
Proof. vm_compute. reflexivity. Qed.

(** A float between 0.1 and 1.0 is positive and finite, and so is its
    exact value. *)
Lemma SFleb_finite_pos (m1 m2 : positive) (e1 e2 : Z) :
  SFleb (S754_finite false m1 e1) (S754_finite false m2 e2) = true ->
  (e1 < e2)%Z \/ (e1 = e2 /\ (Zpos m1 <= Zpos m2)%Z).
Proof.
  unfold SFleb, SFcompare.
  destruct (Z.compare_spec e1 e2) as [He | He | He]; [| left; exact He | discriminate].
  rewrite Pos.compare_cont_spec. unfold Pos.switch_Eq.
  destruct (Pos.compare_spec m1 m2) as [H | H | H]; [| | discriminate].
  - intros _. right. split; [exact He | rewrite H; apply Z.le_refl].
  - intros _. right. split; [exact He | apply Z.lt_le_incl, Pos2Z.pos_lt_pos, H].
Qed.

Lemma unit_range_cases (c : float) :
  (0.1 <=? c) = true -> (c <=? 1.0) = true ->
  exists (m : positive) (e : Z),
    Prim2SF c = S754_finite false m e
    /\ ((e = -56 /\ 7205759403792794 <= Zpos m)%Z
        \/ ((-56 < e < -52)%Z)
        \/ (e = -52 /\ Zpos m <= 4503599627370496)%Z).
Proof.
  rewrite !leb_spec. intros Hlo Hhi.
  rewrite Prim2SF_tenth in Hlo. rewrite Prim2SF_one in Hhi.
  destruct (Prim2SF c) as [s | s | | s m e] eqn:Hc.
  - discriminate Hlo.
  - destruct s; [discriminate Hlo | discriminate Hhi].
  - discriminate Hlo.
  - destruct s; [discriminate Hlo |].
    exists m, e. split; [reflexivity |].
    apply SFleb_finite_pos in Hlo, Hhi.
    destruct Hlo as [Hlo | [Hlo1 Hlo2]]; destruct Hhi as [Hhi | [Hhi1 Hhi2]].
    + right. left. split; assumption.
    + right. right. split; assumption.
    + left. split; [symmetry; assumption | assumption].
    + exfalso. rewrite Hhi1 in Hlo1. discriminate Hlo1.
Qed.

Lemma unit_range_scaled (m : positive) (e : Z) :
  (Zpos m < 2 ^ 53)%Z -> (2 ^ 52 <= Zpos m)%Z ->
  ((e = -56 /\ 7205759403792794 <= Zpos m)%Z
   \/ ((-56 < e < -52)%Z)
   \/ (e = -52 /\ Zpos m <= 4503599627370496)%Z) ->
  (7205759403792794 <= Zpos m * 2 ^ (e + 56) <= 72057594037927936)%Z.
Proof.
  intros Hm Hm52 [[-> H] | [H | [-> H]]].
  - change (2 ^ (-56 + 56))%Z with 1%Z. lia.
  - assert (e = -55 \/ e = -54 \/ e = -53)%Z as [-> | [-> | ->]] by lia.
    + change (2 ^ (-55 + 56))%Z with 2%Z. lia.
    + change (2 ^ (-54 + 56))%Z with 4%Z. lia.
    + change (2 ^ (-53 + 56))%Z with 8%Z. lia.
  - change (2 ^ (-52 + 56))%Z with 16%Z. lia.
Qed.

(** A float between 0.1 and 1.0 is positive and finite, and so is its
    exact value. *)
Lemma unit_range_pos_val (c : float) :
  (0.1 <=? c) = true -> (c <=? 1.0) = true ->
  exists q, pos_val c q /\ (1 # 10 <= q)%Q /\ (q <= 1)%Q.
Proof.
  intros Hlo Hhi.
  destruct (unit_range_cases c Hlo Hhi) as (m & e & Hc & Hcases).
  pose proof (Prim2SF_valid c) as Hv. rewrite Hc in Hv.
  apply valid_finite in Hv. destruct Hv as (Hm & He & Hn).
  assert (Hm52 : (2 ^ 52 <= Zpos m)%Z) by (apply Hn; lia).
  pose proof (unit_range_scaled m e Hm Hm52 Hcases) as [HZ1 HZ2].
  exists (Qval (Zpos m) e). split; [exists m, e; split; [exact Hc | reflexivity] |].
  assert (Hint : Qval (Zpos m) e * (72057594037927936 # 1) == inject_Z (Zpos m * 2 ^ (e + 56))).
  { assert (He56 : (0 <= e + 56)%Z) by lia.
    unfold Qval. rewrite inject_Z_mult, (Zpower_Qpower 2 (e + 56)) by exact He56.
    change (inject_Z 2) with 2%Q. rewrite Qpower_plus by discriminate.
    change (72057594037927936 # 1)%Q with (2 ^ 56)%Q. ring. }
  rewrite Zle_Qle in HZ1, HZ2. rewrite <- Hint in HZ1, HZ2.
  change (inject_Z 72057594037927936) with (72057594037927936 # 1)%Q in HZ2.
  change (inject_Z 7205759403792794) with (7205759403792794 # 1)%Q in HZ1.
  split; lra.
Qed.

End Clamp.

(** ** Rounding to two decimals *)

Section Round2.

Lemma round_half_even_range (x : Q) :
  (19 # 2 <= x)%Q -> (x <= 201 # 2)%Q -> 10 <= round_half_even x <= 100.
Proof.
  intros Hlo Hhi. unfold round_half_even.
  pose proof (Qfloor_le x) as Hf1. pose proof (Qlt_floor x) as Hf2.
  remember (Qfloor x) as f eqn:Hf. clear Hf.
  rewrite inject_Z_plus in Hf2. change (inject_Z 1) with 1%Q in Hf2.
  assert (H9 : 8 < f).
  { rewrite Zlt_Qlt. change (inject_Z 8) with (8 # 1)%Q. lra. }
  assert (H100 : f < 101).
  { rewrite Zlt_Qlt. change (inject_Z 101) with (101 # 1)%Q. lra. }
  destruct (Qcompare_spec (x - inject_Z f) (1 # 2)) as [Heq | Hlt | Hgt].
  - destruct (Z.even f) eqn:Hev; [| split; [lia |]].
    + split; [| lia]. destruct (Z.eq_dec f 9) as [-> | Hne]; [discriminate Hev | lia].
    + destruct (Z.eq_dec f 100) as [-> | Hne]; [discriminate Hev | lia].
  - split; [| lia].
    assert (9 < f); [| lia].
    rewrite Zlt_Qlt. change (inject_Z 9) with (9 # 1)%Q. lra.
  - split; [lia |].
    assert (f < 100); [| lia].
    rewrite Zlt_Qlt. change (inject_Z 100) with (100 # 1)%Q. lra.
Qed.


(** Every whole number of hundredths from 0.10 to 1.00 converts to a float
    between the floats 0.1 and 1.0. *)
Lemma hundredths_table : forallb hundredth_in_range (seq 10 91) = true.
Proof. vm_compute. reflexivity. Qed.

Lemma hundredth_range (K : Z) :
  10 <= K <= 100 ->
  (0.1 <=? float_of_Q (K # 100))%float = true
  /\ (float_of_Q (K # 100) <=? 1.0)%float = true.
Proof.
  intros HK. pose proof hundredths_table as Ht.
  rewrite forallb_forall in Ht. specialize (Ht (Z.to_nat K)).
  unfold hundredth_in_range in Ht. rewrite Z2Nat.id in Ht by lia.
  apply andb_prop. apply Ht. apply in_seq. lia.
Qed.

Lemma Prim2SF_04 : Prim2SF 0.4 = S754_finite false 7205759403792794 (-54).
Proof. vm_compute. reflexivity. Qed.

Lemma Prim2SF_06 : Prim2SF 0.6 = S754_finite false 5404319552844595 (-53).
Proof. vm_compute. reflexivity. Qed.

Lemma pos_val_04 : pos_val 0.4 (7205759403792794 # 18014398509481984).
Proof. exists 7205759403792794%positive, (-54). split; [exact Prim2SF_04 | reflexivity]. Qed.

Lemma pos_val_06 : pos_val 0.6 (5404319552844595 # 9007199254740992).
Proof. exists 5404319552844595%positive, (-53). split; [exact Prim2SF_06 | reflexivity]. Qed.

(** The weighted sum of two sub-scores of the unit range, rounded to two
    decimals, is again between 0.1 and 1.0. *)
Lemma weighted_sum_range (h s : float) :
  (0.1 <=? h)%float = true -> (h <=? 1.0)%float = true ->
  (0.1 <=? s)%float = true -> (s <=? 1.0)%float = true ->
  (0.1 <=? round2 (0.4 * h + 0.6 * s))%float = true
  /\ (round2 (0.4 * h + 0.6 * s) <=? 1.0)%float = true.
Proof.
  intros Hh1 Hh2 Hs1 Hs2.
  destruct (unit_range_pos_val h Hh1 Hh2) as (qh & Hph & Hqh1 & Hqh2).
  destruct (unit_range_pos_val s Hs1 Hs2) as (qs & Hps & Hqs1 & Hqs2).
  assert (H04 : (1 # 1024 <= 7205759403792794 # 18014398509481984)%Q) by (vm_compute; discriminate).
  assert (H06 : (1 # 1024 <= 5404319552844595 # 9007199254740992)%Q) by (vm_compute; discriminate).
  destruct (mul_pos_val _ _ _ _ pos_val_04 Hph H04 ltac:(lra) ltac:(lra))
    as (q1 & Hp1 & Hq1a & Hq1b).
  destruct (mul_pos_val _ _ _ _ pos_val_06 Hps H06 ltac:(lra) ltac:(lra))
    as (q2 & Hp2 & Hq2a & Hq2b).
  unfold eps in Hq1a, Hq1b, Hq2a, Hq2b.
  destruct (add_pos_val _ _ _ _ Hp1 Hp2 ltac:(lra) ltac:(lra) ltac:(lra))
    as (qy & Hpy & Hqya & Hqyb).
  unfold eps in Hqya, Hqyb.
  destruct Hpy as (my & ey & Hy & Hvy).
  unfold round2. rewrite Hy. cbv zeta.
  apply hundredth_range. apply round_half_even_range; rewrite Hvy; lra.
Qed.

End Round2.

(** ** The range of readiness *)

Section ReadinessRange.

Context {RT : Runtime}.

Lemma readiness_score_inv db clk user_id (r : float) :
  readiness_score db clk user_id = Returned r ->
  exists hb ha sa,
    r = round2 (0.4 * hr_score_of hb ha + 0.6 * sleep_score_of sa)%float.
Proof.
  unfold readiness_score.
  destruct (baselines db clk user_id) as [[hb sb] | e1]; cbn [bind]; [| discriminate].
  destruct (recent_averages db clk user_id hb sb) as [[ha sa] | e2]; cbn [bind];
    [| discriminate].
  intros H. injection H as <-. exists hb, ha, sa. reflexivity.
Qed.

(** C6. Whenever [readiness_score] returns, its value is a float between
    0.1 and 1.0, whatever the samples hold (numbers, text, nothing, NaN or
    infinities); and on every database MongoDB can hold it does return. *)
Theorem readiness_score_range db clk user_id :
  (forall r, readiness_score db clk user_id = Returned r ->
             (0.1 <=? r)%float = true /\ (r <=? 1.0)%float = true)
  /\ (bson_db db = true -> exists r, readiness_score db clk user_id = Returned r).
Proof.
  split.
  - intros r Hr. destruct (readiness_score_inv _ _ _ _ Hr) as (hb & ha & sa & ->).
    unfold hr_score_of, sleep_score_of.
    apply weighted_sum_range; apply _clamp_default_range.
  - intros Hdb.
    destruct (readiness_score_returns db clk user_id Hdb) as (hb & sb & ha & sa & _ & _ & Hr).
    eexists. exact Hr.
Qed.

End ReadinessRange.

(** The readiness of the example database with five plans. *)
Lemma readiness_score_range_witness :
  exists r, readiness_score (RT := Example.runtime) Example.db_plans Example.clk "u1" = Returned r
            /\ (0.1 <=? r)%float = true /\ (r <=? 1.0)%float = true.
Proof.
  destruct (@readiness_score_range Example.runtime Example.db_plans Example.clk "u1")
    as [Hrange Hret].
  destruct (Hret eq_refl) as [r Hr].
  exists r. split; [exact Hr | exact (Hrange r Hr)].
Defined.

(** ** Each user's results depend on that user's documents only *)

Section OwnDocuments.

Context {RT : Runtime}.

Lemma filter_andb {A : Type} (f g : A -> bool) (l : list A) :
  filter (fun x => f x && g x) l = filter g (filter f l).
Proof.
  induction l as [| x l IH]; cbn; [reflexivity |].
  destruct (f x); cbn; [destruct (g x); cbn; rewrite IH; reflexivity | exact IH].
Qed.

Lemma find_plans_of_user db u since :
  find_plans db u since =
  filter (fun p => String.leb since (p_date p)) (fst (documents_of u db)).
Proof. unfold find_plans, documents_of. cbn [fst]. apply filter_andb. Qed.

Lemma find_since_of_user db u metric since limit :
  find_since db u metric since limit =
  cursor_limit limit
    (by_ts_desc
       (filter (fun d => String.eqb (s_metricType d) metric && (since <=? s_ts d))
               (snd (documents_of u db)))).
Proof.
  unfold find_since, documents_of. cbn [snd]. rewrite <- filter_andb.
  do 2 f_equal. apply filter_ext. intros d. rewrite andb_assoc. reflexivity.
Qed.

Lemma find_steps_of_user db u :
  find_steps db u =
  cursor_limit 6 (by_ts_desc (filter (fun d => String.eqb (s_metricType d) "Steps")
                                     (snd (documents_of u db)))).
Proof. unfold find_steps, documents_of. cbn [snd]. rewrite <- filter_andb. reflexivity. Qed.

Lemma find_one_latest_of_user db u :
  find_one_latest (plans db) u = hd_error (by_date_desc (fst (documents_of u db))).
Proof. reflexivity. Qed.

(** X1. Two databases that hold the same plans and samples of a user, in
    the same order, give that user the same adherence, the same readiness,
    the same intensity, the same plan of the day and the same nudge:
    documents of other users are never read.  The nudge does not depend on
    the behaviour model either. *)
Theorem own_documents_only (db1 db2 : database) (clk : clock) (u : user) (days : Z) :
  documents_of (userId u) db1 = documents_of (userId u) db2 ->
  adherence_score db1 clk (userId u) days = adherence_score db2 clk (userId u) days
  /\ readiness_score db1 clk (userId u) = readiness_score db2 clk (userId u)
  /\ next_best_intensity db1 clk (userId u) = next_best_intensity db2 clk (userId u)
  /\ (forall c1 c2,
         fst (generate_plan u the_behavior_model clk {| w_db := db1; w_calls := c1 |})
         = fst (generate_plan u the_behavior_model clk {| w_db := db2; w_calls := c2 |}))
  /\ (forall bm1 bm2 c1 c2,
         fst (generate_nudges (userId u) bm1 {| w_db := db1; w_calls := c1 |})
         = fst (generate_nudges (userId u) bm2 {| w_db := db2; w_calls := c2 |})).
Proof.
  intros H.
  assert (Hany : forall n, adherence_score db1 clk (userId u) n
                          = adherence_score db2 clk (userId u) n).
  { intros n. unfold adherence_score, _recent_plans.
    destruct (date_minus_days (today clk) n); cbn [bind];
      [rewrite !find_plans_of_user, H |]; reflexivity. }
  pose proof (Hany days) as Ha. pose proof (Hany 7) as Ha7.
  assert (Hs : forall metric hours limit,
             _values db1 clk (userId u) metric hours limit
             = _values db2 clk (userId u) metric hours limit).
  { intros. unfold _values.
    destruct (datetime_minus_hours (utcnow clk) hours); cbn [bind];
      [rewrite !find_since_of_user, H |]; reflexivity. }
  assert (Hr : readiness_score db1 clk (userId u) = readiness_score db2 clk (userId u))
    by (unfold readiness_score, baselines, recent_averages; rewrite !Hs; reflexivity).
  assert (Hn : next_best_intensity db1 clk (userId u) = next_best_intensity db2 clk (userId u))
    by (unfold next_best_intensity; rewrite Hr, Ha7, !find_one_latest_of_user, H; reflexivity).
  split; [exact Ha |]. split; [exact Hr |]. split; [exact Hn |]. split.
  - intros c1 c2. unfold generate_plan, safe_intensity, the_behavior_model.
    cbn [bm_next_best_intensity w_db]. rewrite Hn.
    destruct (next_best_intensity db2 clk (userId u)) as [t | e]; cbn [bind];
      match goal with
      | |- context [dict_get base ?v base_Moderate] =>
          destruct (dict_get base v base_Moderate)
      end; reflexivity.
  - intros bm1 bm2 c1 c2. unfold generate_nudges. cbn [w_db].
    rewrite !find_steps_of_user, H.
    match goal with
    | |- context [bind ?c ?k] => destruct (bind c k)
    end; reflexivity.
Qed.

(** X2. A user without any plan or sample gets the neutral scores:
    readiness 0.62 (the fallback baselines 75 and 70), adherence 0.5, the
    Moderate tier and the Moderate plan. *)
Theorem new_user_gets_moderate (db : database) (clk : clock) (u : user) (calls : list call) :
  documents_of (userId u) db = ([], []) ->
  readiness_score db clk (userId u) = Returned 0.62%float
  /\ adherence_score db clk (userId u) 7 = Returned 0.5%float
  /\ next_best_intensity db clk (userId u) = Returned "Moderate"
  /\ generate_plan u the_behavior_model clk {| w_db := db; w_calls := calls |}
     = planned u clk {| w_db := db; w_calls := calls |} (template_of Moderate).
Proof.
  intros H.
  assert (Hv : forall metric hours limit,
             0 <= hours <= 336 ->
             _values db clk (userId u) metric hours limit = Returned []).
  { intros metric hours limit Hh. unfold _values.
    rewrite datetime_minus_hours_default by exact Hh. cbn [bind].
    rewrite find_since_of_user, H. cbn [snd filter].
    destruct limit; reflexivity. }
  assert (Hr : readiness_score db clk (userId u) = Returned 0.62%float)
    by (unfold readiness_score, baselines, recent_averages; rewrite !Hv by lia;
        vm_compute; reflexivity).
  assert (Ha : adherence_score db clk (userId u) 7 = Returned 0.5%float).
  { rewrite adherence_score_eq, _recent_plans_eq by apply window_in_calendar_week.
    cbn [bind]. rewrite find_plans_of_user, H. reflexivity. }
  assert (Hn : next_best_intensity db clk (userId u) = Returned "Moderate")
    by (unfold next_best_intensity; rewrite Hr, Ha, find_one_latest_of_user, H; reflexivity).
  split; [exact Hr |]. split; [exact Ha |]. split; [exact Hn |].
  apply generate_plan_items with (v := VStr "Moderate"); [| reflexivity].
  unfold safe_intensity, the_behavior_model. cbn [bm_next_best_intensity w_db].
  rewrite Hn. reflexivity.
Qed.

End OwnDocuments.

(** ** The hysteresis step on values that name no tier *)

Section HysteresisEdges.

Context {RT : Runtime}.

(** X3. When the last intensity is not one of the three tier names, the
    step raises [TypeError] when the value is truthy and unhashable, a
    non-empty list or a non-empty embedded document (it is used as a
    dictionary key), and returns the raw tier unchanged otherwise: a falsy
    value skips the step, and a hashable truthy value that names no tier
    counts as Moderate, which is within one step of every tier. *)
Theorem hysteresis_unrecognised (raw : tier) (v : value) :
  (forall l : tier, v <> VStr (tier_name l)) ->
  hysteresis (tier_name raw) v =
  if truthy v && negb (hashable v) then Raised TypeError
  else Returned (tier_name raw).
Proof.
  intros Hno. unfold hysteresis.
  destruct v as [| b | z | f | str | l | kv]; cbn [truthy hashable negb].
  - reflexivity.
  - destruct b; [destruct raw |]; reflexivity.
  - destruct (negb (z =? 0)); [destruct raw |]; reflexivity.
  - destruct (negb (f =? 0)%float); [destruct raw |]; reflexivity.
  - rewrite andb_false_r. destruct (negb (String.eqb str "")); [| reflexivity].
    assert (Hd : dict_get order (VStr str) 1 = Returned 1).
    { unfold dict_get, order. cbn [assoc].
      destruct (String.eqb_spec str "Low") as [-> | _]; [exfalso; apply (Hno Low); reflexivity |].
      destruct (String.eqb_spec str "Moderate") as [-> | _]; [reflexivity |].
      destruct (String.eqb_spec str "High") as [-> | _]; [exfalso; apply (Hno High); reflexivity |].
      reflexivity. }
    rewrite Hd. destruct raw; reflexivity.
  - destruct l; reflexivity.
  - destruct kv; reflexivity.
Qed.

(** The step returns its target or Moderate. *)
Lemma hysteresis_keeps_or_moderate (target : string) (v : value) (s : string) :
  hysteresis target v = Returned s -> s = target \/ s = "Moderate".
Proof.
  unfold hysteresis. destruct (truthy v); [| intros H; injection H as <-; left; reflexivity].
  destruct (dict_get order v 1) as [li | e]; [| discriminate].
  destruct (dict_get order (VStr target) 1) as [ti | e]; [| discriminate].
  cbn [bind]. destruct (ti - li >? 1); [intros H; injection H as <-; right; reflexivity |].
  destruct (li - ti >? 1); intros H; injection H as <-; auto.
Qed.

(** On a raw tier the step raises for a truthy unhashable last intensity
    and returns a tier for every other one. *)
Lemma hysteresis_returns_tier (raw : tier) (v : value) :
  if truthy v && negb (hashable v)
  then hysteresis (tier_name raw) v = Raised TypeError
  else exists t : tier, hysteresis (tier_name raw) v = Returned (tier_name t).
Proof.
  destruct v as [| b | z | f | str | l | kv]; cbn [hashable negb];
    rewrite ?andb_false_r;
    try (exists raw; unfold hysteresis; cbn [truthy];
         match goal with
         | |- (if ?c then _ else _) = _ => destruct c; [destruct raw |]; reflexivity
         | _ => reflexivity
         end).
  - unfold hysteresis. destruct (truthy (VStr str)); [| exists raw; reflexivity].
    assert (Hd : exists li, dict_get order (VStr str) 1 = Returned li /\ 0 <= li <= 2).
    { unfold dict_get, order. cbn [assoc].
      destruct (String.eqb str "Low"); [eexists; split; [reflexivity | lia] |].
      destruct (String.eqb str "Moderate"); [eexists; split; [reflexivity | lia] |].
      destruct (String.eqb str "High"); eexists; split; try reflexivity; lia. }
    destruct Hd as (li & -> & Hli). rewrite order_tier. cbn [bind].
    destruct (ordinal raw - li >? 1); [exists Moderate; reflexivity |].
    destruct (li - ordinal raw >? 1); [exists Moderate; reflexivity |].
    exists raw; reflexivity.
  - destruct l; [exists raw |]; reflexivity.
  - destruct kv; [exists raw |]; reflexivity.
Qed.

(** On a well-formed database the intensity is the hysteresis step on a
    raw tier. *)
Lemma next_best_intensity_step db clk u :
  bson_db db = true ->
  exists raw : tier,
    next_best_intensity db clk u =
    hysteresis (tier_name raw) (last_workout_intensity (find_one_latest (plans db) u)).
Proof.
  intros Hdb.
  destruct (readiness_score_returns db clk u Hdb) as (hb & sb & ha & sa & _ & _ & Hr).
  destruct (adherence_score_week db clk u) as [a Ha].
  unfold next_best_intensity. rewrite Hr, Ha. cbn [bind].
  match goal with
  | |- context [base_thresholds ?r ?a] =>
      destruct (base_thresholds_tier r a) as [raw ->]
  end.
  exists raw. reflexivity.
Qed.

(** X4. On a database whose plans are plan documents (a list of item
    documents under [items]) and whose integers fit 64 bits,
    [next_best_intensity] raises [TypeError] when the first Workout of the
    last plan carries a truthy unhashable intensity, a non-empty list or a
    non-empty embedded document; for every other intensity of that item it
    returns the name of one of the three tiers. *)
Theorem next_best_intensity_outcomes db clk u :
  bson_db db = true ->
  let last := last_workout_intensity (find_one_latest (plans db) u) in
  if truthy last && negb (hashable last)
  then next_best_intensity db clk u = Raised TypeError
  else exists t : tier, next_best_intensity db clk u = Returned (tier_name t).
Proof.
  intros Hdb last. destruct (next_best_intensity_step db clk u Hdb) as [raw ->].
  apply hysteresis_returns_tier.
Qed.

(** X5. The scores behind a result: [next_best_intensity] returns High
    only when readiness is above 0.8 and adherence is at least 0.6, and
    Low only when readiness is not at least 0.6; the last plan can pull a
    result towards Moderate, never away from it. *)
Theorem scores_behind_the_tier db clk u (s : string) :
  next_best_intensity db clk u = Returned s ->
  exists r a,
    readiness_score db clk u = Returned r
    /\ adherence_score db clk u 7 = Returned a
    /\ (s = "High" -> (0.8 <? r)%float = true /\ (0.6 <=? a)%float = true)
    /\ (s = "Low" -> (0.6 <=? r)%float = false).
Proof.
  unfold next_best_intensity.
  destruct (readiness_score db clk u) as [r | e]; [| discriminate].
  destruct (adherence_score db clk u 7) as [a | e]; [| discriminate].
  cbn [bind]. intros H. exists r, a. split; [reflexivity |]. split; [reflexivity |].
  apply hysteresis_keeps_or_moderate in H. unfold base_thresholds in H.
  destruct ((0.8 <? r)%float && (0.6 <=? a)%float) eqn:Hg.
  - split; [intros _; apply andb_prop in Hg; exact Hg |].
    intros ->. destruct H as [H | H]; discriminate H.
  - destruct (0.6 <=? r)%float.
    + split; intros ->; destruct H as [H | H]; discriminate H.
    + split; [intros ->; destruct H as [H | H]; discriminate H | reflexivity].
Qed.

(** X6. The last intensity is read from the first Workout item of the
    plan: items of other types before it are passed over, and nothing
    after it is looked at, even when that first Workout has no
    intensity. *)
Theorem first_workout_decides (before after : list item) (it : item) :
  forallb (fun i => negb (eq_str (it_type i) "Workout")) before = true ->
  eq_str (it_type it) "Workout" = true ->
  first_workout_intensity (before ++ it :: after) = it_intensity it.
Proof.
  intros Hb Hit. induction before as [| i before IH]; cbn [app first_workout_intensity].
  - rewrite Hit. reflexivity.
  - cbn [forallb] in Hb. apply andb_prop in Hb. destruct Hb as [Hi Hb].
    apply negb_true_iff in Hi. rewrite Hi. apply IH. exact Hb.
Qed.

End HysteresisEdges.

(** ** The upsert of the plan of the day *)

Section Upsert.

Lemma same_key_eq (doc p : plan) : same_key doc p = true <-> plan_key p = plan_key doc.
Proof.
  unfold same_key, plan_key. rewrite andb_true_iff, !String.eqb_eq.
  split; [intros [-> ->]; reflexivity | intros H; injection H; auto].
Qed.

Lemma upsert_plan_keys (doc : plan) (ps : list plan) :
  map plan_key (upsert_plan doc ps) =
  if existsb (same_key doc) ps then map plan_key ps
  else (map plan_key ps ++ [plan_key doc])%list.
Proof.
  induction ps as [| p ps IH]; [reflexivity |].
  cbn [upsert_plan existsb]. fold (same_key doc p).
  destruct (same_key doc p) eqn:Hk; cbn [orb map].
  - apply same_key_eq in Hk. rewrite Hk. reflexivity.
  - rewrite IH. destruct (existsb (same_key doc) ps); reflexivity.
Qed.

Lemma upsert_plan_unique (doc : plan) (ps : list plan) :
  one_plan_per_day ps -> one_plan_per_day (upsert_plan doc ps).
Proof.
  unfold one_plan_per_day. intros Hnd. rewrite upsert_plan_keys.
  destruct (existsb (same_key doc) ps) eqn:Hex; [exact Hnd |].
  apply NoDup_app; [exact Hnd | repeat constructor; intros [] |].
  intros k Hin [<- | []].
  apply in_map_iff in Hin. destruct Hin as (p & Hk & Hp).
  assert (Ht : existsb (same_key doc) ps = true).
  { apply existsb_exists. exists p. split; [exact Hp | apply same_key_eq; exact Hk]. }
  congruence.
Qed.

Lemma upsert_plan_stored (doc : plan) (ps : list plan) : In doc (upsert_plan doc ps).
Proof.
  induction ps as [| p ps IH]; cbn [upsert_plan]; [left; reflexivity |].
  destruct (_ && _); [left; reflexivity | right; exact IH].
Qed.

Lemma upsert_plan_others (doc : plan) (ps : list plan) :
  filter (fun p => negb (same_key doc p)) (upsert_plan doc ps)
  = filter (fun p => negb (same_key doc p)) ps.
Proof.
  assert (Hdoc : same_key doc doc = true) by (apply same_key_eq; reflexivity).
  induction ps as [| p ps IH]; cbn [upsert_plan filter].
  - rewrite Hdoc. reflexivity.
  - fold (same_key doc p). destruct (same_key doc p) eqn:Hk; cbn [filter negb].
    + rewrite Hdoc. reflexivity.
    + rewrite Hk, IH. reflexivity.
Qed.

Lemma upsert_plan_length (doc : plan) (ps : list plan) :
  List.length (upsert_plan doc ps) =
  if existsb (same_key doc) ps then List.length ps else S (List.length ps).
Proof.
  rewrite <- (length_map plan_key), upsert_plan_keys.
  destruct (existsb (same_key doc) ps); [apply length_map |].
  rewrite length_app, length_map. cbn. lia.
Qed.

Lemma upsert_plan_again (doc doc' : plan) (ps : list plan) :
  plan_key doc' = plan_key doc ->
  upsert_plan doc' (upsert_plan doc ps) = upsert_plan doc' ps.
Proof.
  intros Hk.
  assert (Hs : forall p, same_key doc' p = same_key doc p).
  { intros p. unfold same_key. injection Hk as -> ->. reflexivity. }
  assert (Hdoc : same_key doc doc = true) by (apply same_key_eq; reflexivity).
  induction ps as [| p ps IH]; cbn [upsert_plan].
  - fold (same_key doc' doc). rewrite Hs, Hdoc. reflexivity.
  - fold (same_key doc p). destruct (same_key doc p) eqn:Hp; cbn [upsert_plan].
    + fold (same_key doc' doc) (same_key doc' p). rewrite !Hs, Hdoc, Hp. reflexivity.
    + fold (same_key doc' p). rewrite Hs, Hp, IH. reflexivity.
Qed.

End Upsert.

Section StoredPlans.

Context {RT : Runtime}.

(** What [generate_plan] does to the database, whatever the outcome. *)
Lemma generate_plan_cases (u : user) (bm : BehaviorModelLike) (clk : clock) (w : world) :
  (exists e, fst (generate_plan u bm clk w) = Raised e
             /\ w_db (snd (generate_plan u bm clk w)) = w_db w)
  \/ (exists items,
         dict_get base (fst (safe_intensity bm clk (userId u) w)) base_Moderate = Returned items
         /\ let doc := plan_doc (userId u) items (isoformat (today clk)) "Proposed" in
            fst (generate_plan u bm clk w) = Returned doc
            /\ w_db (snd (generate_plan u bm clk w)) =
               {| plans := upsert_plan doc (plans (w_db w));
                  sensordata := sensordata (w_db w);
                  recommendations := recommendations (w_db w) |}).
Proof.
  unfold generate_plan.
  assert (Hw : w_db (snd (safe_intensity bm clk (userId u) w)) = w_db w).
  { unfold safe_intensity. destruct (bm_next_best_intensity bm (w_db w) clk (userId u)); reflexivity. }
  destruct (safe_intensity bm clk (userId u) w) as [v w1]. cbn [fst snd] in *.
  destruct (dict_get base v base_Moderate) as [items | e].
  - right. exists items. split; [reflexivity |]. cbn. rewrite Hw. auto.
  - left. exists e. cbn. auto.
Qed.

(** X7. [generate_plan] keeps the collection at one plan per user and day:
    when no two stored plans share a user and a date, none do afterwards,
    whatever the behaviour model returns or raises. *)
Theorem generate_plan_one_per_day (u : user) (bm : BehaviorModelLike) (clk : clock)
        (w : world) :
  one_plan_per_day (plans (w_db w)) ->
  one_plan_per_day (plans (w_db (snd (generate_plan u bm clk w)))).
Proof.
  intros Hnd.
  destruct (generate_plan_cases u bm clk w) as [(e & _ & ->) | (items & _ & _ & ->)].
  - exact Hnd.
  - cbn [plans]. apply upsert_plan_unique. exact Hnd.
Qed.

(** X8. [generate_plan] touches nothing but today's plan of its user:
    samples and recommendations are unchanged, every plan of another user
    or another day is kept in place, the collection grows by at most one
    document, and a returned plan is stored under today's date. *)
Theorem generate_plan_frame (u : user) (bm : BehaviorModelLike) (clk : clock) (w : world) :
  let w' := snd (generate_plan u bm clk w) in
  let mine p := String.eqb (p_userId p) (userId u)
                && String.eqb (p_date p) (isoformat (today clk)) in
  sensordata (w_db w') = sensordata (w_db w)
  /\ recommendations (w_db w') = recommendations (w_db w)
  /\ filter (fun p => negb (mine p)) (plans (w_db w'))
     = filter (fun p => negb (mine p)) (plans (w_db w))
  /\ (List.length (plans (w_db w)) <= List.length (plans (w_db w'))
      <= S (List.length (plans (w_db w))))%nat
  /\ (forall doc, fst (generate_plan u bm clk w) = Returned doc ->
                  In doc (plans (w_db w')) /\ mine doc = true).
Proof.
  intros w' mine. subst w'.
  destruct (generate_plan_cases u bm clk w) as [(e & Hr & ->) | (items & _ & Hr & ->)].
  - repeat split; try reflexivity; try lia; rewrite Hr in H; discriminate H.
  - cbn zeta in Hr. cbn [plans sensordata recommendations].
    set (doc := plan_doc (userId u) items (isoformat (today clk)) "Proposed") in *.
    split; [reflexivity |]. split; [reflexivity |]. split; [| split].
    + apply (upsert_plan_others doc).
    + rewrite upsert_plan_length. destruct (existsb (same_key doc) (plans (w_db w))); lia.
    + intros doc' H. rewrite Hr in H. injection H as <-.
      split; [apply upsert_plan_stored |]. unfold mine, doc. cbn.
      rewrite !String.eqb_refl. reflexivity.
Qed.

(** X9. Generating again on the same day, when the behaviour model
    answers as it did the first time, returns the same plan and leaves the
    database as the first call left it: the upsert replaces, it does not
    add. *)
Theorem generate_plan_again (u : user) (bm : BehaviorModelLike) (clk : clock) (w : world) :
  let w1 := snd (generate_plan u bm clk w) in
  bm_next_best_intensity bm (w_db w1) clk (userId u)
  = bm_next_best_intensity bm (w_db w) clk (userId u) ->
  fst (generate_plan u bm clk w1) = fst (generate_plan u bm clk w)
  /\ w_db (snd (generate_plan u bm clk w1)) = w_db w1.
Proof.
  intros w1 Hbm.
  assert (Hs : fst (safe_intensity bm clk (userId u) w1) = fst (safe_intensity bm clk (userId u) w))
    by (unfold safe_intensity; rewrite Hbm;
        destruct (bm_next_best_intensity bm (w_db w) clk (userId u)); reflexivity).
  destruct (generate_plan_cases u bm clk w1) as [(e & Hr1 & Hw1) | (items1 & Hd1 & Hr1 & Hw1)];
    destruct (generate_plan_cases u bm clk w) as [(e0 & Hr & Hw) | (items & Hd & Hr & Hw)];
    fold w1 in Hw; try rewrite Hs in Hd1.
  - split; [| exact Hw1]. rewrite Hr1, Hr.
    unfold generate_plan in Hr1, Hr.
    destruct (safe_intensity bm clk (userId u) w1) as [v1 x1].
    destruct (safe_intensity bm clk (userId u) w) as [v0 x0]. cbn [fst] in Hs. subst v1.
    destruct (dict_get base v0 base_Moderate); cbn in Hr1, Hr; congruence.
  - exfalso. unfold generate_plan in Hr1.
    destruct (safe_intensity bm clk (userId u) w1) as [v1 x1]. cbn [fst] in *. subst v1.
    rewrite Hd in Hr1. discriminate Hr1.
  - exfalso. unfold generate_plan in Hr.
    destruct (safe_intensity bm clk (userId u) w) as [v0 x0]. cbn [fst] in *.
    rewrite Hd1 in Hr. discriminate Hr.
  - cbn zeta in *. assert (items1 = items) by congruence. subst items1.
    split; [congruence |]. rewrite Hw1, Hw. cbn [plans sensordata recommendations].
    rewrite upsert_plan_again by reflexivity. reflexivity.
Qed.

End StoredPlans.

Section Latest.

Context {A : Type} (geb : A -> A -> bool).

Lemma insert_desc_top (x : A) (l : list A) :
  forallb (geb x) l = true -> insert_desc geb x l = x :: l.
Proof.
  destruct l as [| y l]; cbn; [reflexivity |].
  intros H. apply andb_prop in H. destruct H as [-> _]. reflexivity.
Qed.

Lemma insert_desc_below (x y : A) (l : list A) :
  geb x y = false -> hd_error l = Some y -> hd_error (insert_desc geb x l) = Some y.
Proof.
  intros Hxy. destruct l as [| z l]; cbn; [discriminate |].
  intros H. injection H as ->. rewrite Hxy. reflexivity.
Qed.

(** The head of a descending sort: an element that every earlier element
    is strictly below and no later element is above. *)
Lemma sort_desc_head (before after : list A) (x : A) :
  forallb (fun p => negb (geb p x)) before = true ->
  forallb (geb x) after = true ->
  hd_error (sort_desc geb (before ++ x :: after)) = Some x.
Proof.
  intros Hb Ha. induction before as [| p before IH].
  - change (sort_desc geb ([] ++ x :: after)) with (insert_desc geb x (sort_desc geb after)).
    rewrite insert_desc_top; [reflexivity |].
    apply forallb_sort_desc. exact Ha.
  - cbn [forallb] in Hb. apply andb_prop in Hb. destruct Hb as [Hp Hb].
    change (sort_desc geb ((p :: before) ++ x :: after))
      with (insert_desc geb p (sort_desc geb (before ++ x :: after))).
    apply insert_desc_below; [apply negb_true_iff; exact Hp | apply IH; exact Hb].
Qed.

End Latest.

Section RoundTrip.

Context {RT : Runtime}.

Lemma upsert_plan_split (doc : plan) (ps : list plan) :
  exists before after,
    upsert_plan doc ps = (before ++ doc :: after)%list
    /\ forallb (fun p => negb (same_key doc p)) before = true
    /\ (forall p, In p before \/ In p after -> In p ps).
Proof.
  induction ps as [| p ps IH]; cbn [upsert_plan].
  - exists [], []. repeat split. intros p [[] | []].
  - fold (same_key doc p). destruct (same_key doc p) eqn:Hk.
    + exists [], ps. repeat split. intros q [[] | Hq]. right; exact Hq.
    + destruct IH as (before & after & -> & Hb & Hin).
      exists (p :: before), after. repeat split.
      * cbn [forallb]. rewrite Hk, Hb. reflexivity.
      * intros q [[-> | Hq] | Hq]; [left; reflexivity | right; apply Hin; auto ..].
Qed.

Lemma dict_get_base_template (v : value) (items : list item) :
  dict_get base v base_Moderate = Returned items ->
  exists t : tier, items = template_of t.
Proof.
  intros H. destruct (hashable v) eqn:Hh.
  - destruct (dict_get_base_hashable v Hh) as (items' & Hget & Htpl & _).
    rewrite H in Hget. injection Hget as <-. exact Htpl.
  - destruct v; discriminate.
Qed.

Lemma template_workout (t : tier) :
  first_workout_intensity (template_of t) = VStr (tier_name t).
Proof. destruct t; reflexivity. Qed.

(** The document just upserted is the latest of its user when no stored
    plan of that user has a later date. *)
Lemma upsert_plan_latest (doc : plan) (ps : list plan) :
  (forall p, In p ps -> p_userId p = p_userId doc ->
             String.leb (p_date p) (p_date doc) = true) ->
  find_one_latest (upsert_plan doc ps) (p_userId doc) = Some doc.
Proof.
  intros Hdates.
  destruct (upsert_plan_split doc ps) as (before & after & -> & Hb & Hin).
  unfold find_one_latest, by_date_desc. rewrite filter_app. cbn [filter].
  rewrite String.eqb_refl. apply sort_desc_head.
  - apply forallb_forall. intros p Hp. apply filter_In in Hp. destruct Hp as [Hp Hu].
    apply String.eqb_eq in Hu.
    rewrite forallb_forall in Hb. specialize (Hb p Hp).
    apply negb_true_iff in Hb. apply negb_true_iff.
    destruct (String.leb (p_date doc) (p_date p)) eqn:Hle; [| reflexivity].
    assert (Hge : String.leb (p_date p) (p_date doc) = true)
      by (apply Hdates; [apply Hin; left; exact Hp | exact Hu]).
    pose proof (String.leb_antisym _ _ Hle Hge) as Heq.
    unfold same_key in Hb. rewrite Hu, <- Heq in Hb.
    rewrite !String.eqb_refl in Hb. discriminate Hb.
  - apply forallb_forall. intros p Hp. apply filter_In in Hp. destruct Hp as [Hp Hu].
    apply String.eqb_eq in Hu. apply Hdates; [apply Hin; right; exact Hp | exact Hu].
Qed.

(** Two stored plans with one key are one plan, when there is one plan per
    user and day. *)
Lemma one_plan_per_day_key (ps : list plan) (p q : plan) :
  one_plan_per_day ps -> In p ps -> In q ps -> plan_key p = plan_key q -> p = q.
Proof.
  unfold one_plan_per_day. induction ps as [| r ps IH]; [intros _ [] |].
  cbn [map]. intros Hnd Hp Hq Hk. inversion Hnd as [| k ks Hnotin Hnd' Heq]. subst.
  destruct Hp as [-> | Hp], Hq as [-> | Hq].
  - reflexivity.
  - exfalso. apply Hnotin. rewrite Hk. apply in_map. exact Hq.
  - exfalso. apply Hnotin. rewrite <- Hk. apply in_map. exact Hp.
  - apply IH; assumption.
Qed.

(** With one plan per user and day, every other plan of the user left
    behind by the upsert is strictly older than the document upserted, when
    none was dated later. *)
Lemma upsert_plan_older (doc : plan) (ps : list plan) (p : plan) :
  one_plan_per_day ps ->
  (forall q, In q ps -> p_userId q = p_userId doc ->
             String.leb (p_date q) (p_date doc) = true) ->
  In p (upsert_plan doc ps) -> p_userId p = p_userId doc -> p <> doc ->
  String.ltb (p_date p) (p_date doc) = true.
Proof.
  intros Hone Hdates Hin Hu Hne.
  pose proof (upsert_plan_unique doc ps Hone) as Hone'.
  pose proof (upsert_plan_stored doc ps) as Hdoc.
  assert (Hold : In p ps).
  { destruct (upsert_plan_split doc ps) as (before & after & Heq & _ & Hsub).
    rewrite Heq in Hin. apply in_app_or in Hin.
    destruct Hin as [Hin | [Hin | Hin]]; [apply Hsub; left; exact Hin | | apply Hsub; right; exact Hin].
    exfalso. apply Hne. symmetry. exact Hin. }
  pose proof (Hdates p Hold Hu) as Hle.
  unfold String.leb in Hle. unfold String.ltb.
  destruct (String.compare (p_date p) (p_date doc)) eqn:Hc; [| reflexivity | discriminate Hle].
  exfalso. apply Hne. apply String.compare_eq_iff in Hc.
  apply (one_plan_per_day_key (upsert_plan doc ps)); [exact Hone' | exact Hin | exact Hdoc |].
  unfold plan_key. rewrite Hu, Hc. reflexivity.
Qed.

(** X10. Round trip of the upsert and the lookup, on a collection with one
    plan per user and day: when no stored plan of the user is dated after
    today, the plan [generate_plan] returns is the one [find_one] with the
    latest date yields next, every other plan of the user being strictly
    older, and the last intensity read from it is the tier of its
    template. *)
Theorem generate_plan_then_latest (u : user) (bm : BehaviorModelLike) (clk : clock)
        (w : world) (doc : plan) :
  one_plan_per_day (plans (w_db w)) ->
  fst (generate_plan u bm clk w) = Returned doc ->
  (forall p, In p (plans (w_db w)) -> p_userId p = userId u ->
             String.leb (p_date p) (isoformat (today clk)) = true) ->
  let db' := w_db (snd (generate_plan u bm clk w)) in
  find_one_latest (plans db') (userId u) = Some doc
  /\ (forall p, In p (plans db') -> p_userId p = userId u -> p <> doc ->
                String.ltb (p_date p) (p_date doc) = true)
  /\ exists t : tier,
       p_items doc = template_of t
       /\ last_workout_intensity (find_one_latest (plans db') (userId u))
          = VStr (tier_name t).
Proof.
  intros Hone Hret Hdates db'. subst db'.
  destruct (generate_plan_cases u bm clk w) as [(e & Hr & _) | (items & Hd & Hr & ->)];
    [congruence |].
  cbn zeta in Hr. rewrite Hr in Hret. injection Hret as <-. cbn [plans].
  set (doc := plan_doc (userId u) items (isoformat (today clk)) "Proposed").
  assert (Hlatest : find_one_latest (upsert_plan doc (plans (w_db w))) (userId u) = Some doc)
    by (apply (upsert_plan_latest doc); exact Hdates).
  split; [exact Hlatest |].
  split; [intros p Hin Hu Hne; apply (upsert_plan_older doc (plans (w_db w))); assumption |].
  destruct (dict_get_base_template _ _ Hd) as [t Ht].
  exists t. split; [exact Ht |]. rewrite Hlatest. cbn [last_workout_intensity].
  change (p_items doc) with items. rewrite Ht. apply template_workout.
Qed.

End RoundTrip.

Section PlanOfTheModel.

Context {RT : Runtime}.

(** X11. With the behaviour model of this repository and a database whose
    integers fit 64 bits, [generate_plan] never raises: it stores and
    returns the template of the tier [next_best_intensity] returned, and
    the Moderate template when the last plan's intensity is a non-empty
    list or a non-empty embedded document, which makes
    [next_best_intensity] raise [TypeError]. *)
Theorem generate_plan_with_model (u : user) (clk : clock) (w : world) :
  bson_db (w_db w) = true ->
  exists t : tier,
    generate_plan u the_behavior_model clk w = planned u clk w (template_of t)
    /\ let last := last_workout_intensity (find_one_latest (plans (w_db w)) (userId u)) in
       if truthy last && negb (hashable last)
       then next_best_intensity (w_db w) clk (userId u) = Raised TypeError /\ t = Moderate
       else next_best_intensity (w_db w) clk (userId u) = Returned (tier_name t).
Proof.
  intros Hdb. destruct (next_best_intensity_step (w_db w) clk (userId u) Hdb) as [raw Hstep].
  pose proof (hysteresis_returns_tier raw
                (last_workout_intensity (find_one_latest (plans (w_db w)) (userId u)))) as Hh.
  rewrite <- Hstep in Hh.
  assert (Hfail : next_best_intensity (w_db w) clk (userId u) = Raised TypeError ->
                  generate_plan u the_behavior_model clk w
                  = planned u clk w (template_of Moderate)).
  { intros Hn. apply generate_plan_items with (v := VStr "Moderate"); [| reflexivity].
    unfold safe_intensity, the_behavior_model. cbn [bm_next_best_intensity].
    rewrite Hn. reflexivity. }
  assert (Hok : forall t, next_best_intensity (w_db w) clk (userId u) = Returned (tier_name t) ->
                          generate_plan u the_behavior_model clk w
                          = planned u clk w (template_of t)).
  { intros t Hn. apply generate_plan_items with (v := VStr (tier_name t)).
    - unfold safe_intensity, the_behavior_model. cbn [bm_next_best_intensity].
      rewrite Hn. cbn [bind]. unfold py_or. rewrite truthy_tier. reflexivity.
    - destruct t; reflexivity. }
  cbn zeta.
  destruct (truthy (last_workout_intensity (find_one_latest (plans (w_db w)) (userId u)))
            && negb (hashable (last_workout_intensity
                                 (find_one_latest (plans (w_db w)) (userId u))))).
  - exists Moderate. split; [apply Hfail; exact Hh | split; [exact Hh | reflexivity]].
  - destruct Hh as [t Ht]. exists t. split; [apply Hok; exact Ht | exact Ht].
Qed.

End PlanOfTheModel.

Section ConsecutivePlans.

Context {RT : Runtime}.

(** X20. Consecutive plans are at most one step apart, on a collection
    with one plan per user and day: after [generate_plan] has stored
    today's plan (no plan of the user being dated later), whatever the
    samples then say and whenever it is asked, [next_best_intensity]
    returns a tier within one ordinal step of the tier of that plan. *)
Theorem consecutive_plans_one_step (u : user) (bm : BehaviorModelLike) (clk clk' : clock)
        (w : world) (doc : plan) :
  one_plan_per_day (plans (w_db w)) ->
  bson_db (w_db w) = true ->
  fst (generate_plan u bm clk w) = Returned doc ->
  (forall p, In p (plans (w_db w)) -> p_userId p = userId u ->
             String.leb (p_date p) (isoformat (today clk)) = true) ->
  let db' := w_db (snd (generate_plan u bm clk w)) in
  exists t1 t2 : tier,
    p_items doc = template_of t1
    /\ next_best_intensity db' clk' (userId u) = Returned (tier_name t2)
    /\ Z.abs (ordinal t2 - ordinal t1) <= 1.
Proof.
  intros _ Hdb Hret Hdates db'. subst db'.
  destruct (generate_plan_cases u bm clk w) as [(e & Hr & _) | (items & Hd & Hr & ->)];
    [congruence |].
  cbn zeta in Hr. rewrite Hr in Hret. injection Hret as <-.
  set (doc := plan_doc (userId u) items (isoformat (today clk)) "Proposed").
  destruct (dict_get_base_template _ _ Hd) as [t1 Ht1].
  match goal with
  | |- context [next_best_intensity ?db _ _] =>
      destruct (next_best_intensity_step db clk' (userId u) Hdb) as [raw Hstep]
  end.
  cbn [plans] in Hstep.
  pose proof (upsert_plan_latest doc (plans (w_db w)) Hdates) as Hlatest.
  change (p_userId doc) with (userId u) in Hlatest. rewrite Hlatest in Hstep.
  cbn [last_workout_intensity] in Hstep. change (p_items doc) with items in Hstep.
  rewrite Ht1, template_workout in Hstep.
  destruct (hysteresis_one_step raw t1) as (t2 & Hh & Hdist).
  exists t1, t2. split; [exact Ht1 |]. split; [rewrite Hstep; exact Hh | exact Hdist].
Qed.

End ConsecutivePlans.

(** ** The order and the cut of the samples *)

Section SortDesc.

Context {A : Type} (geb : A -> A -> bool).
Hypothesis geb_total : forall a b, geb a b = false -> geb b a = true.
Hypothesis geb_trans : forall a b c, geb a b = true -> geb b c = true -> geb a c = true.

Lemma insert_desc_In (x y : A) (l : list A) :
  In y (insert_desc geb x l) <-> y = x \/ In y l.
Proof.
  induction l as [| z l IH]; cbn [insert_desc].
  - cbn. intuition.
  - destruct (geb x z); cbn [In]; [intuition | rewrite IH; intuition].
Qed.

Lemma sort_desc_In (y : A) (l : list A) : In y (sort_desc geb l) <-> In y l.
Proof.
  induction l as [| x l IH]; [reflexivity |].
  change (sort_desc geb (x :: l)) with (insert_desc geb x (sort_desc geb l)).
  rewrite insert_desc_In, IH. cbn. intuition.
Qed.

Lemma insert_desc_sorted (x : A) (l : list A) :
  StronglySorted (fun a b => geb a b = true) l ->
  StronglySorted (fun a b => geb a b = true) (insert_desc geb x l).
Proof.
  induction 1 as [| z l Hs IH Hz]; cbn [insert_desc].
  - repeat constructor.
  - destruct (geb x z) eqn:Hxz.
    + constructor; [constructor; assumption |].
      constructor; [exact Hxz |].
      rewrite Forall_forall in *. intros y Hy. apply geb_trans with (b := z); auto.
    + constructor; [exact IH |].
      rewrite Forall_forall in *. intros y Hy. apply insert_desc_In in Hy.
      destruct Hy as [-> | Hy]; [apply geb_total; exact Hxz | auto].
Qed.

Lemma sort_desc_sorted (l : list A) :
  StronglySorted (fun a b => geb a b = true) (sort_desc geb l).
Proof.
  induction l as [| x l IH]; [constructor |].
  change (sort_desc geb (x :: l)) with (insert_desc geb x (sort_desc geb l)).
  apply insert_desc_sorted. exact IH.
Qed.

End SortDesc.

Section Cut.

Context {A : Type} (R : A -> A -> Prop).

Lemma firstn_In (n : nat) (l : list A) (y : A) : In y (firstn n l) -> In y l.
Proof.
  revert l. induction n as [| n IH]; intros [| x l]; cbn [firstn]; try contradiction.
  intros [-> | Hy]; [left; reflexivity | right; apply IH; exact Hy].
Qed.

Lemma firstn_sorted (n : nat) (l : list A) :
  StronglySorted R l -> StronglySorted R (firstn n l).
Proof.
  intros Hs. revert n. induction Hs as [| x l Hs IH Hx]; intros [| n]; cbn [firstn];
    try constructor; [apply IH |].
  rewrite Forall_forall in *. intros y Hy. apply Hx. apply (firstn_In n). exact Hy.
Qed.

(** Whatever a cut of a sorted list leaves out is below everything it
    keeps, and then the cut is full. *)
Lemma firstn_sorted_rest (n : nat) (l : list A) (y : A) :
  StronglySorted R l -> In y l ->
  In y (firstn n l) \/ (List.length (firstn n l) = n /\ forall x, In x (firstn n l) -> R x y).
Proof.
  intros Hs. revert n. induction Hs as [| z l Hs IH Hz]; intros n Hy; [destruct Hy |].
  destruct n as [| n]; [right; split; [reflexivity | intros x []] |].
  cbn [firstn]. destruct Hy as [-> | Hy]; [left; left; reflexivity |].
  destruct (IH n Hy) as [Hin | [Hlen Hall]]; [left; right; exact Hin |].
  right. split; [cbn; rewrite Hlen; reflexivity |].
  intros x [<- | Hx]; [| apply Hall; exact Hx].
  rewrite Forall_forall in Hz. apply Hz. exact Hy.
Qed.

End Cut.

Lemma StronglySorted_impl {A : Type} (R R' : A -> A -> Prop) (l : list A) :
  (forall a b, R a b -> R' a b) -> StronglySorted R l -> StronglySorted R' l.
Proof.
  intros Himp. induction 1 as [| x l Hs IH Hx]; constructor; [exact IH |].
  eapply Forall_impl; [| exact Hx]. intros y. apply Himp.
Qed.

Section MostRecent.

Context {RT : Runtime}.

Lemma collect_values_length (cur : list sample) (vals out : list float) :
  collect_values cur vals = Returned out ->
  (List.length out <= List.length vals + List.length cur)%nat.
Proof.
  revert vals. induction cur as [| d cur IH]; intros vals; cbn [collect_values].
  - intros H. injection H as <-. cbn. lia.
  - destruct (try_except _ _ _) as [vals' | e] eqn:Ht; [| discriminate].
    cbn [bind]. intros H. apply IH in H.
    assert (Hl : (List.length vals' <= S (List.length vals))%nat).
    { unfold try_except in Ht.
      destruct (getitem_value d) as [v | e]; cbn [bind] in Ht.
      - destruct (py_float v) as [f | e]; cbn [bind] in Ht.
        + injection Ht as <-. rewrite length_app. cbn. lia.
        + destruct (existsb _ _); [injection Ht as <-; lia | discriminate].
      - destruct (existsb _ _); [injection Ht as <-; lia | discriminate]. }
    cbn [List.length]. lia.
Qed.

(** X12. For a natural number [limit], [_values] reads the most recent
    samples first.  Its cursor holds only samples of the user and the
    metric inside the window, in descending order of their time.  With
    [limit] 0, which MongoDB reads as no limit, it holds every such
    sample; with a positive [limit] it holds at most [limit] of them, and a
    sample of the window that is left out is no more recent than any
    sample kept, the cursor then being full.  [_values] returns no more
    values than the cursor has samples, and it raises [OverflowError] when
    the window would start outside the calendar. *)
Theorem _values_most_recent db clk u metric hours limit :
  let since := utcnow clk - hours * 3600000 in
  let wanted d := String.eqb (s_userId d) u && String.eqb (s_metricType d) metric
                  && (since <=? s_ts d) in
  let cur := find_samples db clk u metric hours limit in
  (forall d, In d cur -> In d (sensordata db) /\ wanted d = true)
  /\ StronglySorted (fun a b => s_ts b <= s_ts a) cur
  /\ (forall d, In d (sensordata db) -> wanted d = true ->
                In d cur
                \/ (limit <> 0%nat /\ List.length cur = limit
                    /\ forall x, In x cur -> s_ts d <= s_ts x))
  /\ (limit <> 0%nat -> (List.length cur <= limit)%nat)
  /\ (forall vals, _values db clk u metric hours limit = Returned vals ->
                   datetime_min <= since <= datetime_max
                   /\ (List.length vals <= List.length cur)%nat)
  /\ (~ datetime_min <= since <= datetime_max ->
      _values db clk u metric hours limit = Raised OverflowError).
Proof.
  intros since wanted cur.
  set (geb := fun a b : sample => s_ts b <=? s_ts a).
  assert (Htot : forall a b, geb a b = false -> geb b a = true)
    by (unfold geb; intros a b H; apply Z.leb_gt in H; apply Z.leb_le; lia).
  assert (Htr : forall a b c, geb a b = true -> geb b c = true -> geb a c = true)
    by (unfold geb; intros a b c H1 H2; apply Z.leb_le in H1, H2; apply Z.leb_le; lia).
  assert (Hsorted : StronglySorted (fun a b => s_ts b <= s_ts a)
                      (by_ts_desc (filter wanted (sensordata db)))).
  { apply StronglySorted_impl with (R := fun a b => geb a b = true).
    - intros a b Hab. apply Z.leb_le. exact Hab.
    - apply (sort_desc_sorted geb Htot Htr). }
  assert (Hcur : cur = cursor_limit limit (by_ts_desc (filter wanted (sensordata db))))
    by reflexivity.
  assert (Hall : forall d, In d (by_ts_desc (filter wanted (sensordata db))) <->
                           In d (sensordata db) /\ wanted d = true).
  { intros d. unfold by_ts_desc. fold geb. rewrite (sort_desc_In geb d _).
    apply filter_In. }
  split; [| split; [| split; [| split; [| split]]]].
  - intros d Hd. rewrite Hcur in Hd. apply Hall.
    destruct limit as [| n]; [exact Hd | apply firstn_In in Hd; exact Hd].
  - rewrite Hcur. destruct limit as [| n]; [exact Hsorted |].
    apply firstn_sorted. exact Hsorted.
  - intros d Hin Hw. rewrite Hcur.
    assert (Hd : In d (by_ts_desc (filter wanted (sensordata db)))) by (apply Hall; auto).
    destruct limit as [| n]; [left; exact Hd |].
    destruct (firstn_sorted_rest (fun a b : sample => s_ts b <= s_ts a) (S n) _ d Hsorted Hd)
      as [Hk | [Hlen Hrest]]; [left; exact Hk |].
    right. split; [discriminate |]. split; [exact Hlen | exact Hrest].
  - intros Hl. rewrite Hcur. destruct limit as [| n]; [congruence |].
    apply firstn_le_length.
  - intros vals Hv. unfold _values, datetime_minus_hours in Hv. fold since in Hv.
    unfold is_datetime in Hv.
    destruct (Z.leb_spec datetime_min since); [| discriminate Hv].
    destruct (Z.leb_spec since datetime_max); [| discriminate Hv].
    cbn [andb bind] in Hv. split; [lia |].
    apply collect_values_length in Hv. exact Hv.
  - intros Hout. unfold _values. rewrite datetime_minus_hours_raises by exact Hout.
    reflexivity.
Qed.

(** The 501 heart-rate samples of a fortnight: a limit of 0 reads them
    all, a limit of 500 leaves one out, and a window of as many hours as
    reach back before the year 1 makes [_values] raise. *)
Example find_samples_limit_zero :
  List.length (find_samples Example.db_many Example.clk "u1" "HR" 336 0) = 501%nat
  /\ List.length (find_samples Example.db_many Example.clk "u1" "HR" 336 500) = 500%nat
  /\ _values (RT := Example.runtime) Example.db_many Example.clk "u1" "HR" 17740000 500
     = Raised OverflowError.
Proof. repeat split; vm_compute; reflexivity. Qed.

End MostRecent.

(** ** The order of the floats *)

Section FloatOrder.

Ltac cmp_cases :=
  repeat match goal with
         | H : context [Z.compare ?a ?b] |- _ => destruct (Z.compare_spec a b); try subst
         | |- context [Z.compare ?a ?b] => destruct (Z.compare_spec a b); try subst
         | H : context [Pos.compare_cont Eq ?a ?b] |- _ =>
             change (Pos.compare_cont Eq a b) with (Pos.compare a b) in *;
             destruct (Pos.compare_spec a b); try subst
         | |- context [Pos.compare_cont Eq ?a ?b] =>
             change (Pos.compare_cont Eq a b) with (Pos.compare a b) in *;
             destruct (Pos.compare_spec a b); try subst
         end.

Ltac order_cases :=
  cbn in *; cmp_cases; cbn in *; try discriminate; try reflexivity;
  try (exfalso; lia).

Lemma SFleb_refl (x : spec_float) : x <> S754_nan -> SFleb x x = true.
Proof.
  intros Hn. unfold SFleb, SFcompare.
  destruct x as [s | s | | s m e]; [reflexivity | destruct s; reflexivity | congruence |].
  destruct s; rewrite Z.compare_refl, Pos.compare_cont_refl; reflexivity.
Qed.

Lemma SFleb_not_nan (x y : spec_float) :
  SFleb x y = true -> x <> S754_nan /\ y <> S754_nan.
Proof.
  unfold SFleb, SFcompare. destruct x, y; try discriminate; split; discriminate.
Qed.

Lemma SFltb_SFleb (x y : spec_float) : SFltb x y = true -> SFleb x y = true.
Proof.
  unfold SFltb, SFleb. destruct (SFcompare x y) as [[] |]; congruence.
Qed.

Lemma SFltb_leb_trans (x y z : spec_float) :
  SFltb x y = true -> SFleb y z = true -> SFltb x z = true.
Proof.
  unfold SFltb, SFleb, SFcompare.
  destruct x as [sx | sx | | sx mx ex], y as [sy | sy | | sy my ey],
    z as [sz | sz | | sz mz ez]; try discriminate;
    try destruct sx; try destruct sy; try destruct sz; try discriminate; try reflexivity;
    intros H1 H2; order_cases.
Qed.

Lemma SFleb_trans (x y z : spec_float) :
  SFleb x y = true -> SFleb y z = true -> SFleb x z = true.
Proof.
  unfold SFleb, SFcompare.
  destruct x as [sx | sx | | sx mx ex], y as [sy | sy | | sy my ey],
    z as [sz | sz | | sz mz ez]; try discriminate;
    try destruct sx; try destruct sy; try destruct sz; try discriminate; try reflexivity;
    intros H1 H2; order_cases.
Qed.

(** [a < b] is false exactly when [b <= a] or one of them is NaN. *)
Lemma SFltb_false (x y : spec_float) :
  SFltb x y = false -> x <> S754_nan -> y <> S754_nan -> SFleb y x = true.
Proof.
  unfold SFltb, SFleb, SFcompare.
  destruct x as [sx | sx | | sx mx ex], y as [sy | sy | | sy my ey];
    try destruct sx; try destruct sy; try discriminate; try reflexivity; try congruence;
    intros H1 _ _; order_cases.
Qed.


Local Open Scope float_scope.

Lemma leb_trans (a b c : float) :
  (a <=? b) = true -> (b <=? c) = true -> (a <=? c) = true.
Proof. rewrite !leb_spec. apply SFleb_trans. Qed.

Lemma ltb_leb_trans (a b c : float) :
  (a <? b) = true -> (b <=? c) = true -> (a <? c) = true.
Proof. rewrite !ltb_spec, leb_spec. apply SFltb_leb_trans. Qed.

Lemma leb_refl_of (a b : float) : (a <=? b) = true -> (a <=? a) = true /\ (b <=? b) = true.
Proof.
  rewrite !leb_spec. intros H. apply SFleb_not_nan in H. destruct H as [Ha Hb].
  split; apply SFleb_refl; assumption.
Qed.

Lemma is_nan_spec (x : float) : is_nan x = true <-> Prim2SF x = S754_nan.
Proof.
  unfold is_nan. rewrite negb_true_iff, eqb_spec. unfold SFeqb. split.
  - intros H. destruct (Prim2SF x) as [s | s | | s m e] eqn:Hx; [discriminate H | | reflexivity |].
    + destruct s; discriminate H.
    + cbn in H. rewrite Z.compare_refl, Pos.compare_cont_refl in H. destruct s; discriminate H.
  - intros ->. reflexivity.
Qed.

Lemma ltb_nan_l (x y : float) : is_nan x = true -> (x <? y) = false.
Proof. rewrite is_nan_spec, ltb_spec. intros ->. reflexivity. Qed.

End FloatOrder.

(** ** The clamp and the classifier on every float *)

Section ClampEdges.

Local Open Scope float_scope.

(** X13. [_clamp] with bounds [lo <= hi]: the result is between [lo] and
    [hi] for every float [x], NaN and the infinities included; an [x]
    strictly inside the bounds is returned unchanged; and NaN is sent to
    the upper bound. *)
Theorem _clamp_range (x lo hi : float) :
  (lo <=? hi) = true ->
  (lo <=? _clamp x lo hi) = true /\ (_clamp x lo hi <=? hi) = true
  /\ ((lo <? x) = true -> (x <? hi) = true -> _clamp x lo hi = x)
  /\ (is_nan x = true -> (lo <? hi) = true -> _clamp x lo hi = hi).
Proof.
  intros Hle. destruct (leb_refl_of lo hi Hle) as [Hlo Hhi].
  unfold _clamp, py_max, py_min.
  split; [| split; [| split]].
  - destruct (x <? hi) eqn:Hx.
    + destruct (lo <? x) eqn:Hl; [apply ltb_leb; exact Hl | exact Hlo].
    + destruct (lo <? hi) eqn:Hl; [exact Hle | exact Hlo].
  - destruct (x <? hi) eqn:Hx.
    + destruct (lo <? x) eqn:Hl; [apply ltb_leb; exact Hx | exact Hle].
    + destruct (lo <? hi) eqn:Hl; [exact Hhi | exact Hle].
  - intros Hl Hx. rewrite Hx, Hl. reflexivity.
  - intros Hn Hl. rewrite (ltb_nan_l x hi Hn), Hl. reflexivity.
Qed.

(** X14. The classifier is monotone: a readiness and an adherence that
    are both at least as high never give a lower tier. *)
Theorem base_thresholds_monotone (r1 r2 a1 a2 : float) :
  (r1 <=? r2) = true -> (a1 <=? a2) = true ->
  exists t1 t2 : tier,
    base_thresholds r1 a1 = tier_name t1
    /\ base_thresholds r2 a2 = tier_name t2
    /\ (ordinal t1 <= ordinal t2)%Z.
Proof.
  intros Hr Ha. unfold base_thresholds.
  destruct (0.8 <? r1) eqn:H1.
  - rewrite (ltb_leb_trans _ _ _ H1 Hr). cbn [andb].
    destruct (0.6 <=? a1) eqn:H2.
    + rewrite (leb_trans _ _ _ H2 Ha). exists High, High. repeat split. cbn; lia.
    + assert (H3 : (0.6 <=? r1) = true).
      { apply leb_trans with (b := 0.8); [reflexivity | apply ltb_leb; exact H1]. }
      rewrite H3, (leb_trans _ _ _ H3 Hr).
      destruct (0.6 <=? a2); [exists Moderate, High | exists Moderate, Moderate];
        repeat split; cbn; lia.
  - cbn [andb]. destruct (0.6 <=? r1) eqn:H3.
    + rewrite (leb_trans _ _ _ H3 Hr).
      destruct ((0.8 <? r2) && (0.6 <=? a2)); [exists Moderate, High | exists Moderate, Moderate];
        repeat split; cbn; lia.
    + destruct ((0.8 <? r2) && (0.6 <=? a2)); [exists Low, High; repeat split; cbn; lia |].
      destruct (0.6 <=? r2); [exists Low, Moderate | exists Low, Low]; repeat split; cbn; lia.
Qed.

End ClampEdges.

(** ** Not-a-number readings *)

Section NotANumber.

Local Open Scope float_scope.

Lemma add_nan_l (a b : float) : is_nan a = true -> is_nan (a + b) = true.
Proof. rewrite !is_nan_spec, add_spec. intros ->. reflexivity. Qed.

Lemma add_nan_r (a b : float) : is_nan b = true -> is_nan (a + b) = true.
Proof.
  rewrite !is_nan_spec, add_spec. intros ->.
  destruct (Prim2SF a) as [s | s | | s m e]; reflexivity.
Qed.

Lemma sub_nan_l (a b : float) : is_nan a = true -> is_nan (a - b) = true.
Proof. rewrite !is_nan_spec, sub_spec. intros ->. reflexivity. Qed.

Lemma sub_nan_r (a b : float) : is_nan b = true -> is_nan (a - b) = true.
Proof.
  rewrite !is_nan_spec, sub_spec. intros ->.
  destruct (Prim2SF a) as [s | s | | s m e]; reflexivity.
Qed.

Lemma div_nan_l (a b : float) : is_nan a = true -> is_nan (a / b) = true.
Proof. rewrite !is_nan_spec, div_spec. intros ->. reflexivity. Qed.

Lemma fold_add_nan (l : list float) (acc : float) :
  is_nan acc = true \/ existsb is_nan l = true ->
  is_nan (fold_left PrimFloat.add l acc) = true.
Proof.
  revert acc. induction l as [| x l IH]; intros acc [Hacc | Hl]; cbn [fold_left existsb] in *;
    try assumption; try discriminate.
  - apply IH. left. apply add_nan_l. exact Hacc.
  - apply orb_prop in Hl. destruct Hl as [Hx | Hl].
    + apply IH. left. apply add_nan_r. exact Hx.
    + apply IH. right. exact Hl.
Qed.

Lemma nan_not_finite (x : float) : is_nan x = true -> is_finite_float x = false.
Proof. rewrite is_nan_spec. unfold is_finite_float, exact. intros ->. reflexivity. Qed.

Lemma mean_nan (data : list float) :
  existsb is_nan data = true ->
  exists r, mean data = Returned r /\ is_nan r = true.
Proof.
  intros Hn. destruct data as [| x rest]; [discriminate Hn |].
  unfold mean. set (data := x :: rest) in *.
  assert (Hex : exists y, In y data /\ is_nan y = true) by (apply existsb_exists; exact Hn).
  destruct Hex as (y & Hy & Hyn).
  assert (Hfin : forallb is_finite_float data = false).
  { destruct (forallb is_finite_float data) eqn:Hf; [| reflexivity].
    rewrite forallb_forall in Hf. specialize (Hf y Hy).
    rewrite (nan_not_finite y Hyn) in Hf. discriminate Hf. }
  rewrite Hfin. eexists. split; [reflexivity |].
  apply div_nan_l, fold_add_nan. right.
  apply existsb_exists. exists y. split; [| exact Hyn].
  apply filter_In. split; [exact Hy |]. rewrite (nan_not_finite y Hyn). reflexivity.
Qed.

Lemma _clamp_default_nan (x : float) : is_nan x = true -> _clamp_default x = 1.0.
Proof.
  intros Hn. unfold _clamp_default, _clamp, py_max, py_min.
  rewrite (ltb_nan_l x 1.0 Hn). reflexivity.
Qed.

(** X15. A NaN reading is scored as the best one: the mean of data that
    contain a NaN is NaN, and a NaN average gives the sleep sub-score 1.0
    and, as baseline or as recent average, the heart-rate sub-score 1.0. *)
Theorem nan_reading_scores_best (data : list float) :
  existsb is_nan data = true ->
  exists r,
    mean data = Returned r /\ is_nan r = true
    /\ sleep_score_of r = 1.0
    /\ (forall b, hr_score_of b r = 1.0 /\ hr_score_of r b = 1.0).
Proof.
  intros Hn. destruct (mean_nan data Hn) as (r & Hm & Hr).
  exists r. split; [exact Hm |]. split; [exact Hr |]. split.
  - apply _clamp_default_nan, div_nan_l. exact Hr.
  - intros b. split; apply _clamp_default_nan, add_nan_r, div_nan_l;
      [apply sub_nan_r | apply sub_nan_l]; exact Hr.
Qed.

End NotANumber.

(** ** Rounding to nearest, subnormal range included *)

Section RoundWide.

Lemma shr_nonpos (mrs : shr_record) (e n : Z) : n <= 0 -> shr mrs e n = (mrs, e).
Proof. destruct n; [reflexivity | lia | reflexivity]. Qed.

Lemma fexp_eq (k : Z) : fexp prec emax k = Z.max (k - 53) (- 1074).
Proof. reflexivity. Qed.

Lemma valid_finite_intro (s : bool) (m : positive) (e : Z) :
  Z.max (Zpos (digits2_pos m) + e - 53) (- 1074) = e -> e <= 971 ->
  valid_binary (S754_finite s m e) = true.
Proof.
  intros Hc He. cbn [SpecFloat.valid_binary]. unfold bounded, canonical_mantissa.
  rewrite fexp_eq, Hc, Z.eqb_refl. apply Z.leb_le. exact He.
Qed.

(** Rounding of [M * 2 ^ E] to nearest, in the normal and the subnormal
    range: the mantissa is cut at the exponent [e1] of the format and the
    result is the quotient or its successor, times [2 ^ e1]. *)
Lemma binary_round_aux_wide (s : bool) (M : positive) (E : Z) :
  let d := Zpos (digits2_pos M) in
  let e1 := Z.max (d + E - 53) (- 1074) in
  E <= e1 -> e1 <= 970 ->
  exists R : Z,
    Zpos M / 2 ^ (e1 - E) <= R <= Zpos M / 2 ^ (e1 - E) + 1
    /\ valid_binary (binary_round_aux prec emax s (Zpos M) E loc_Exact) = true
    /\ exists q, Q_of_SF (binary_round_aux prec emax s (Zpos M) E loc_Exact) = Some q
                 /\ (q == Qval (cond_Zopp s R) e1)%Q.
Proof.
  intros d e1 Hn Hhi.
  unfold binary_round_aux, shr_fexp. cbn [Zdigits2]. fold d.
  rewrite fexp_eq. fold e1.
  destruct (shr_value (shr_record_of_loc (Zpos M) loc_Exact) E (e1 - E)) as [Hm1 He1];
    [cbn; lia | lia |].
  destruct (shr (shr_record_of_loc (Zpos M) loc_Exact) E (e1 - E)) as [mrs1 x1].
  cbn [fst snd shr_record_of_loc shr_m] in Hm1, He1.
  replace (E + (e1 - E)) with e1 in He1 by lia. subst x1.
  set (q0 := Zpos M / 2 ^ (e1 - E)) in *.
  pose proof (digits2_upper M) as Hu. pose proof (digits2_lower M) as Hl. fold d in Hu, Hl.
  assert (Hd : 0 < d) by (unfold d; lia).
  assert (Hp : 0 < 2 ^ (e1 - E)) by (apply Z.pow_pos_nonneg; lia).
  assert (Hq0 : 0 <= q0 < 2 ^ 53).
  { unfold q0. split; [apply Z.div_pos; lia |].
    apply Z.div_lt_upper_bound; [exact Hp |].
    apply Z.lt_le_trans with (m := 2 ^ d); [exact Hu |].
    rewrite <- Z.pow_add_r by lia. apply Z.pow_le_mono_r; lia. }
  assert (Hnormal : - 1074 < e1 -> 2 ^ 52 <= q0).
  { intros Hlt. assert (He : e1 - E = d - 53) by lia. unfold q0. rewrite He.
    assert (0 <= d - 53) by lia.
    apply Z.div_le_lower_bound; [apply Z.pow_pos_nonneg; lia |].
    assert (Hpow : 2 ^ d = 2 ^ (d - 53) * (2 * 2 ^ 52)).
    { change (2 * 2 ^ 52) with (2 ^ 53). rewrite <- Z.pow_add_r by lia. f_equal. lia. }
    nia. }
  assert (He1 : - 1074 <= e1) by (unfold e1; lia).
  pose proof (round_nearest_even_range (shr_m mrs1) (loc_of_shr_record mrs1)) as HR.
  remember (round_nearest_even (shr_m mrs1) (loc_of_shr_record mrs1)) as R eqn:HRr.
  rewrite Hm1 in HR. clear HRr Hm1 Hu Hl Hp. clearbody q0 e1 d.
  exists R. split; [exact HR |].
  destruct R as [| r | r]; [| | lia].
  - (* underflow to zero *)
    cbn [Zdigits2]. rewrite shr_nonpos by (rewrite fexp_eq; clear - He1; lia).
    cbn [shr_record_of_loc shr_m]. split; [reflexivity |].
    exists 0%Q. split; [reflexivity |]. destruct s; cbn [cond_Zopp]; unfold Qval; cbn; ring.
  - destruct (Z.eq_dec (Zpos r) (2 ^ 53)) as [Heq | Hne].
    + (* the successor carried into a 54th bit *)
      assert (Hr : r = (2 ^ 53)%positive) by lia. subst r. clear Hnormal.
      cbn [Zdigits2]. change (Zpos (digits2_pos (2 ^ 53))) with 54.
      rewrite fexp_eq. replace (Z.max (54 + e1 - 53) (- 1074) - e1) with 1 by (clear - He1; lia).
      cbn [shr shr_record_of_loc iter_pos shr_1 shr_m].
      replace (e1 + 1 <=? emax - prec) with true
        by (symmetry; apply Z.leb_le; change emax with 1024; change prec with 53; lia).
      split.
      * apply valid_finite_intro; [| lia].
        match goal with
        | |- context [digits2_pos ?x] => change (Zpos (digits2_pos x)) with 53
        end. lia.
      * eexists. split; [reflexivity |].
        change (Z.pos (2 ^ 53)) with (Zpos 4503599627370496 * 2 ^ 1).
        destruct s; cbn [cond_Zopp].
        -- rewrite <- Z.mul_opp_l. rewrite Qval_shift by lia. reflexivity.
        -- rewrite Qval_shift by lia. reflexivity.
    + assert (Hdr : Zpos (digits2_pos r) <= 53).
      { pose proof (digits2_lower r) as Hlr.
        assert (Hlt : 2 ^ Zpos (digits2_pos r) < 2 ^ 54).
        { change (2 ^ 54) with (2 * 2 ^ 53). lia. }
        apply Z.pow_lt_mono_r_iff in Hlt; lia. }
      assert (Hcanon : Z.max (Zpos (digits2_pos r) + e1 - 53) (- 1074) = e1).
      { destruct (Z.eq_dec e1 (- 1074)) as [-> | Hne1]; [lia |].
        assert (Hq52 : 2 ^ 52 <= q0) by (apply Hnormal; lia).
        pose proof (digits2_upper r) as Hur.
        assert (Hlt : 2 ^ 52 < 2 ^ Zpos (digits2_pos r)) by lia.
        apply Z.pow_lt_mono_r_iff in Hlt; lia. }
      clear Hnormal.
      cbn [Zdigits2]. rewrite shr_nonpos by (rewrite fexp_eq; lia).
      cbn [shr_record_of_loc shr_m].
      replace (e1 <=? emax - prec) with true
        by (symmetry; apply Z.leb_le; change emax with 1024; change prec with 53; lia).
      split; [apply valid_finite_intro; [exact Hcanon | lia] |].
      eexists. split; [reflexivity |]. reflexivity.
Qed.

End RoundWide.

(** ** The error of the conversion of a fraction *)

Section ConversionError.

Lemma shl_align_none (m : positive) (e e' : Z) : e <= e' -> shl_align m e e' = (m, e).
Proof. intros H. unfold shl_align. destruct (e' - e) eqn:Hd; try reflexivity. lia. Qed.

(** The integer facts behind [SF_of_Q] on a positive fraction [a / d]. *)
Lemma SF_of_Q_mantissa (a d : positive) :
  let k := Z.max 0 (56 + Zdigits2 (Zpos d) - Zdigits2 (Zpos a)) in
  let N := Zpos a * 2 ^ k in
  let m := 2 * (N / Zpos d) + (if N mod Zpos d =? 0 then 0 else 1) in
  2 ^ 56 <= m /\ Z.abs (m * Zpos d - 2 * N) <= Zpos d
  /\ SF_of_Q (Zpos a # d) = binary_normalize prec emax m (- k - 1) false.
Proof.
  intros k N m.
  pose proof (digits2_upper a) as Hau. pose proof (digits2_lower a) as Hal.
  pose proof (digits2_upper d) as Hdu. pose proof (digits2_lower d) as Hdl.
  cbn [Zdigits2] in k.
  set (da := Zpos (digits2_pos a)) in *. set (dd := Zpos (digits2_pos d)) in *.
  assert (Hda : 0 < da) by (unfold da; lia). assert (Hdd : 0 < dd) by (unfold dd; lia).
  assert (Hk : 0 <= k) by (unfold k; lia).
  assert (Hk2 : 56 + dd <= da + k) by (unfold k; lia).
  pose proof (Z.div_mod N (Zpos d) ltac:(lia)) as Hdm.
  pose proof (Z.mod_pos_bound N (Zpos d) ltac:(lia)) as Hr.
  assert (HN : 2 ^ 55 * Zpos d <= N).
  { unfold N.
    assert (H1 : 2 ^ (55 + dd) <= 2 ^ (da - 1 + k)) by (apply Z.pow_le_mono_r; lia).
    rewrite !Z.pow_add_r in H1 by lia.
    assert (H2 : 2 ^ da = 2 * 2 ^ (da - 1)).
    { rewrite <- Z.pow_succ_r by lia. f_equal. lia. }
    assert (H3 : 0 < 2 ^ k) by (apply Z.pow_pos_nonneg; lia).
    assert (H4 : 0 < 2 ^ (da - 1)) by (apply Z.pow_pos_nonneg; lia).
    clearbody k da dd. nia. }
  assert (Hquo : 2 ^ 55 <= N / Zpos d) by (apply Z.div_le_lower_bound; lia).
  split; [| split].
  - unfold m. destruct (N mod Zpos d =? 0); lia.
  - unfold m. destruct (Z.eqb_spec (N mod Zpos d) 0) as [H0 | H0]; clearbody N; lia.
  - unfold SF_of_Q. cbn [Qnum Qden Z.abs]. cbn [Zdigits2]. fold da dd k. fold N.
    unfold m, Z.div, Z.modulo. destruct (Z.div_eucl N (Zpos d)) as [quo r]. reflexivity.
Qed.


Lemma Qval_nonneg (m e : Z) : 0 <= m -> (0 <= Qval m e)%Q.
Proof.
  intros Hm. unfold Qval. apply Qmult_le_0_compat; [| apply Qlt_le_weak, Qpow2_pos].
  change 0%Q with (inject_Z 0). rewrite <- Zle_Qle. exact Hm.
Qed.

(** The cut of [M] at [n] bits, rounded to [R], is within [2 ^ n] of [M]. *)
Lemma cut_error (M R n : Z) :
  0 <= n -> M / 2 ^ n <= R <= M / 2 ^ n + 1 ->
  R * 2 ^ n - 2 ^ n <= M <= R * 2 ^ n + 2 ^ n.
Proof.
  intros Hn HR. assert (HP : 0 < 2 ^ n) by (apply Z.pow_pos_nonneg; lia).
  pose proof (Z.div_mod M (2 ^ n) ltac:(lia)) as Hdm.
  pose proof (Z.mod_pos_bound M (2 ^ n) HP) as Hrem.
  remember (M / 2 ^ n) as q0. remember (2 ^ n) as P. remember (M mod P) as rem.
  clear Heqq0 HeqP Heqrem. nia.
Qed.

(** [SF_of_Q] on a positive fraction: a valid float, zero or positive,
    within a relative error of [2 ^ -51] and an absolute error of
    [2 ^ -1074] of the fraction. *)
Lemma SF_of_Q_pos (a d : positive) :
  Zpos a <= 2 ^ 1022 * Zpos d ->
  exists v : Q,
    valid_binary (SF_of_Q (Zpos a # d)) = true
    /\ Q_of_SF (SF_of_Q (Zpos a # d)) = Some v
    /\ (0 <= v)%Q
    /\ ((Zpos a # d) * (1 - (1 # 2251799813685248)) - 2 ^ (-1074) <= v)%Q
    /\ (v <= (Zpos a # d) * (1 + (1 # 2251799813685248)) + 2 ^ (-1074))%Q.
Proof.
  intros Hbig.
  destruct (SF_of_Q_mantissa a d) as (Hm56 & Hdiff & ->).
  set (k := Z.max 0 (56 + Zdigits2 (Zpos d) - Zdigits2 (Zpos a))) in *.
  assert (Hk : 0 <= k) by (unfold k; lia). clearbody k.
  set (N := Zpos a * 2 ^ k) in *.
  remember (2 * (N / Zpos d) + (if N mod Zpos d =? 0 then 0 else 1)) as m eqn:Hm. clear Hm.
  destruct m as [| M | M]; [lia | | lia].
  cbn [binary_normalize]. unfold binary_round.
  pose proof (digits2_upper M) as Hu. pose proof (digits2_lower M) as Hl.
  set (E := - k - 1) in *.
  assert (HdM : 57 <= Zpos (digits2_pos M)).
  { assert (Hlt : 2 ^ 56 < 2 ^ Zpos (digits2_pos M)) by lia.
    apply Z.pow_lt_mono_r_iff in Hlt; lia. }
  assert (HdE : Zpos (digits2_pos M) + E <= 1023).
  { assert (Hp : 0 < 2 ^ k) by (apply Z.pow_pos_nonneg; lia).
    assert (HM : Zpos M < 2 ^ (1024 + k)).
    { rewrite Z.pow_add_r by lia. change (2 ^ 1024) with (4 * 2 ^ 1022).
      unfold N in Hdiff. remember (2 ^ 1022) as big. remember (2 ^ k) as pk.
      assert (Hbig1 : 1 <= big) by (subst big; lia).
      clear Heqbig Heqpk Hu Hl HdM Hm56. nia. }
    assert (Hlt : 2 ^ Zpos (digits2_pos M) < 2 ^ (1025 + k)).
    { replace (1025 + k) with (Z.succ (1024 + k)) by lia. rewrite Z.pow_succ_r by lia. lia. }
    apply Z.pow_lt_mono_r_iff in Hlt; lia. }
  rewrite shl_align_none by (rewrite fexp_eq; lia).
  pose proof (binary_round_aux_wide false M E) as HG. cbv zeta in HG.
  remember (Zpos (digits2_pos M)) as dM eqn:HdMdef.
  remember (Z.max (dM + E - 53) (- 1074)) as e1 eqn:He1.
  destruct HG as (R & HR & Hvalid & v & Hv & Hval); [lia | lia |].
  cbn [cond_Zopp] in Hval.
  exists v. split; [exact Hvalid |]. split; [exact Hv |].
  assert (Hn : 0 <= e1 - E) by lia.
  assert (HR0 : 0 <= R).
  { assert (0 <= Zpos M / 2 ^ (e1 - E)) by (apply Z.div_pos; [lia | apply Z.pow_pos_nonneg; lia]).
    lia. }
  split; [rewrite Hval; apply Qval_nonneg; exact HR0 |].
  pose proof (cut_error (Zpos M) R (e1 - E) Hn HR) as Hcut.
  assert (HP : 0 < 2 ^ (e1 - E)) by (apply Z.pow_pos_nonneg; lia).
  (* the three quantities, scaled by [2 ^ -E] *)
  pose proof (Qpow2_pos E) as Ht.
  assert (HvA : (v == inject_Z (R * 2 ^ (e1 - E)) * 2 ^ E)%Q).
  { rewrite Hval. replace e1 with (E + (e1 - E)) at 1 by lia.
    rewrite <- Qval_shift by lia. reflexivity. }
  assert (HD : (0 < inject_Z (Zpos d))%Q) by (change 0%Q with (inject_Z 0); rewrite <- Zlt_Qlt; lia).
  assert (HqB : (Zpos a # d == inject_Z (2 * N) / inject_Z (Zpos d) * 2 ^ E)%Q).
  { assert (Ha : (inject_Z (2 * N) * 2 ^ E == inject_Z (Zpos a))%Q).
    { unfold N, E. rewrite !inject_Z_mult, (Zpower_Qpower 2 k) by lia.
      replace (- k - 1) with (- k + - 1) by lia.
      rewrite Qpower_plus by discriminate. rewrite Qpower_opp.
      change (inject_Z 2) with 2%Q. change (2 ^ (-1))%Q with (1 # 2).
      field. apply Qnot_eq_sym, Qlt_not_eq, Qpow2_pos. }
    rewrite (Qmake_Qdiv (Zpos a) d). rewrite <- Ha. field.
    apply Qnot_eq_sym, Qlt_not_eq. exact HD. }
  assert (HB1 : (inject_Z (Zpos M) - 1 <= inject_Z (2 * N) / inject_Z (Zpos d))%Q).
  { apply Qle_shift_div_l; [exact HD |].
    unfold Qminus. change 1%Q with (inject_Z 1). rewrite <- inject_Z_opp, <- inject_Z_plus.
    rewrite <- inject_Z_mult, <- Zle_Qle. clearbody N. lia. }
  assert (HB2 : (inject_Z (2 * N) / inject_Z (Zpos d) <= inject_Z (Zpos M) + 1)%Q).
  { apply Qle_shift_div_r; [exact HD |].
    change 1%Q with (inject_Z 1). rewrite <- inject_Z_plus.
    rewrite <- inject_Z_mult, <- Zle_Qle. clearbody N. lia. }
  assert (HA1 : (inject_Z (R * 2 ^ (e1 - E)) - inject_Z (2 ^ (e1 - E)) <= inject_Z (Zpos M))%Q).
  { unfold Qminus. rewrite <- inject_Z_opp, <- inject_Z_plus, <- Zle_Qle. lia. }
  assert (HA2 : (inject_Z (Zpos M) <= inject_Z (R * 2 ^ (e1 - E)) + inject_Z (2 ^ (e1 - E)))%Q).
  { rewrite <- inject_Z_plus, <- Zle_Qle. lia. }
  assert (HM56 : (72057594037927936 <= inject_Z (Zpos M))%Q).
  { change 72057594037927936%Q with (inject_Z (2 ^ 56)). rewrite <- Zle_Qle. exact Hm56. }
  assert (HPq : (0 < inject_Z (2 ^ (e1 - E)))%Q)
    by (change 0%Q with (inject_Z 0); rewrite <- Zlt_Qlt; exact HP).
  rewrite HvA, HqB.
  remember (inject_Z (R * 2 ^ (e1 - E))) as A.
  remember (inject_Z (2 * N) / inject_Z (Zpos d))%Q as B.
  remember (inject_Z (Zpos M)) as Mq.
  remember (2 ^ E)%Q as t.
  destruct (Z.max_spec (dM + E - 53) (- 1074)) as [[Hlt Hmax] | [Hge Hmax]];
    rewrite <- He1 in Hmax.
  - (* subnormal: the cut is at [2 ^ -1074] *)
    assert (Htiny : (inject_Z (2 ^ (e1 - E)) * t == 2 ^ (-1074))%Q).
    { subst t. rewrite (Zpower_Qpower 2 (e1 - E)) by lia.
      rewrite <- Qpower_plus by discriminate. rewrite Hmax.
      replace (-1074 - E + E) with (-1074) by lia. reflexivity. }
    rewrite <- Htiny. remember (inject_Z (2 ^ (e1 - E))) as Pq.
    split.
    + setoid_replace (B * t * (1 - (1 # 2251799813685248)) - Pq * t)%Q
        with ((B * (1 - (1 # 2251799813685248)) - Pq) * t)%Q by ring.
      apply Qmult_le_compat_r; [lra | lra].
    + setoid_replace (B * t * (1 + (1 # 2251799813685248)) + Pq * t)%Q
        with ((B * (1 + (1 # 2251799813685248)) + Pq) * t)%Q by ring.
      apply Qmult_le_compat_r; [lra | lra].
  - (* normal: the cut keeps 53 bits *)
    assert (HP52 : (4503599627370496 * inject_Z (2 ^ (e1 - E)) <= Mq)%Q).
    { subst Mq. change 4503599627370496%Q with (inject_Z (2 ^ 52)).
      rewrite <- inject_Z_mult, <- Zle_Qle. rewrite <- Z.pow_add_r by lia.
      replace (52 + (e1 - E)) with (dM - 1) by lia.
      assert (H2 : 2 ^ dM = 2 * 2 ^ (dM - 1)).
      { rewrite <- Z.pow_succ_r by lia. f_equal. lia. }
      lia. }
    pose proof (Qpow2_pos (-1074)) as Hτ. remember (2 ^ (-1074))%Q as tiny.
    remember (inject_Z (2 ^ (e1 - E))) as Pq.
    split.
    + apply Qle_trans with (y := (B * t * (1 - (1 # 2251799813685248)))%Q); [lra |].
      setoid_replace (B * t * (1 - (1 # 2251799813685248)))%Q
        with ((B * (1 - (1 # 2251799813685248))) * t)%Q by ring.
      apply Qmult_le_compat_r; [lra | lra].
    + apply Qle_trans with (y := (B * t * (1 + (1 # 2251799813685248)))%Q); [| lra].
      setoid_replace (B * t * (1 + (1 # 2251799813685248)))%Q
        with ((B * (1 + (1 # 2251799813685248))) * t)%Q by ring.
      apply Qmult_le_compat_r; [lra | lra].
Qed.

End ConversionError.

(** ** The range of adherence *)

Section AdherenceRange.

Context {RT : Runtime}.

(** A rational strictly within a half of the integers [lo] and [hi] rounds
    to an integer from [lo] to [hi]. *)
Lemma round_half_even_between (x : Q) (lo hi : Z) :
  (inject_Z lo - (1 # 2) < x)%Q -> (x < inject_Z hi + (1 # 2))%Q ->
  lo <= round_half_even x <= hi.
Proof.
  intros Hlo Hhi. unfold round_half_even.
  pose proof (Qfloor_le x) as Hf1. pose proof (Qlt_floor x) as Hf2.
  remember (Qfloor x) as f eqn:Hf. clear Hf.
  rewrite inject_Z_plus in Hf2. change (inject_Z 1) with 1%Q in Hf2.
  assert (H1 : lo - 2 < f).
  { rewrite Zlt_Qlt. replace (lo - 2) with (lo + -2) by lia.
    rewrite inject_Z_plus. change (inject_Z (-2)) with (- (2))%Q. lra. }
  assert (H2 : f < hi + 1).
  { rewrite Zlt_Qlt, inject_Z_plus. change (inject_Z 1) with 1%Q. lra. }
  assert (Hlow : (x - inject_Z f <= 1 # 2)%Q -> lo - 1 < f).
  { intros Hfr. rewrite Zlt_Qlt. replace (lo - 1) with (lo + -1) by lia.
    rewrite inject_Z_plus. change (inject_Z (-1)) with (- (1))%Q. lra. }
  assert (Hup : (1 # 2 <= x - inject_Z f)%Q -> f < hi).
  { intros Hfr. rewrite Zlt_Qlt. lra. }
  destruct (Qcompare_spec (x - inject_Z f) (1 # 2)) as [Heq | Hlt | Hgt].
  - assert (lo - 1 < f) by (apply Hlow; lra). assert (f < hi) by (apply Hup; lra).
    destruct (Z.even f); lia.
  - assert (lo - 1 < f) by (apply Hlow; lra). lia.
  - assert (f < hi) by (apply Hup; lra). lia.
Qed.

Lemma hundredths_unit_table : forallb hundredth_in_unit (seq 0 101) = true.
Proof. vm_compute. reflexivity. Qed.

Lemma hundredth_unit (K : Z) :
  0 <= K <= 100 ->
  (0 <=? float_of_Q (K # 100))%float = true
  /\ (float_of_Q (K # 100) <=? 1.0)%float = true.
Proof.
  intros HK. pose proof hundredths_unit_table as Ht.
  rewrite forallb_forall in Ht. specialize (Ht (Z.to_nat K)).
  unfold hundredth_in_unit in Ht. rewrite Z2Nat.id in Ht by lia.
  apply andb_prop. apply Ht. apply in_seq. lia.
Qed.

Lemma Prim2SF_zero : Prim2SF 0 = S754_zero false.
Proof. reflexivity. Qed.

(** A zero of either sign is between 0.0 and 1.0. *)
Lemma zero_in_unit (x : float) (s : bool) :
  Prim2SF x = S754_zero s -> (0 <=? x)%float = true /\ (x <=? 1.0)%float = true.
Proof.
  intros Hx. rewrite !leb_spec, Hx, Prim2SF_zero, Prim2SF_one. split; reflexivity.
Qed.

Lemma tiny_small : (2 ^ (-1074) <= 1 # 1024)%Q.
Proof.
  change (1 # 1024)%Q with (2 ^ (-10))%Q. apply Qpower_le_compat_l; [lia | discriminate].
Qed.

(** Rounding a ratio [c / n] of the unit interval to two decimals gives a
    float between 0.0 and 1.0. *)
Lemma round2_ratio_range (c : Z) (n : positive) :
  0 <= c <= Zpos n ->
  (0 <=? round2 (float_of_Q (c # n)))%float = true
  /\ (round2 (float_of_Q (c # n)) <=? 1.0)%float = true.
Proof.
  intros Hc. destruct c as [| a | a]; [| | lia].
  - assert (Hz : float_of_Q (0 # n) = 0%float) by reflexivity.
    rewrite Hz. split; reflexivity.
  - destruct (SF_of_Q_pos a n) as (v & Hvalid & Hv & Hv0 & _ & Hvhi).
    { assert (1 <= 2 ^ 1022) by (apply Z.lt_pred_le, Z.pow_pos_nonneg; lia). nia. }
    assert (Hx : Prim2SF (float_of_Q (Zpos a # n)) = SF_of_Q (Zpos a # n))
      by (apply Prim2SF_SF2Prim; exact Hvalid).
    assert (Hq1 : (Zpos a # n <= 1)%Q) by (unfold Qle; cbn; lia).
    pose proof tiny_small as Htiny. pose proof (Qpow2_pos (-1074)) as Htpos.
    remember (2 ^ (-1074))%Q as tiny.
    unfold round2. rewrite Hx.
    destruct (SF_of_Q (Zpos a # n)) as [s | s | | s m e] eqn:Hsf; try discriminate Hv.
    + exact (zero_in_unit _ s Hx).
    + cbn [Q_of_SF] in Hv. injection Hv as Hv. subst v.
      assert (Hs : s = false).
      { destruct s; [| reflexivity]. exfalso.
        change (cond_Zopp true (Zpos m)) with (Z.neg m) in Hv0.
        assert (Hneg : (Qval (Z.neg m) e < 0)%Q).
        { unfold Qval. setoid_replace 0%Q with (0 * 2 ^ e)%Q by ring.
          apply Qmult_lt_compat_r; [apply Qpow2_pos | reflexivity]. }
        lra. }
      subst s. cbn [cond_Zopp] in Hvhi, Hv0. cbv zeta.
      apply hundredth_unit. apply round_half_even_between.
      * change (inject_Z 0) with 0%Q. lra.
      * change (inject_Z 100) with 100%Q. lra.
Qed.

(** X16. For every database, user and window, however many plans the
    window holds: when the window starts on a day of the calendar,
    [adherence_score] returns a float between 0.0 and 1.0, and when it
    does not, [adherence_score] raises [OverflowError]. *)
Theorem adherence_score_range db clk u days :
  (window_in_calendar clk days ->
   exists a, adherence_score db clk u days = Returned a
             /\ (0 <=? a)%float = true /\ (a <=? 1.0)%float = true)
  /\ (~ window_in_calendar clk days ->
      adherence_score db clk u days = Raised OverflowError).
Proof.
  rewrite adherence_score_eq. split; intros Hw.
  - rewrite _recent_plans_eq by exact Hw. cbn [bind]. eexists. split; [reflexivity |].
    destruct (find_plans db u (isoformat (today clk - days))) as [| p ps];
      [split; reflexivity |].
    apply round2_ratio_range.
    pose proof (count_completed_range (p :: ps)) as Hc. cbn [List.length] in Hc. lia.
  - rewrite _recent_plans_raises by exact Hw. reflexivity.
Qed.

Lemma float_of_Q_whole (p : positive) : float_of_Q (Zpos p # p) = 1%float.
Proof.
  unfold float_of_Q. destruct (SF_of_Q_mantissa p p) as (_ & _ & ->).
  replace (Z.max 0 (56 + Zdigits2 (Zpos p) - Zdigits2 (Zpos p))) with 56 by lia.
  rewrite (Z.mul_comm (Zpos p)), Z.div_mul, Z.mod_mul by lia. reflexivity.
Qed.

(** X17. The two ends of adherence: a window with plans none of which is
    Completed gives exactly 0.0, and a window in which every plan is
    Completed gives exactly 1.0. *)
Theorem adherence_score_extremes db clk u days (window : list plan) :
  _recent_plans db clk u days = Returned window ->
  window <> [] ->
  (count_completed window = 0 ->
   adherence_score db clk u days = Returned 0%float)
  /\ (count_completed window = Z.of_nat (List.length window) ->
      adherence_score db clk u days = Returned 1%float).
Proof.
  intros Hret Hne. rewrite adherence_score_eq, Hret. cbn [bind].
  destruct window as [| p ps]; [congruence |].
  split; intros Hc; rewrite Hc.
  - reflexivity.
  - replace (Z.of_nat (List.length (p :: ps))) with (Zpos (Pos.of_succ_nat (List.length ps)))
      by (cbn [List.length]; lia).
    rewrite float_of_Q_whole. reflexivity.
Qed.

End AdherenceRange.

(** ** The average behind a nudge *)

Section NudgeAverage.

Context {RT : Runtime}.

Lemma step_values_ints (cur : list sample) :
  forallb int_or_absent cur = true -> step_values cur = Returned (int_readings cur).
Proof.
  induction cur as [| d cur IH]; [reflexivity |].
  cbn [forallb step_values int_readings]. intros H. apply andb_prop in H.
  destruct H as [Hd Hcur]. unfold int_or_absent in Hd.
  destruct (s_value d) as [[| b | z | f | str | l | kv] |]; try discriminate Hd.
  - cbn [py_int bind]. rewrite (IH Hcur). reflexivity.
  - exact (IH Hcur).
Qed.

Lemma int_readings_length (cur : list sample) :
  (List.length (int_readings cur) <= List.length cur)%nat.
Proof.
  induction cur as [| d cur IH]; [cbn; lia |].
  cbn [int_readings List.length]. destruct (s_value d) as [[| b | z | f | str | l | kv] |]; cbn; lia.
Qed.

Lemma int_readings_In (cur : list sample) (z : Z) :
  In z (int_readings cur) -> exists d, In d cur /\ s_value d = Some (VInt z).
Proof.
  induction cur as [| d cur IH]; [intros [] |].
  cbn [int_readings]. destruct (s_value d) as [[| b | z' | f | str | l | kv] |] eqn:Hd;
    try (intros H; destruct (IH H) as (d' & Hin & Hv); exists d'; split; [right |]; assumption).
  intros [<- | H].
  - exists d. split; [left; reflexivity | exact Hd].
  - destruct (IH H) as (d' & Hin & Hv). exists d'. split; [right |]; assumption.
Qed.

Lemma sum_between (zs : list Z) (lo hi acc : Z) :
  (forall z, In z zs -> lo <= z <= hi) ->
  acc + lo * Z.of_nat (List.length zs) <= fold_left Z.add zs acc
  <= acc + hi * Z.of_nat (List.length zs).
Proof.
  revert acc. induction zs as [| z zs IH]; intros acc Hall; [cbn; lia |].
  cbn [fold_left List.length]. rewrite Nat2Z.inj_succ.
  specialize (IH (acc + z) (fun y Hy => Hall y (or_intror Hy))).
  pose proof (Hall z (or_introl eq_refl)). lia.
Qed.


(** [int(x)] on a float that is zero or positive: the floor of its exact
    value. *)
Lemma py_int_of_float_floor (x : float) (v : Q) :
  exact x = Some v -> (0 <= v)%Q -> py_int_of_float x = Returned (Qfloor v).
Proof.
  unfold exact, py_int_of_float. intros Hv H0.
  destruct (Prim2SF x) as [s | s | | s m e]; try discriminate Hv;
    rewrite Hv; apply Qle_bool_iff in H0; rewrite H0; reflexivity.
Qed.

(** The truncated mean of up to six step counts lies between the smallest
    and the largest of them. *)
Lemma int_of_mean_between (zs : list Z) (lo hi : Z) :
  zs <> [] -> (List.length zs <= 6)%nat ->
  0 <= lo -> hi <= 2 ^ 40 ->
  (forall z, In z zs -> lo <= z <= hi) ->
  exists avg, int_of_mean_of_ints zs = Returned avg /\ lo <= avg <= hi.
Proof.
  intros Hne Hlen Hlo Hhi Hall.
  pose proof (sum_between zs lo hi 0 Hall) as Hsum.
  destruct zs as [| z0 rest]; [congruence |].
  unfold int_of_mean_of_ints.
  remember (fold_left Z.add (z0 :: rest) 0) as S eqn:HS. clear HS.
  remember (Pos.of_succ_nat (List.length rest)) as n eqn:Hn.
  assert (HnZ : Z.of_nat (List.length (z0 :: rest)) = Zpos n)
    by (subst n; cbn [List.length]; lia).
  assert (Hn6 : Zpos n <= 6) by (rewrite <- HnZ; lia).
  rewrite HnZ in *. clear HnZ Hn Hlen Hall Hne.
  assert (Hq : (Qred (inject_Z S / inject_Z (Zpos n)) == S # n)%Q)
    by (rewrite Qred_correct; symmetry; apply Qmake_Qdiv).
  pose proof (gcd_Qred (inject_Z S / inject_Z (Zpos n))) as Hgcd.
  destruct (Qred (inject_Z S / inject_Z (Zpos n))) as [num den].
  cbn [Qnum Qden] in *. unfold Qeq in Hq. cbn [Qnum Qden] in Hq.
  destruct (Pos.eqb_spec den 1) as [-> | Hden].
  - exists num. split; [reflexivity |]. nia.
  - (* the mean is not whole: it stays a sixth away from the integers *)
    assert (Hstrict : lo * Zpos den < num).
    { assert (Hle : lo * Zpos den <= num) by nia.
      destruct (Z.eq_dec num (lo * Zpos den)) as [Heq | Hneq]; [| lia].
      exfalso. rewrite Heq, Z.mul_comm, Z.gcd_comm, Z.gcd_mul_diag_l in Hgcd by lia.
      apply Hden. lia. }
    assert (Hstrict2 : lo * Zpos n < S) by nia.
    destruct num as [| a | a]; [lia | | lia].
    assert (Ha40 : Zpos a <= 2 ^ 40 * Zpos den) by nia.
    assert (Hret : py_float_of_Q (Zpos a # den) = Returned (float_of_Q (Zpos a # den))).
    { apply py_float_of_Q_returns. rewrite Qabs_pos by (unfold Qle; cbn; lia).
      apply Qle_lt_trans with (y := inject_Z (2 ^ 40)); [| reflexivity].
      unfold Qle. cbn [Qnum Qden inject_Z]. lia. }
    rewrite Hret. cbn [bind].
    destruct (SF_of_Q_pos a den) as (v & Hvalid & Hv & Hv0 & Hvlo & Hvhi).
    { assert (2 ^ 40 <= 2 ^ 1022) by (apply Z.pow_le_mono_r; lia). nia. }
    assert (Hx : exact (float_of_Q (Zpos a # den)) = Some v).
    { unfold exact, float_of_Q. rewrite Prim2SF_SF2Prim by exact Hvalid. exact Hv. }
    rewrite (py_int_of_float_floor _ v Hx Hv0).
    exists (Qfloor v). split; [reflexivity |].
    pose proof tiny_small as Htiny. remember (2 ^ (-1074))%Q as tiny.
    assert (Hqlo : (inject_Z lo + (1 # 6) <= Zpos a # den)%Q).
    { apply Qle_trans with (y := (S # n)%Q).
      - unfold Qle, Qplus. cbn [Qnum Qden inject_Z]. nia.
      - unfold Qle. cbn [Qnum Qden]. lia. }
    assert (Hqhi : (Zpos a # den <= inject_Z hi)%Q).
    { unfold Qle. cbn [Qnum Qden inject_Z]. nia. }
    assert (Hhi40 : (inject_Z hi <= 1099511627776)%Q).
    { change 1099511627776%Q with (inject_Z (2 ^ 40)). rewrite <- Zle_Qle. exact Hhi. }
    assert (Hlo0 : (0 <= inject_Z lo)%Q)
      by (change 0%Q with (inject_Z 0); rewrite <- Zle_Qle; exact Hlo).
    split.
    + rewrite <- (Qfloor_Z lo). apply Qfloor_resp_le. lra.
    + apply Z.lt_succ_r. unfold Z.succ. rewrite Zlt_Qlt.
      apply Qle_lt_trans with (y := v); [apply Qfloor_le |].
      rewrite inject_Z_plus. change (inject_Z 1) with 1%Q. lra.
Qed.

End NudgeAverage.

Section NudgeThresholds.

Context {RT : Runtime}.

Lemma find_steps_length db user_id : (List.length (find_steps db user_id) <= 6)%nat.
Proof. unfold find_steps. apply firstn_le_length. Qed.

(** X18. When each of the six most recent Steps samples holds an integer
    or no value, and the integers lie between [lo] and [hi] (step counts,
    from 0 to 2^40), [generate_nudges] returns: the average it uses lies
    between [lo] and [hi] too, one recommendation with context nudge is
    appended, and the message is the quick win below 300, the great start
    from 300 to 1999, and the nice pace from 2000. *)
Theorem generate_nudges_between (user_id : string) (bm : BehaviorModelLike) (w : world)
        (lo hi : Z) :
  let cursor := find_steps (w_db w) user_id in
  forallb int_or_absent cursor = true ->
  int_readings cursor <> [] ->
  0 <= lo -> hi <= 2 ^ 40 ->
  (forall z, In z (int_readings cursor) -> lo <= z <= hi) ->
  exists avg,
    lo <= avg <= hi
    /\ generate_nudges user_id bm w =
       (Returned (recommendation_doc user_id (nudge_message avg) "nudge"),
        add_recommendation (recommendation_doc user_id (nudge_message avg) "nudge")
                           (log (CallInsertOne user_id) w))
    /\ (hi < 300 -> nudge_message avg
                    = "Quick win: 10-minute brisk walk to boost your step count.")
    /\ (300 <= lo -> hi < 2000 ->
        nudge_message avg = "Great start! Add another short walk to hit your daily goal.")
    /\ (2000 <= lo -> nudge_message avg
                      = "Nice pace! Add a 5-minute stretch break to stay loose.").
Proof.
  intros cursor Hints Hne Hlo Hhi Hall.
  destruct (int_of_mean_between (int_readings cursor) lo hi) as (avg & Havg & Hrange);
    try assumption.
  { pose proof (int_readings_length cursor). pose proof (find_steps_length (w_db w) user_id).
    fold cursor in H0. lia. }
  exists avg. split; [exact Hrange |]. split.
  - unfold generate_nudges. fold cursor. rewrite (step_values_ints cursor Hints). cbn [bind].
    destruct (int_readings cursor) as [| z zs]; [congruence |]. rewrite Havg. reflexivity.
  - unfold nudge_message. repeat split.
    + intros H. replace (avg <? 300) with true by (symmetry; apply Z.ltb_lt; lia). reflexivity.
    + intros H1 H2. replace (avg <? 300) with false by (symmetry; apply Z.ltb_ge; lia).
      replace (avg <? 2000) with true by (symmetry; apply Z.ltb_lt; lia). reflexivity.
    + intros H. replace (avg <? 300) with false by (symmetry; apply Z.ltb_ge; lia).
      replace (avg <? 2000) with false by (symmetry; apply Z.ltb_ge; lia). reflexivity.
Qed.

(** X19. With no step count to average (no Steps sample of the user, or
    none among the six most recent that has a value) the average is 0:
    [generate_nudges] returns the quick-win message and appends it as one
    recommendation. *)
Theorem generate_nudges_no_reading (user_id : string) (bm : BehaviorModelLike) (w : world) :
  forallb without_value (find_steps (w_db w) user_id) = true ->
  generate_nudges user_id bm w =
  (Returned (recommendation_doc user_id (nudge_message 0) "nudge"),
   add_recommendation (recommendation_doc user_id (nudge_message 0) "nudge")
                      (log (CallInsertOne user_id) w))
  /\ nudge_message 0 = "Quick win: 10-minute brisk walk to boost your step count.".
Proof.
  intros Hnone. split; [| reflexivity]. unfold generate_nudges.
  assert (Hs : step_values (find_steps (w_db w) user_id) = Returned []).
  { induction (find_steps (w_db w) user_id) as [| d cur IH]; [reflexivity |].
    cbn [forallb] in Hnone. apply andb_prop in Hnone. destruct Hnone as [Hd Hcur].
    unfold without_value in Hd.
    cbn [step_values]. destruct (s_value d); [discriminate Hd | exact (IH Hcur)]. }
  rewrite Hs. reflexivity.
Qed.

End NudgeThresholds.

(** ** The properties above on concrete data *)

(** The five plans of user u1 beside the documents of a second user. *)
Lemma own_documents_only_witness :
  documents_of "u1" Scenario.db_shared = documents_of "u1" Example.db_plans
  /\ next_best_intensity (RT := Example.runtime) Scenario.db_shared Example.clk "u1"
     = next_best_intensity (RT := Example.runtime) Example.db_plans Example.clk "u1".
Proof.
  split; [reflexivity |].
  destruct (own_documents_only (RT := Example.runtime) Scenario.db_shared Example.db_plans
              Example.clk Example.a_user 7 eq_refl) as (_ & _ & H & _).
  exact H.
Defined.

(** A user the database has never seen. *)
Lemma new_user_gets_moderate_witness :
  documents_of "u9" Example.db_plans = ([], [])
  /\ next_best_intensity (RT := Example.runtime) Example.db_plans Example.clk "u9"
     = Returned "Moderate".
Proof.
  split; [reflexivity |].
  destruct (new_user_gets_moderate (RT := Example.runtime) Example.db_plans Example.clk
              {| userId := "u9" |} [] eq_refl) as (_ & _ & H & _).
  exact H.
Defined.

(** A last intensity that names no tier, one that is a list, one that is
    an embedded document, and an empty list. *)
Lemma hysteresis_unrecognised_witness :
  hysteresis "High" (VStr "Extreme") = Returned "High"
  /\ hysteresis "Low" (VList [VStr "High"]) = Raised TypeError
  /\ hysteresis "Low" (VDict [("level", VStr "High")]) = Raised TypeError
  /\ hysteresis "Low" (VList []) = Returned "Low".
Proof.
  split; [| split; [| split]].
  - apply (hysteresis_unrecognised High (VStr "Extreme")). intros [] H; discriminate H.
  - apply (hysteresis_unrecognised Low (VList [VStr "High"])). intros [] H; discriminate H.
  - apply (hysteresis_unrecognised Low (VDict [("level", VStr "High")])).
    intros [] H; discriminate H.
  - apply (hysteresis_unrecognised Low (VList [])). intros [] H; discriminate H.
Defined.

(** The last plan carries a list as the intensity of its Workout; and a
    last plan whose Workout is Moderate. *)
Lemma next_best_intensity_outcomes_witness :
  bson_db Scenario.db_broken = true
  /\ next_best_intensity (RT := Example.runtime) Scenario.db_broken Example.clk "u1"
     = Raised TypeError
  /\ bson_db Scenario.db_ready = true
  /\ exists t : tier,
       next_best_intensity (RT := Example.runtime) Scenario.db_ready Example.clk "u1"
       = Returned (tier_name t).
Proof.
  split; [reflexivity |]. split; [| split; [reflexivity |]].
  - exact (next_best_intensity_outcomes (RT := Example.runtime) Scenario.db_broken
             Example.clk "u1" eq_refl).
  - exact (next_best_intensity_outcomes (RT := Example.runtime) Scenario.db_ready
             Example.clk "u1" eq_refl).
Defined.

(** High readiness and full adherence after a Moderate workout. *)
Lemma scores_behind_the_tier_witness :
  next_best_intensity (RT := Example.runtime) Scenario.db_ready Example.clk "u1"
  = Returned "High"
  /\ exists r a,
       readiness_score (RT := Example.runtime) Scenario.db_ready Example.clk "u1" = Returned r
       /\ adherence_score (RT := Example.runtime) Scenario.db_ready Example.clk "u1" 7
          = Returned a
       /\ (0.8 <? r)%float = true /\ (0.6 <=? a)%float = true.
Proof.
  assert (H : next_best_intensity (RT := Example.runtime) Scenario.db_ready Example.clk "u1"
              = Returned "High") by (vm_compute; reflexivity).
  split; [exact H |].
  destruct (scores_behind_the_tier (RT := Example.runtime) Scenario.db_ready Example.clk
              "u1" "High" H) as (r & a & Hr & Ha & Hhigh & _).
  exists r, a. split; [exact Hr |]. split; [exact Ha |]. exact (Hhigh eq_refl).
Defined.

(** A Habit, then a Workout without intensity, then a High Workout. *)
Lemma first_workout_decides_witness :
  first_workout_intensity
    ([plan_item "Habit" "Low" 5 "water"]
       ++ {| it_type := VStr "Workout"; it_intensity := VNone;
             it_duration := 20; it_description := "walk" |}
       :: [plan_item "Workout" "High" 45 "intervals"])
  = VNone.
Proof.
  apply (first_workout_decides
           [plan_item "Habit" "Low" 5 "water"]
           [plan_item "Workout" "High" 45 "intervals"]
           {| it_type := VStr "Workout"; it_intensity := VNone;
              it_duration := 20; it_description := "walk" |});
    reflexivity.
Defined.

(** The example database holds one plan per day. *)
Lemma db_plans_one_per_day : one_plan_per_day (plans Example.db_plans).
Proof.
  unfold one_plan_per_day. cbn.
  repeat (constructor; [cbn; intros Hin; repeat destruct Hin as [Hin | Hin];
                        try discriminate Hin; exact Hin |]).
  constructor.
Qed.

(** The five plans of the example, one per day. *)
Lemma generate_plan_one_per_day_witness :
  one_plan_per_day (plans Example.db_plans)
  /\ one_plan_per_day
       (plans (w_db (snd (generate_plan (RT := Example.runtime) Example.a_user
                            (Example.model_returning (VStr "High")) Example.clk
                            (Example.a_world Example.db_plans))))).
Proof.
  assert (H : one_plan_per_day (plans Example.db_plans)).
  { unfold one_plan_per_day. cbn.
    repeat (constructor; [cbn; intros Hin; repeat destruct Hin as [Hin | Hin];
                          try discriminate Hin; exact Hin |]).
    constructor. }
  split; [exact H |].
  apply (generate_plan_one_per_day (RT := Example.runtime)). exact H.
Defined.

(** A behaviour model that answers High both times. *)
Lemma generate_plan_again_witness :
  let w1 := snd (generate_plan (RT := Example.runtime) Example.a_user
                   (Example.model_returning (VStr "High")) Example.clk
                   (Example.a_world Example.db_plans)) in
  fst (generate_plan (RT := Example.runtime) Example.a_user
         (Example.model_returning (VStr "High")) Example.clk w1)
  = fst (generate_plan (RT := Example.runtime) Example.a_user
           (Example.model_returning (VStr "High")) Example.clk
           (Example.a_world Example.db_plans))
  /\ List.length (plans (w_db w1)) = 6%nat.
Proof.
  split; [| reflexivity].
  destruct (generate_plan_again (RT := Example.runtime) Example.a_user
              (Example.model_returning (VStr "High")) Example.clk
              (Example.a_world Example.db_plans) eq_refl) as [H _].
  exact H.
Defined.

(** The five plans of the example, one per day, none dated after the
    clock's day, 2024-04-10. *)
Lemma generate_plan_then_latest_witness :
  let w' := snd (generate_plan (RT := Example.runtime) Example.a_user
                   (Example.model_returning (VStr "High")) Example.clk
                   (Example.a_world Example.db_plans)) in
  one_plan_per_day (plans Example.db_plans)
  /\ find_one_latest (plans (w_db w')) "u1"
     = Some (plan_doc "u1" (template_of High) "2024-04-10" "Proposed")
  /\ last_workout_intensity (find_one_latest (plans (w_db w')) "u1") = VStr "High".
Proof.
  split; [exact db_plans_one_per_day |].
  destruct (generate_plan_then_latest (RT := Example.runtime) Example.a_user
              (Example.model_returning (VStr "High")) Example.clk
              (Example.a_world Example.db_plans)
              (plan_doc "u1" (template_of High) "2024-04-10" "Proposed")
              db_plans_one_per_day eq_refl)
    as [Hlatest _].
  - intros p Hin _. cbn in Hin.
    repeat destruct Hin as [Hin | Hin]; try (rewrite <- Hin; reflexivity). destruct Hin.
  - split; [exact Hlatest | reflexivity].
Defined.

(** The repository's behaviour model on a last plan with a list as
    intensity: the plan of the day is the Moderate one. *)
Lemma generate_plan_with_model_witness :
  bson_db Scenario.db_broken = true
  /\ exists t : tier,
       generate_plan (RT := Example.runtime) Example.a_user
         (the_behavior_model (RT := Example.runtime)) Example.clk
         (Example.a_world Scenario.db_broken)
       = planned (RT := Example.runtime) Example.a_user Example.clk
           (Example.a_world Scenario.db_broken) (template_of t)
       /\ t = Moderate.
Proof.
  split; [reflexivity |].
  destruct (generate_plan_with_model (RT := Example.runtime) Example.a_user Example.clk
              (Example.a_world Scenario.db_broken) eq_refl) as (t & Hplan & Hmatch).
  exists t. split; [exact Hplan |]. exact (proj2 Hmatch).
Defined.

(** The default bounds on an inner point and on NaN. *)
Lemma _clamp_range_witness :
  (0.1 <=? 1.0)%float = true
  /\ _clamp 0.5 0.1 1.0 = 0.5%float /\ _clamp nan 0.1 1.0 = 1.0%float.
Proof.
  split; [reflexivity |].
  destruct (_clamp_range 0.5 0.1 1.0 eq_refl) as (_ & _ & Hin & _).
  destruct (_clamp_range nan 0.1 1.0 eq_refl) as (_ & _ & _ & Hnan).
  split; [exact (Hin eq_refl eq_refl) | exact (Hnan eq_refl eq_refl)].
Defined.

(** Readiness 0.5 against 0.9 at the same adherence. *)
Lemma base_thresholds_monotone_witness :
  exists t1 t2 : tier,
    base_thresholds 0.5 0.7 = tier_name t1
    /\ base_thresholds 0.9 0.7 = tier_name t2
    /\ ordinal t1 <= ordinal t2.
Proof. exact (base_thresholds_monotone 0.5 0.9 0.7 0.7 eq_refl eq_refl). Defined.

(** A NaN among two sleep readings. *)
Lemma nan_reading_scores_best_witness :
  exists r, mean [80; nan]%float = Returned r /\ sleep_score_of r = 1.0%float.
Proof.
  destruct (nan_reading_scores_best [80; nan]%float eq_refl) as (r & Hm & _ & Hs & _).
  exists r. split; [exact Hm | exact Hs].
Defined.

(** Two plans in the window, both Completed. *)
Lemma adherence_score_extremes_witness :
  exists window,
    _recent_plans (RT := Example.runtime) Scenario.db_ready Example.clk "u1" 7
    = Returned window
    /\ window <> []
    /\ adherence_score (RT := Example.runtime) Scenario.db_ready Example.clk "u1" 7
       = Returned 1%float.
Proof.
  exists (find_plans Scenario.db_ready "u1" "2024-04-03").
  assert (Hret : _recent_plans (RT := Example.runtime) Scenario.db_ready Example.clk "u1" 7
                 = Returned (find_plans Scenario.db_ready "u1" "2024-04-03"))
    by reflexivity.
  assert (Hne : find_plans Scenario.db_ready "u1" "2024-04-03" <> [])
    by (vm_compute; discriminate).
  split; [exact Hret |]. split; [exact Hne |].
  destruct (adherence_score_extremes (RT := Example.runtime) Scenario.db_ready Example.clk
              "u1" 7 _ Hret Hne) as [_ Hall].
  apply Hall. reflexivity.
Defined.

(** Step counts of 1200, 1800 and 901, and a sample without a value. *)
Lemma generate_nudges_between_witness :
  exists avg,
    901 <= avg <= 1800
    /\ fst (generate_nudges (RT := Example.runtime) "u1" Example.unreachable_model
              (Example.a_world Scenario.db_walker))
       = Returned (recommendation_doc "u1"
                     "Great start! Add another short walk to hit your daily goal." "nudge").
Proof.
  destruct (generate_nudges_between (RT := Example.runtime) "u1" Example.unreachable_model
              (Example.a_world Scenario.db_walker) 901 1800)
    as (avg & Hrange & Hrun & _ & Hgreat & _).
  - reflexivity.
  - vm_compute. discriminate.
  - lia.
  - vm_compute. discriminate.
  - intros z Hin. vm_compute in Hin.
    repeat destruct Hin as [Hin | Hin]; try (rewrite <- Hin; lia). destruct Hin.
  - exists avg. split; [exact Hrange |]. rewrite Hrun. cbn [fst].
    rewrite (Hgreat ltac:(lia) ltac:(lia)). reflexivity.
Defined.

(** No Steps sample at all. *)
Lemma generate_nudges_no_reading_witness :
  fst (generate_nudges (RT := Example.runtime) "u1" Example.unreachable_model
         (Example.a_world Example.db_fresh))
  = Returned (recommendation_doc "u1"
                "Quick win: 10-minute brisk walk to boost your step count." "nudge").
Proof.
  destruct (generate_nudges_no_reading (RT := Example.runtime) "u1" Example.unreachable_model
              (Example.a_world Example.db_fresh) eq_refl) as [Hrun _].
  rewrite Hrun. reflexivity.
Defined.

(** A High plan stored today, then the repository's behaviour model asked
    again. *)
Lemma consecutive_plans_one_step_witness :
  let db' := w_db (snd (generate_plan (RT := Example.runtime) Example.a_user
                          (Example.model_returning (VStr "High")) Example.clk
                          (Example.a_world Example.db_plans))) in
  one_plan_per_day (plans Example.db_plans)
  /\ exists t1 t2 : tier,
    template_of High = template_of t1
    /\ next_best_intensity (RT := Example.runtime) db' Example.clk "u1"
       = Returned (tier_name t2)
    /\ Z.abs (ordinal t2 - ordinal t1) <= 1.
Proof.
  split; [exact db_plans_one_per_day |].
  destruct (consecutive_plans_one_step (RT := Example.runtime) Example.a_user
              (Example.model_returning (VStr "High")) Example.clk Example.clk
              (Example.a_world Example.db_plans)
              (plan_doc "u1" (template_of High) "2024-04-10" "Proposed")
              db_plans_one_per_day eq_refl eq_refl)
    as (t1 & t2 & H1 & H2 & H3).
  - intros p Hin _. cbn in Hin.
    repeat destruct Hin as [Hin | Hin]; try (rewrite <- Hin; reflexivity). destruct Hin.
  - exists t1, t2. split; [exact H1 |]. split; [exact H2 | exact H3].
Defined.

(** ** A reading that is not a number, end to end *)

Section NotANumberReadiness.

Context {RT : Runtime}.

Local Open Scope float_scope.

Lemma hundredths_ready_table : forallb hundredth_ready (seq 64 37) = true.
Proof. vm_compute. reflexivity. Qed.

Lemma hundredth_ready_range (K : Z) :
  (64 <= K <= 100)%Z -> (0.64 <=? float_of_Q (K # 100)) = true.
Proof.
  intros HK. pose proof hundredths_ready_table as Ht.
  rewrite forallb_forall in Ht. specialize (Ht (Z.to_nat K)).
  unfold hundredth_ready in Ht. rewrite Z2Nat.id in Ht by lia.
  apply Ht. apply in_seq. lia.
Qed.

Lemma pos_val_one : pos_val 1.0 1.
Proof. exists 4503599627370496%positive, (-52)%Z. split; [exact Prim2SF_one | reflexivity]. Qed.

(** With the best sleep sub-score the rounded weighted sum is at least
    0.64, whatever the heart-rate sub-score. *)
Lemma weighted_sum_best_sleep (h : float) :
  (0.1 <=? h) = true -> (h <=? 1.0) = true ->
  (0.64 <=? round2 (0.4 * h + 0.6 * 1.0)) = true.
Proof.
  intros Hh1 Hh2.
  destruct (unit_range_pos_val h Hh1 Hh2) as (qh & Hph & Hqh1 & Hqh2).
  assert (H04 : (1 # 1024 <= 7205759403792794 # 18014398509481984)%Q) by (vm_compute; discriminate).
  assert (H06 : (1 # 1024 <= 5404319552844595 # 9007199254740992)%Q) by (vm_compute; discriminate).
  destruct (mul_pos_val _ _ _ _ pos_val_04 Hph H04 ltac:(lra) ltac:(lra))
    as (q1 & Hp1 & Hq1a & Hq1b).
  destruct (mul_pos_val _ _ _ _ pos_val_06 pos_val_one H06 ltac:(lra) ltac:(lra))
    as (q2 & Hp2 & Hq2a & Hq2b).
  unfold eps in Hq1a, Hq1b, Hq2a, Hq2b.
  destruct (add_pos_val _ _ _ _ Hp1 Hp2 ltac:(lra) ltac:(lra) ltac:(lra))
    as (qy & Hpy & Hqya & Hqyb).
  unfold eps in Hqya, Hqyb.
  destruct Hpy as (my & ey & Hy & Hvy).
  unfold round2. rewrite Hy. cbv zeta.
  apply hundredth_ready_range. apply round_half_even_between; rewrite Hvy.
  - change (inject_Z 64) with 64%Q. lra.
  - change (inject_Z 100) with 100%Q. lra.
Qed.

(** X21. One reading that is not a number among the three most recent
    sleep scores lifts the result: on a database whose integers fit 64
    bits, readiness is then at least 0.64 whatever the other readings are,
    and [next_best_intensity] never returns Low. *)
Theorem nan_sleep_is_never_low db clk u :
  bson_db db = true ->
  existsb is_nan
    (firstn 3 (numeric_values (find_samples db clk u "SleepScore" (24 * 7) 500))) = true ->
  exists r,
    readiness_score db clk u = Returned r
    /\ (0.64 <=? r) = true
    /\ (forall s, next_best_intensity db clk u = Returned s -> s <> "Low").
Proof.
  intros Hdb Hnan.
  destruct (readiness_score_returns db clk u Hdb) as (hb & sb & ha & sa & _ & Hrec & Hr).
  assert (Hsa : is_nan sa = true).
  { unfold recent_averages in Hrec.
    rewrite !_values_numeric in Hrec by first [exact Hdb | lia].
    cbn [bind] in Hrec.
    destruct (mean_or_returns (numeric_values (find_samples db clk u "HR" 24 500)) hb)
      as [h Hh].
    rewrite Hh in Hrec. cbn [bind] in Hrec.
    destruct (mean_nan _ Hnan) as (r & Hm & Hrn).
    assert (Hmo : mean_or (firstn 3 (numeric_values
                    (find_samples db clk u "SleepScore" (24 * 7) 500))) sb = Returned r).
    { unfold mean_or.
      destruct (firstn 3 (numeric_values (find_samples db clk u "SleepScore" (24 * 7) 500)));
        [discriminate Hnan | exact Hm]. }
    rewrite Hmo in Hrec. cbn [bind] in Hrec. injection Hrec as _ <-. exact Hrn. }
  assert (Hsleep : sleep_score_of sa = 1.0)
    by (apply _clamp_default_nan, div_nan_l; exact Hsa).
  rewrite Hsleep in Hr.
  assert (Hlow : (0.64 <=? round2 (0.4 * hr_score_of hb ha + 0.6 * 1.0)) = true)
    by (apply weighted_sum_best_sleep; apply _clamp_default_range).
  eexists. split; [exact Hr |]. split; [exact Hlow |].
  intros s Hs. unfold next_best_intensity in Hs.
  destruct (adherence_score_week db clk u) as [a Ha]. rewrite Hr, Ha in Hs.
  cbn [bind] in Hs. apply hysteresis_keeps_or_moderate in Hs.
  assert (H06 : (0.6 <=? round2 (0.4 * hr_score_of hb ha + 0.6 * 1.0)) = true)
    by (apply leb_trans with (b := 0.64); [reflexivity | exact Hlow]).
  unfold base_thresholds in Hs. rewrite H06 in Hs.
  destruct Hs as [-> | ->]; [| discriminate].
  match goal with
  | |- (if ?c then _ else _) <> _ => destruct c; discriminate
  end.
Qed.

End NotANumberReadiness.

(** A sleep score of 20 and a reading of text "nan". *)
Lemma nan_sleep_is_never_low_witness :
  bson_db Scenario.db_nan = true
  /\ exists r,
       readiness_score (RT := Example.runtime) Scenario.db_nan Example.clk "u1" = Returned r
       /\ (0.64 <=? r)%float = true.
Proof.
  split; [reflexivity |].
  destruct (nan_sleep_is_never_low (RT := Example.runtime) Scenario.db_nan Example.clk "u1"
              eq_refl eq_refl) as (r & Hr & Hlow & _).
  exists r. split; [exact Hr | exact Hlow].
Defined.

(** ** Today's plan in the adherence window *)

Section TodayInTheWindow.

Context {RT : Runtime}.

Lemma filter_upsert_plan (f : plan -> bool) (doc : plan) (ps : list plan) :
  f doc = true -> (forall p, same_key doc p = true -> f p = true) ->
  filter f (upsert_plan doc ps) = upsert_plan doc (filter f ps).
Proof.
  intros Hdoc Hkey. induction ps as [| p ps IH]; cbn [upsert_plan filter].
  - rewrite Hdoc. reflexivity.
  - fold (same_key doc p). destruct (same_key doc p) eqn:Hk.
    + rewrite (Hkey p Hk). cbn [filter upsert_plan]. fold (same_key doc p).
      rewrite Hdoc, Hk. reflexivity.
    + cbn [filter]. destruct (f p); [| exact IH].
      cbn [upsert_plan]. fold (same_key doc p). rewrite Hk, IH. reflexivity.
Qed.

Lemma count_completed_cons (p : plan) (ps : list plan) :
  count_completed (p :: ps) =
  (if eq_str (p_status p) "Completed" then 1 else 0) + count_completed ps.
Proof.
  unfold count_completed. cbn [filter].
  destruct (eq_str (p_status p) "Completed"); cbn [List.length]; lia.
Qed.

Lemma count_completed_upsert (doc : plan) (ps : list plan) :
  eq_str (p_status doc) "Completed" = false ->
  count_completed (upsert_plan doc ps) <= count_completed ps.
Proof.
  intros Hdoc. induction ps as [| p ps IH]; cbn [upsert_plan].
  - rewrite count_completed_cons, Hdoc. unfold count_completed. cbn. lia.
  - destruct (_ && _).
    + rewrite !count_completed_cons, Hdoc. destruct (eq_str (p_status p) "Completed"); lia.
    + rewrite !count_completed_cons. lia.
Qed.

(** X22. A plan generated today enters the adherence window as a plan
    that is not completed (the window reaching today): today's plan of the
    user is replaced by one with status Proposed, so the number of
    Completed plans never goes up and the number of plans never goes down,
    and a user without a Completed plan in the window has adherence 0.0
    afterwards, where a user without any plan had 0.5. *)
Theorem generate_plan_counts_as_open (u : user) (bm : BehaviorModelLike) (clk : clock)
        (w : world) (doc : plan) (days : Z) (before : list plan) :
  fst (generate_plan u bm clk w) = Returned doc ->
  String.leb (isoformat (today clk - days)) (isoformat (today clk)) = true ->
  _recent_plans (w_db w) clk (userId u) days = Returned before ->
  let db' := w_db (snd (generate_plan u bm clk w)) in
  exists after,
    _recent_plans db' clk (userId u) days = Returned after
    /\ after = upsert_plan doc before
    /\ p_status doc = VStr "Proposed"
    /\ count_completed after <= count_completed before
    /\ (List.length before <= List.length after)%nat
    /\ (count_completed before = 0 ->
        adherence_score db' clk (userId u) days = Returned 0%float).
Proof.
  intros Hret Hwin Hbefore db'. subst db'.
  destruct (generate_plan_cases u bm clk w) as [(e & Hr & _) | (items & _ & Hr & ->)];
    [congruence |].
  cbn zeta in Hr. rewrite Hr in Hret. injection Hret as <-.
  set (doc := plan_doc (userId u) items (isoformat (today clk)) "Proposed").
  assert (Hw : window_in_calendar clk days).
  { destruct (window_in_calendar_dec clk days) as [Hw | Hw]; [exact Hw |].
    rewrite _recent_plans_raises in Hbefore by exact Hw. discriminate Hbefore. }
  rewrite _recent_plans_eq in Hbefore by exact Hw. injection Hbefore as <-.
  assert (Hafter : _recent_plans
                     {| plans := upsert_plan doc (plans (w_db w));
                        sensordata := sensordata (w_db w);
                        recommendations := recommendations (w_db w) |} clk (userId u) days
                   = Returned (upsert_plan doc
                                 (find_plans (w_db w) (userId u)
                                    (isoformat (today clk - days))))).
  { rewrite _recent_plans_eq by exact Hw. f_equal.
    unfold find_plans. cbn [plans]. apply filter_upsert_plan.
    - cbn [doc plan_doc p_userId p_date]. rewrite String.eqb_refl, Hwin. reflexivity.
    - intros p Hk. unfold same_key in Hk. apply andb_prop in Hk. destruct Hk as [Hu Hd].
      apply String.eqb_eq in Hd. cbn [doc plan_doc p_userId p_date] in Hu, Hd.
      rewrite Hu, Hd, Hwin. reflexivity. }
  rewrite adherence_score_eq, Hafter. cbn [bind].
  set (before := find_plans (w_db w) (userId u) (isoformat (today clk - days))).
  pose proof (count_completed_upsert doc before eq_refl) as Hcount.
  pose proof (upsert_plan_length doc before) as Hlen.
  exists (upsert_plan doc before).
  split; [reflexivity |].
  split; [reflexivity |]. split; [reflexivity |]. split; [exact Hcount |]. split.
  - rewrite Hlen. destruct (existsb (same_key doc) before); lia.
  - intros H0. pose proof (count_completed_range (upsert_plan doc before)) as Hrange.
    pose proof (upsert_plan_stored doc before) as Hin.
    destruct (upsert_plan doc before) as [| p ps]; [destruct Hin |].
    replace (count_completed (p :: ps)) with 0 by lia. reflexivity.
Qed.

End TodayInTheWindow.

(** The first plan of a user the database has never seen. *)
Lemma generate_plan_counts_as_open_witness :
  _recent_plans (RT := Example.runtime) Example.db_plans Example.clk "u9" 7 = Returned []
  /\ adherence_score (RT := Example.runtime) Example.db_plans Example.clk "u9" 7
     = Returned 0.5%float
  /\ adherence_score (RT := Example.runtime)
       (w_db (snd (generate_plan (RT := Example.runtime) {| userId := "u9" |}
                     Example.unreachable_model Example.clk
                     (Example.a_world Example.db_plans))))
       Example.clk "u9" 7
     = Returned 0%float.
Proof.
  split; [reflexivity |]. split; [reflexivity |].
  destruct (generate_plan_counts_as_open (RT := Example.runtime) {| userId := "u9" |}
              Example.unreachable_model Example.clk (Example.a_world Example.db_plans)
              (plan_doc "u9" (template_of Moderate) "2024-04-10" "Proposed") 7 []
              eq_refl eq_refl eq_refl) as (after & _ & _ & _ & _ & _ & Hzero).
  apply Hzero. reflexivity.
Defined.
